(** * Document-processing pipeline: sidecar store, ingestion trigger,
    status poller, extraction worker, upload initiator and status reader.

    A shallow embedding of the Lambda handlers under [code/lambda/] and of
    [shared/sidecar_manager.py], with the properties of the pipeline stated
    and proved over it. *)

From Stdlib Require Import ZArith QArith Ascii String List Lia Bool.
From stdpp Require Import base option list strings gmap fin_maps.

Local Open Scope string_scope.
Local Open Scope Z_scope.

(** ** Python strings *)

Module PyStr.

(** [s.endswith(suf)]: some tail of [s] is [suf]. *)
Fixpoint endswith (s suf : string) : bool :=
  if String.eqb s suf then true
  else match s with
       | EmptyString => false
       | String _ s' => endswith s' suf
       end.

(** [s.startswith(p)]. *)
Definition startswith (s p : string) : bool := String.prefix p s.

(** [s[:-n]]: for [n = 0] Python reads the bound as [0] and yields the
    empty string; a bound past the start is clamped. *)
Definition drop_last (n : nat) (s : string) : string :=
  match n with
  | O => EmptyString
  | _ => String.substring 0 (String.length s - n) s
  end.

(** [s[:n]] for [n >= 0]. *)
Fixpoint take (n : N) (s : string) : string :=
  match s with
  | EmptyString => EmptyString
  | String a s' =>
      if (n =? 0)%N then EmptyString else String a (take (N.pred n) s')
  end.

(** [s.split(c)] for a one-character separator: never empty. *)
Fixpoint split (c : ascii) (s : string) : list string :=
  match s with
  | EmptyString => [EmptyString]
  | String a s' =>
      if Ascii.eqb a c then EmptyString :: split c s'
      else match split c s' with
           | [] => [String a EmptyString]
           | p :: ps => String a p :: ps
           end
  end.

(** [sep.join(parts)]. *)
Definition join (sep : string) (parts : list string) : string :=
  String.concat sep parts.

(** [c in s] for a one-character [c]. *)
Fixpoint contains_char (c : ascii) (s : string) : bool :=
  match s with
  | EmptyString => false
  | String a s' => Ascii.eqb a c || contains_char c s'
  end.

(** [s.rsplit(c, 1)[0]]: what precedes the last [c]; all of [s] when
    [c] does not occur. *)
Definition rsplit1_head (c : ascii) (s : string) : string :=
  let parts := split c s in
  match parts with
  | [_] => s
  | _ => join (String c EmptyString) (removelast parts)
  end.

(** [parts[-1]] of a non-empty list. *)
Definition last_part (parts : list string) : string :=
  List.last parts EmptyString.

(** [s.find(c)] for a one-character [c]: [None] stands for [-1]. *)
Fixpoint find_char (c : ascii) (s : string) : option nat :=
  match s with
  | EmptyString => None
  | String a s' =>
      if Ascii.eqb a c then Some O
      else option_map S (find_char c s')
  end.

(** [s.rfind(c)] for a one-character [c]. *)
Fixpoint rfind_char (c : ascii) (s : string) : option nat :=
  match s with
  | EmptyString => None
  | String a s' =>
      match rfind_char c s' with
      | Some i => Some (S i)
      | None => if Ascii.eqb a c then Some O else None
      end
  end.

(** [s[i:j]] for [0 <= i], [0 <= j]. *)
Definition slice (i j : nat) (s : string) : string :=
  String.substring i (j - i) s.

(** Python's [str.isspace] on ASCII. *)
Definition is_space (a : ascii) : bool :=
  let n := nat_of_ascii a in
  ((9 <=? n) && (n <=? 13) || (28 <=? n) && (n <=? 32))%nat.

Fixpoint lstrip (s : string) : string :=
  match s with
  | EmptyString => EmptyString
  | String a s' => if is_space a then lstrip s' else s
  end.

Fixpoint rstrip (s : string) : string :=
  match s with
  | EmptyString => EmptyString
  | String a s' =>
      match rstrip s' with
      | EmptyString => if is_space a then EmptyString else String a EmptyString
      | r => String a r
      end
  end.

(** [s.strip()]. *)
Definition strip (s : string) : string := rstrip (lstrip s).

Definition lower_char (a : ascii) : ascii :=
  let n := nat_of_ascii a in
  if ((65 <=? n) && (n <=? 90))%nat then ascii_of_nat (n + 32) else a.

(** [s.lower()] on ASCII. *)
Fixpoint lower (s : string) : string :=
  match s with
  | EmptyString => EmptyString
  | String a s' => String (lower_char a) (lower s')
  end.

End PyStr.

(** ** Python values

    The values the handlers pass around and store: what [json.loads]
    returns and [json.dumps] accepts.  A dictionary keeps its insertion
    order.  [JTime t] is the string [datetime.isoformat()] gives for the
    naive UTC instant [t] (in microseconds); [datetime.fromisoformat]
    reads it back as [t]. *)

#[warnings="-register-all"]
Inductive json : Type :=
| JNull
| JBool (b : bool)
| JInt (n : Z)
| JFloat (q : Q)
| JStr (s : string)
| JTime (t : Z)
| JList (l : list json)
| JDict (d : list (string * json)).

Abbreviation dict := (list (string * json)).

(** ** Exceptions *)

Inductive exn : Type :=
| ValueError (msg : string)
| KeyError (key : string)
| IndexError
| TypeError
| AttributeError
| JSONDecodeError
| NoSuchKey
| ClientError (msg : string).

Inductive result (A : Type) : Type :=
| Ok (a : A)
| Raise (e : exn).
Arguments Ok {A} a.
Arguments Raise {A} e.

Module Py.

(** [d.get(k)] on a dictionary. *)
Fixpoint dict_get (k : string) (d : dict) : option json :=
  match d with
  | [] => None
  | (k', v) :: d' => if String.eqb k' k then Some v else dict_get k d'
  end.

(** [d[k] = v]: an existing key keeps its place, a new one goes last. *)
Fixpoint dict_set (k : string) (v : json) (d : dict) : dict :=
  match d with
  | [] => [(k, v)]
  | (k', v') :: d' =>
      if String.eqb k' k then (k', v) :: d' else (k', v') :: dict_set k v d'
  end.

(** [{**d, **extra}]. *)
Definition dict_update (d extra : dict) : dict :=
  fold_left (fun acc kv => dict_set (fst kv) (snd kv) acc) extra d.

(** [k in d]. *)
Definition dict_mem (k : string) (d : dict) : bool :=
  match dict_get k d with Some _ => true | None => false end.

(** Truth value of a value, as [if v:], [not v] and [v or w] test it. *)
Definition truthy (v : json) : bool :=
  match v with
  | JNull => false
  | JBool b => b
  | JInt n => negb (n =? 0)
  | JFloat q => negb (Qeq_bool q 0)
  | JStr s => negb (String.eqb s EmptyString)
  | JTime _ => true
  | JList l => match l with [] => false | _ => true end
  | JDict d => match d with [] => false | _ => true end
  end.

(** [v or w]. *)
Definition or_else (v w : json) : json := if truthy v then v else w.

(** [v == s] against a string literal. *)
Definition eq_str (v : json) (s : string) : bool :=
  match v with
  | JStr s' => String.eqb s' s
  | _ => false
  end.

(** [v.get(k, default)]: only a dictionary has [get]. *)
Definition get (v : json) (k : string) (default : json) : result json :=
  match v with
  | JDict d => Ok (match dict_get k d with Some x => x | None => default end)
  | _ => Raise AttributeError
  end.

(** [v[k]] with a string key. *)
Definition getitem (v : json) (k : string) : result json :=
  match v with
  | JDict d => match dict_get k d with
               | Some x => Ok x
               | None => Raise (KeyError k)
               end
  | _ => Raise TypeError
  end.

(** [v[0]] (the characters of a [JTime] string are not given). *)
Definition getitem0 (v : json) : result json :=
  match v with
  | JList (x :: _) => Ok x
  | JList [] => Raise IndexError
  | JStr (String a _) => Ok (JStr (String a EmptyString))
  | JStr EmptyString => Raise IndexError
  | JDict _ => Raise (KeyError "0")
  | _ => Raise TypeError
  end.

(** The number a value compares as under [<] and [>]; [bool] is a
    subtype of [int]. *)
Definition as_number (v : json) : option Q :=
  match v with
  | JInt n => Some (inject_Z n)
  | JFloat q => Some q
  | JBool b => Some (inject_Z (if b then 1 else 0))
  | _ => None
  end.

(** [v > n] against an integer. *)
Definition gt_int (v : json) (n : Z) : result bool :=
  match as_number v with
  | Some q => Ok (negb (Qle_bool q (inject_Z n)))
  | None => Raise TypeError
  end.

(** The elements [for x in v] runs over (the characters of a [JTime]
    string are not given). *)
Definition iter (v : json) : result (list json) :=
  match v with
  | JList l => Ok l
  | JDict d => Ok (map (fun kv => JStr (fst kv)) d)
  | JStr s => Ok (map (fun a => JStr (String a EmptyString))
                      (list_ascii_of_string s))
  | _ => Raise TypeError
  end.

Fixpoint strings (l : list json) : result (list string) :=
  match l with
  | [] => Ok []
  | JStr s :: l' => match strings l' with
                    | Ok ss => Ok (s :: ss)
                    | Raise e => Raise e
                    end
  | _ :: _ => Raise TypeError
  end.

(** [sep.join(v)]: every element has to be a string. *)
Definition join (sep : string) (v : json) : result string :=
  match iter v with
  | Ok l => match strings l with
            | Ok ss => Ok (PyStr.join sep ss)
            | Raise e => Raise e
            end
  | Raise e => Raise e
  end.

(** Whether a Python [float] occurs in a value. *)
Fixpoint has_float (v : json) : bool :=
  match v with
  | JFloat _ => true
  | JList l => existsb has_float l
  | JDict d => existsb (fun kv => match kv with (_, x) => has_float x end) d
  | _ => false
  end.

(** [k in v] for a string [k]: a key of a dictionary, an element of a
    list, a substring of a string. *)
Definition contains (v : json) (k : string) : result bool :=
  match v with
  | JDict d => Ok (dict_mem k d)
  | JList l => Ok (existsb (fun x => eq_str x k) l)
  | JStr s => Ok (match String.index 0 k s with
                  | Some _ => true
                  | None => false
                  end)
  | _ => Raise TypeError
  end.

(** [v in l] for a list of string literals. *)
Definition in_strs (v : json) (l : list string) : bool :=
  existsb (eq_str v) l.

End Py.

(** ** The world the handlers act on *)

(** What an object of the bucket holds.  [Json d] is an object written
    with [Body=json.dumps(d, ...)], which [json.loads] reads back as [d];
    [Raw b] is any other content, by its bytes. *)
Inductive content : Type :=
| Raw (bytes : string)
| Json (data : json).

Record s3object : Type := {
  Body : content;
  ContentType : option string;
  Metadata : dict
}.

(** A DynamoDB item: attribute name to value. *)
Abbreviation item := (gmap string json).

Record World : Type := {
  (** objects by (bucket, key) *)
  s3 : gmap (string * string) s3object;
  (** the document metadata table, by (userId, documentId) *)
  metadata_table : gmap (string * string) item;
  (** items put into the activity logging table, oldest first *)
  logging_table : list item;
  (** the calls to [start_ingestion_job] so far, by their parameters,
      oldest first *)
  ingestion_calls : list dict;
  (** asynchronous Lambda invocations so far: function name and payload *)
  invocations : list (string * dict);
  (** number of clock readings so far *)
  clock : nat;
  (** number of identifiers drawn so far *)
  uuids : nat
}.

Definition set_s3 (f : gmap (string * string) s3object -> gmap (string * string) s3object)
    (w : World) : World :=
  {| s3 := f (s3 w); metadata_table := metadata_table w;
     logging_table := logging_table w; ingestion_calls := ingestion_calls w;
     invocations := invocations w; clock := clock w; uuids := uuids w |}.

Definition set_metadata_table
    (f : gmap (string * string) item -> gmap (string * string) item)
    (w : World) : World :=
  {| s3 := s3 w; metadata_table := f (metadata_table w);
     logging_table := logging_table w; ingestion_calls := ingestion_calls w;
     invocations := invocations w; clock := clock w; uuids := uuids w |}.

Definition set_logging_table (f : list item -> list item) (w : World) : World :=
  {| s3 := s3 w; metadata_table := metadata_table w;
     logging_table := f (logging_table w); ingestion_calls := ingestion_calls w;
     invocations := invocations w; clock := clock w; uuids := uuids w |}.

Definition set_ingestion_calls (f : list dict -> list dict) (w : World) : World :=
  {| s3 := s3 w; metadata_table := metadata_table w;
     logging_table := logging_table w; ingestion_calls := f (ingestion_calls w);
     invocations := invocations w; clock := clock w; uuids := uuids w |}.

Definition set_invocations
    (f : list (string * dict) -> list (string * dict)) (w : World) : World :=
  {| s3 := s3 w; metadata_table := metadata_table w;
     logging_table := logging_table w; ingestion_calls := ingestion_calls w;
     invocations := f (invocations w); clock := clock w; uuids := uuids w |}.

Definition tick (w : World) : World :=
  {| s3 := s3 w; metadata_table := metadata_table w;
     logging_table := logging_table w; ingestion_calls := ingestion_calls w;
     invocations := invocations w; clock := S (clock w); uuids := uuids w |}.

Definition draw (w : World) : World :=
  {| s3 := s3 w; metadata_table := metadata_table w;
     logging_table := logging_table w; ingestion_calls := ingestion_calls w;
     invocations := invocations w; clock := clock w; uuids := S (uuids w) |}.

(** ** The environment of a deployment

    Configuration read from [os.environ] at import time, the external
    services the handlers call, and the library functions whose result is
    taken as given. *)
Record Env : Type := {
  KNOWLEDGE_BASE_ID : json;
  DATA_SOURCE_ID : json;
  (** [''] when unset *)
  DOCUMENT_ANALYSIS_LAMBDA : string;
  (** [None] when unset: the ingestion trigger and the extraction worker
      then have no [metadata_table] *)
  DOCUMENT_METADATA_TABLE : option string;
  (** [BUCKET_NAME], [DOCS_BUCKET_NAME]; [''] when unset *)
  BUCKET_NAME : string;
  MODEL_ID : string;
  (** [LOGGING_TABLE_NAME] is set *)
  LOGGING_TABLE : bool;
  (** [EXTRACTION_PROMPTS[document_type]] for the four known types *)
  EXTRACTION_PROMPTS : string -> string;
  (** the [n]-th reading of [datetime.utcnow()], microseconds *)
  utcnow_at : nat -> Z;
  (** the [n]-th [str(uuid.uuid4())] *)
  uuid4_at : nat -> string;
  (** [bedrock_agent.start_ingestion_job] on its keyword arguments, given
      the number of calls made before *)
  start_ingestion_job : nat -> dict -> result json;
  (** [bedrock_agent.get_ingestion_job(...)] at a given moment *)
  get_ingestion_job : nat -> json -> result json;
  (** [bedrock_runtime.invoke_model(modelId, body)]: the response body *)
  invoke_model : string -> json -> result string;
  (** [s3_client.generate_presigned_url('put_object', ...)] for a bucket,
      key and content type *)
  generate_presigned_url : string -> string -> json -> string;
  (** [get_family_profile(user_id)]: the profile store is an external
      collaborator *)
  get_family_profile : json -> json;
  (** [json.loads]: [None] for [JSONDecodeError] *)
  json_loads : string -> option json;
  (** [json.dumps] *)
  json_dumps : json -> string;
  (** [bytes.decode('utf-8')]: [None] for [UnicodeDecodeError] *)
  utf8_decode : string -> option string;
  (** [str(v)] of a value that is not a string *)
  py_repr : json -> string;
  (** [str(e)] of an exception the interpreter or a client library raised *)
  exn_text : exn -> string
}.

(** ** State and exceptions *)

Definition M (A : Type) : Type := World -> World * result A.

Definition ret {A : Type} (a : A) : M A := fun w => (w, Ok a).

Definition raise {A : Type} (e : exn) : M A := fun w => (w, Raise e).

Definition lift {A : Type} (r : result A) : M A := fun w => (w, r).

Definition bind {A B : Type} (m : M A) (f : A -> M B) : M B :=
  fun w => match m w with
           | (w', Ok a) => f a w'
           | (w', Raise e) => (w', Raise e)
           end.

(** [try: m except Exception as e: h e]: what [m] did before it raised
    stays done. *)
Definition try_except {A : Type} (m : M A) (h : exn -> M A) : M A :=
  fun w => match m w with
           | (w', Ok a) => (w', Ok a)
           | (w', Raise e) => h e w'
           end.

Definition modify (f : World -> World) : M unit := fun w => (f w, Ok tt).

Definition gets {A : Type} (f : World -> A) : M A := fun w => (w, Ok (f w)).

Declare Scope py_scope.
Delimit Scope py_scope with py.
Notation "x <- m ;; k" := (bind m (fun x => k))
  (at level 100, m at next level, right associativity) : py_scope.
Notation "m ;;; k" := (bind m (fun _ => k))
  (at level 100, right associativity) : py_scope.
Local Open Scope py_scope.

(** ** Clients: clock, object storage, document table *)

Section Clients.
Variable env : Env.

(** [datetime.utcnow()] *)
Definition utcnow : M Z :=
  fun w => (tick w, Ok (utcnow_at env (clock w))).

(** [datetime.utcnow().isoformat()] *)
Definition utcnow_iso : M json :=
  t <- utcnow;; ret (JTime t).

(** [str(uuid.uuid4())] *)
Definition uuid4 : M string :=
  fun w => (draw w, Ok (uuid4_at env (uuids w))).

(** [s3.put_object(Bucket, Key, Body, ContentType, Metadata)] *)
Definition put_object (bucket key : string) (o : s3object) : M unit :=
  modify (set_s3 (fun m => <[(bucket, key) := o]> m)).

(** [s3.get_object(Bucket, Key)] *)
Definition get_object (bucket key : string) : M s3object :=
  fun w => match s3 w !! (bucket, key) with
           | Some o => (w, Ok o)
           | None => (w, Raise NoSuchKey)
           end.

(** [s3.delete_object(Bucket, Key)]: deleting a key that is not there
    succeeds too. *)
Definition delete_object (bucket key : string) : M unit :=
  modify (set_s3 (fun m => delete (bucket, key) m)).

(** The key attributes of the table are non-empty strings: the service
    refuses any other value.  The client refuses to serialise a Python
    [float] ([TypeError]: it asks for [Decimal]). *)
Definition table_key (user_id document_id : json) : option (string * string) :=
  match user_id, document_id with
  | JStr u, JStr d =>
      if String.eqb u EmptyString || String.eqb d EmptyString then None
      else Some (u, d)
  | _, _ => None
  end.

(** [table.get_item(Key={'userId': u, 'documentId': d})]: the item, if
    there is one. *)
Definition get_item (user_id document_id : json) : M (option item) :=
  match table_key user_id document_id with
  | Some k => gets (fun w => metadata_table w !! k)
  | None => raise (ClientError "ValidationException")
  end.

(** [table.put_item(Item=it)] for an item whose key attributes are
    [user_id] and [document_id]. *)
Definition put_item (user_id document_id : json) (it : item) : M unit :=
  if existsb (fun kv => Py.has_float (snd kv)) (map_to_list it)
  then raise TypeError
  else
    match table_key user_id document_id with
    | Some k => modify (set_metadata_table (fun m => <[k := it]> m))
    | None => raise (ClientError "ValidationException")
    end.

(** [table.update_item(Key, UpdateExpression='SET ... REMOVE ...')]:
    the item is created from its key when absent, each [SET] attribute
    is written and each [REMOVE] attribute dropped. *)
Definition update_item (user_id document_id : json)
    (sets : list (string * json)) (removes : list string) : M unit :=
  if existsb (fun kv => Py.has_float (snd kv)) sets then raise TypeError
  else
  match table_key user_id document_id with
  | Some (u, d) =>
      modify (set_metadata_table (fun m =>
        let it := match m !! (u, d) with
                  | Some it => it
                  | None => <["userId" := JStr u]> (<["documentId" := JStr d]> ∅)
                  end in
        let it := fold_left (fun acc kv => <[fst kv := snd kv]> acc) sets it in
        let it := fold_left (fun acc k => delete k acc) removes it in
        <[(u, d) := it]> m))
  | None => raise (ClientError "ValidationException")
  end.

(** [str(v)] *)
Definition str (v : json) : string :=
  match v with
  | JStr s => s
  | _ => py_repr env v
  end.

(** [str(e)] *)
Definition str_exn (e : exn) : string :=
  match e with
  | ValueError msg => msg
  | ClientError msg => msg
  | KeyError k => "'" ++ k ++ "'"
  | _ => exn_text env e
  end.

End Clients.

(** ** [shared/sidecar_manager.py] *)

Module SidecarManager.

(** A manager is its bucket; its S3 client is the world. *)
Record t : Type := { bucket : string }.

Definition SIDECAR_TYPES : list (string * string) :=
  [ ("metadata", ".metadata.json");
    ("extracted", ".extracted.json");
    ("processing", ".processing.json");
    ("insights", ".insights.json");
    ("audit", ".audit.json") ].

Definition keys : list string := map fst SIDECAR_TYPES.
Definition values : list string := map snd SIDECAR_TYPES.

Fixpoint assoc (k : string) (l : list (string * string)) : option string :=
  match l with
  | [] => None
  | (k', v) :: l' => if String.eqb k' k then Some v else assoc k l'
  end.

Definition unknown_sidecar_type (sidecar_type : string) : exn :=
  ValueError ("Unknown sidecar type: " ++ sidecar_type ++ ". Valid types: "
              ++ "['metadata', 'extracted', 'processing', 'insights', 'audit']").

Definition get_sidecar_key (document_s3_key sidecar_type : string)
    : result string :=
  match assoc sidecar_type SIDECAR_TYPES with
  | Some suffix =>
      if String.eqb suffix EmptyString
      then Raise (unknown_sidecar_type sidecar_type)
      else Ok (document_s3_key ++ suffix)
  | None => Raise (unknown_sidecar_type sidecar_type)
  end.

Definition is_sidecar_file (s3_key : string) : bool :=
  existsb (fun suffix => PyStr.endswith s3_key suffix) values.

Fixpoint first_suffix (sidecar_s3_key : string) (suffixes : list string)
    : option string :=
  match suffixes with
  | [] => None
  | suffix :: rest =>
      if PyStr.endswith sidecar_s3_key suffix
      then Some (PyStr.drop_last (String.length suffix) sidecar_s3_key)
      else first_suffix sidecar_s3_key rest
  end.

Definition get_document_from_sidecar_key (sidecar_s3_key : string)
    : option string :=
  first_suffix sidecar_s3_key values.

Section WithEnv.
Variable env : Env.
Variable self : t.

Definition write_sidecar (document_s3_key sidecar_type : string)
    (data : json) : M string :=
  sidecar_key <- lift (get_sidecar_key document_s3_key sidecar_type);;
  created_at <- utcnow_iso env;;
  put_object (bucket self) sidecar_key
    {| Body := Json data;
       ContentType := Some "application/json";
       Metadata := [ ("sidecar-type", JStr sidecar_type);
                     ("parent-document", JStr document_s3_key);
                     ("created-at", created_at) ] |};;;
  ret sidecar_key.

(** [None] is [JNull]. *)
Definition read_sidecar (document_s3_key sidecar_type : string) : M json :=
  sidecar_key <- lift (get_sidecar_key document_s3_key sidecar_type);;
  try_except
    (response <- get_object (bucket self) sidecar_key;;
     match Body response with
     | Json data => ret data
     | Raw bytes =>
         match json_loads env bytes with
         | Some data => ret data
         | None => raise JSONDecodeError
         end
     end)
    (fun e => match e with
              | NoSuchKey => ret JNull
              | _ => raise e
              end).

(** [data[k].append(entry)]: the list is looked up, then its
    [append], then the entry is evaluated. *)
Definition append_at (data : json) (k : string) (entry : M json) : M json :=
  l <- lift (Py.getitem data k);;
  match l, data with
  | JList xs, JDict d =>
      e <- entry;;
      ret (JDict (Py.dict_set k (JList (xs ++ [e])) d))
  | _, _ => raise AttributeError
  end.

(** [data[k] = v] *)
Definition setitem (data : json) (k : string) (v : json) : result json :=
  match data with
  | JDict d => Ok (JDict (Py.dict_set k v d))
  | _ => Raise TypeError
  end.

(** [error_info] is an [Optional[Dict]]: [None] when not given. *)
Definition append_processing_status (document_s3_key status details : string)
    (error_info : option dict) : M unit :=
  stored <- read_sidecar document_s3_key "processing";;
  let processing_data :=
    Py.or_else stored
      (JDict [ ("statusChain", JList []);
               ("currentStatus", JStr "pending");
               ("errors", JList []) ]) in
  processing_data <-
    append_at processing_data "statusChain"
      (timestamp <- utcnow_iso env;;
       ret (JDict [ ("status", JStr status);
                    ("timestamp", timestamp);
                    ("details", JStr details) ]));;
  processing_data <- lift (setitem processing_data "currentStatus" (JStr status));;
  processing_data <-
    match error_info with
    | Some ((_ :: _) as extra) =>
        append_at processing_data "errors"
          (timestamp <- utcnow_iso env;;
           ret (JDict (Py.dict_update [("timestamp", timestamp)] extra)))
    | _ => ret processing_data
    end;;
  write_sidecar document_s3_key "processing" processing_data;;;
  ret tt.

Definition append_audit_event (document_s3_key action : string)
    (user_id : json) (kwargs : dict) : M unit :=
  stored <- read_sidecar document_s3_key "audit";;
  let audit_data := Py.or_else stored (JDict [("events", JList [])]) in
  timestamp <- utcnow_iso env;;
  let event :=
    JDict (Py.dict_update [ ("timestamp", timestamp);
                            ("action", JStr action);
                            ("userId", user_id) ] kwargs) in
  audit_data <- append_at audit_data "events" (ret event);;
  write_sidecar document_s3_key "audit" audit_data;;;
  ret tt.

(** The loop of [get_all_sidecars] over the sidecar types. *)
Fixpoint read_all (document_s3_key : string) (sidecar_types : list string)
    (sidecars : dict) : M dict :=
  match sidecar_types with
  | [] => ret sidecars
  | sidecar_type :: rest =>
      data <- read_sidecar document_s3_key sidecar_type;;
      read_all document_s3_key rest
        (if Py.truthy data
         then Py.dict_set sidecar_type data sidecars
         else sidecars)
  end.

Definition get_all_sidecars (document_s3_key : string) : M json :=
  sidecars <- read_all document_s3_key keys [];;
  ret (JDict sidecars).

(** The loop of [delete_all_sidecars] over the sidecar types. *)
Fixpoint delete_all (document_s3_key : string) (sidecar_types : list string)
    (deleted_count : Z) : M Z :=
  match sidecar_types with
  | [] => ret deleted_count
  | sidecar_type :: rest =>
      sidecar_key <- lift (get_sidecar_key document_s3_key sidecar_type);;
      deleted_count <-
        try_except
          (delete_object (bucket self) sidecar_key;;;
           ret (deleted_count + 1))
          (fun _ => ret deleted_count);;
      delete_all document_s3_key rest deleted_count
  end.

Definition delete_all_sidecars (document_s3_key : string) : M Z :=
  delete_all document_s3_key keys 0.

End WithEnv.

End SidecarManager.

(** ** [ingest/index.py]: the ingestion trigger *)

Module Ingest.

Definition extract_user_id_from_s3_key (s3_key : string) : json :=
  match PyStr.split "/" s3_key with
  | p0 :: p1 :: _ => if String.eqb p0 "users" then JStr p1 else JNull
  | _ => JNull
  end.

Definition extract_document_id_from_s3_key (s3_key : string) : string :=
  let filename := PyStr.last_part (PyStr.split "/" s3_key) in
  if PyStr.contains_char "-" filename then
    let parts := PyStr.split "-" filename in
    if (5 <=? length parts)%nat
    then PyStr.join "-" (firstn 5 parts)
    else PyStr.rsplit1_head "-" filename
  else hd EmptyString (PyStr.split "." filename).

Section WithEnv.
Variable env : Env.

Definition sidecar_manager : SidecarManager.t :=
  {| SidecarManager.bucket := BUCKET_NAME env |}.

(** A bucket name that is not a string is refused by the client. *)
Definition add_user_id_metadata_to_s3 (bucket : json) (s3_key : string)
    (user_id : json) : M bool :=
  try_except
    (match bucket with
     | JStr b =>
         obj <- get_object b s3_key;;
         let content_type :=
           match ContentType obj with
           | Some c => c
           | None => "application/pdf"
           end in
         timestamp <- utcnow_iso env;;
         put_object b s3_key
           {| Body := Body obj;
              ContentType := Some content_type;
              Metadata := [ ("userId", user_id);
                            ("ingestionTimestamp", timestamp) ] |};;;
         ret true
     | _ => raise (ClientError "ParamValidationError")
     end)
    (fun _ => ret false).

Definition update_document_status (user_id : json) (s3_key status : string)
    (ingestion_job_id : json) : M unit :=
  match DOCUMENT_METADATA_TABLE env with
  | None => ret tt
  | Some _ =>
      if negb (Py.truthy user_id) then ret tt
      else
        try_except
          (let document_id := extract_document_id_from_s3_key s3_key in
           now <- utcnow_iso env;;
           let expr_values :=
             ([ ("currentStatus", JStr status); ("updatedAt", now) ]
              ++ (if Py.truthy ingestion_job_id
                  then [ ("ingestionJobId", ingestion_job_id) ]
                  else []))%list in
           update_item user_id (JStr document_id) expr_values [])
          (fun _ => ret tt)
  end.

Definition update_sidecar_status (s3_key status details : string)
    (user_id : json) : M unit :=
  try_except
    (SidecarManager.append_processing_status env sidecar_manager
       s3_key status details None;;;
     if Py.truthy user_id
     then SidecarManager.append_audit_event env sidecar_manager
            s3_key status user_id
            [ ("s3Bucket", JStr (BUCKET_NAME env)); ("s3Key", JStr s3_key) ]
     else ret tt)
    (fun _ => ret tt).

(** [lambda_client.invoke(FunctionName, InvocationType='Event', Payload)] *)
Definition invoke_document_analysis (bucket : json) (s3_key : string)
    (ingestion_job_id : json) : M unit :=
  if String.eqb (DOCUMENT_ANALYSIS_LAMBDA env) EmptyString then ret tt
  else
    try_except
      (let analysis_payload :=
         [ ("s3Bucket", bucket); ("s3Key", JStr s3_key);
           ("ingestionJobId", ingestion_job_id) ] in
       modify (set_invocations (fun l =>
         (l ++ [ (DOCUMENT_ANALYSIS_LAMBDA env, analysis_payload) ])%list)))
      (fun _ => ret tt).

(** [bedrock_agent.start_ingestion_job]: the call is recorded, whether
    the service starts a job or raises. *)
Definition bedrock_start_ingestion_job (input_params : dict) : M json :=
  fun w =>
    (set_ingestion_calls (fun l => (l ++ [input_params])%list) w,
     start_ingestion_job env (length (ingestion_calls w)) input_params).

(** [aws_request_id] is [context.aws_request_id]; [None] is [JNull]. *)
Definition process_s3_record (record : json) (aws_request_id : string)
    : M json :=
  event_name <- lift (Py.get record "eventName" (JStr EmptyString));;
  match event_name with
  | JStr event_name =>
      if negb (PyStr.startswith event_name "ObjectCreated") then ret JNull
      else
        s3_info <- lift (Py.get record "s3" (JDict []));;
        bucket_info <- lift (Py.get s3_info "bucket" (JDict []));;
        bucket <- lift (Py.get bucket_info "name" (JStr EmptyString));;
        object_info <- lift (Py.get s3_info "object" (JDict []));;
        s3_key <- lift (Py.get object_info "key" (JStr EmptyString));;
        match s3_key with
        | JStr s3_key =>
            if SidecarManager.is_sidecar_file s3_key then ret JNull
            else
              let user_id := extract_user_id_from_s3_key s3_key in
              (if Py.truthy user_id
               then add_user_id_metadata_to_s3 bucket s3_key user_id;;; ret tt
               else ret tt);;;
              update_document_status user_id s3_key "upload_complete" JNull;;;
              update_sidecar_status s3_key "ingestion_started"
                "Starting Knowledge Base ingestion" user_id;;;
              let input_params :=
                [ ("knowledgeBaseId", KNOWLEDGE_BASE_ID env);
                  ("dataSourceId", DATA_SOURCE_ID env);
                  ("clientToken", JStr aws_request_id) ] in
              aws_api_response <- bedrock_start_ingestion_job input_params;;
              ingestion_job_details <-
                lift (Py.get aws_api_response "ingestionJob" JNull);;
              ingestion_job_id <-
                lift (Py.get ingestion_job_details "ingestionJobId" JNull);;
              update_sidecar_status s3_key "ingestion_in_progress"
                ("Ingestion job " ++ str env ingestion_job_id ++ " in progress")
                JNull;;;
              update_document_status user_id s3_key "ingestion_in_progress"
                ingestion_job_id;;;
              invoke_document_analysis bucket s3_key ingestion_job_id;;;
              ret ingestion_job_details
        | _ => raise AttributeError
        end
  | _ => raise AttributeError
  end.

(** The loop over [event.get('Records', [])]. *)
Fixpoint process_records (records : list json) (aws_request_id : string)
    (ingestion_jobs : list json) : M (list json) :=
  match records with
  | [] => ret ingestion_jobs
  | record :: rest =>
      job_details <- process_s3_record record aws_request_id;;
      process_records rest aws_request_id
        (if Py.truthy job_details
         then (ingestion_jobs ++ [job_details])%list
         else ingestion_jobs)
  end.

(** The handler returns [json.dumps] of the value given here. *)
Definition lambda_handler (event : json) (aws_request_id : string)
    : World -> World * json :=
  fun w =>
    match
      (records <- lift (Py.get event "Records" (JList []));;
       records <- lift (Py.iter records);;
       ingestion_jobs <- process_records records aws_request_id [];;
       let response :=
         [ ("status", JStr "success");
           ("message", JStr "Ingestion processing complete") ] in
       ret (JDict
              match ingestion_jobs with
              | [] => response
              | [job] => (response ++ [ ("ingestionJob", job) ])%list
              | _ => (response
                      ++ [ ("ingestionJobs", JList ingestion_jobs) ])%list
              end)) w
    with
    | (w', Ok response) => (w', response)
    | (w', Raise e) => (w', JDict [ ("error", JStr (str_exn env e)) ])
    end.

End WithEnv.

End Ingest.

(** An HTTP response of a handler; [body] is the value whose
    [json.dumps] the handler returns. *)
Record response : Type := {
  statusCode : Z;
  headers : list (string * string);
  body : json
}.

(** ** [ingestion-status-checker/index.py]: the status poller *)

Module StatusChecker.

Section WithEnv.
Variable env : Env.

(** [doc.get(k)] on an item of the table. *)
Definition attr (doc : item) (k : string) : json :=
  match doc !! k with
  | Some v => v
  | None => JNull
  end.

(** [datetime.fromisoformat(v.replace('Z', '+00:00')).replace(tzinfo=None)] *)
Definition fromisoformat (v : json) : result Z :=
  match v with
  | JTime t => Ok t
  | JStr _ => Raise (ValueError "Invalid isoformat string")
  | _ => Raise AttributeError
  end.

(** [timedelta(seconds=15)], in microseconds *)
Definition settle_delay : Z := 15 * 1000000.

Definition bedrock_get_ingestion_job (ingestion_job_id : json) : M json :=
  fun w => (w, get_ingestion_job env (clock w) ingestion_job_id).

(** The body of the loop over the scanned documents, inside its [try]. *)
Definition check_document (doc : item) : M unit :=
  let user_id := attr doc "userId" in
  let document_id := attr doc "documentId" in
  let ingestion_job_id := attr doc "ingestionJobId" in
  if negb (Py.truthy ingestion_job_id) then ret tt
  else
    job_response <- bedrock_get_ingestion_job ingestion_job_id;;
    job <- lift (Py.get job_response "ingestionJob" (JDict []));;
    status <- lift (Py.get job "status" JNull);;
    if Py.eq_str status "COMPLETE" then
      let current_status := attr doc "currentStatus" in
      let indexing_delay_until := attr doc "indexingDelayUntil" in
      if Py.eq_str current_status "ingestion_in_progress" then
        t <- utcnow env;;
        let delay_until := JTime (t + settle_delay) in
        now <- utcnow_iso env;;
        update_item user_id document_id
          [ ("currentStatus", JStr "indexing_wait");
            ("indexingDelayUntil", delay_until);
            ("updatedAt", now) ] []
      else if Py.eq_str current_status "indexing_wait"
              && Py.truthy indexing_delay_until then
        delay_time <- lift (fromisoformat indexing_delay_until);;
        t <- utcnow env;;
        if t >=? delay_time then
          now <- utcnow_iso env;;
          update_item user_id document_id
            [ ("currentStatus", JStr "ingestion_complete");
              ("updatedAt", now) ]
            [ "indexingDelayUntil" ]
        else ret tt
      else ret tt
    else if Py.eq_str status "FAILED" then
      failure_reasons <-
        lift (Py.get job "failureReasons" (JList [ JStr "Unknown error" ]));;
      error <- lift (Py.join ", " failure_reasons);;
      now <- utcnow_iso env;;
      update_item user_id document_id
        [ ("currentStatus", JStr "error");
          ("errorMessage", JStr error);
          ("updatedAt", now) ] []
    else ret tt.

(** [for doc in documents: try: ... except Exception: continue] *)
Fixpoint check_documents (documents : list item) : M unit :=
  match documents with
  | [] => ret tt
  | doc :: rest =>
      try_except (check_document doc) (fun _ => ret tt);;;
      check_documents rest
  end.

(** [metadata_table.scan(FilterExpression=...)]: the items whose
    [currentStatus] is one of the two in-flight statuses. *)
Definition scan_in_flight (w : World) : list item :=
  filter (fun doc : item =>
            Py.eq_str (attr doc "currentStatus") "ingestion_in_progress"
            || Py.eq_str (attr doc "currentStatus") "indexing_wait" = true)
         (snd <$> map_to_list (metadata_table w)).

Definition lambda_handler : World -> World * response :=
  fun w =>
    let documents := scan_in_flight w in
    match check_documents documents w with
    | (w', Ok _) =>
        let n := JInt (Z.of_nat (length documents)) in
        (w', {| statusCode := 200;
                headers := [];
                body := JDict [ ("message",
                                 JStr ("Checked " ++ str env n ++ " documents"));
                                ("processed", n) ] |})
    | (w', Raise e) =>
        (w', {| statusCode := 500;
                headers := [];
                body := JDict [ ("error", JStr (str_exn env e)) ] |})
    end.

End WithEnv.

End StatusChecker.

(** ** [document-status/index.py]: the status reader *)

Module DocumentStatus.

Section WithEnv.
Variable env : Env.

Definition get_user_id_from_event (event : json) : M json :=
  try_except
    (request_context <- lift (Py.getitem event "requestContext");;
     authorizer <- lift (Py.getitem request_context "authorizer");;
     claims <- lift (Py.getitem authorizer "claims");;
     sub <- lift (Py.get claims "sub" JNull);;
     user_id <-
       (if Py.truthy sub then ret sub
        else lift (Py.get claims "cognito:username" JNull));;
     if negb (Py.truthy user_id)
     then raise (ValueError "Could not extract userId from token")
     else ret user_id)
    (fun e => match e with
              | KeyError _ | TypeError =>
                  raise (ValueError "Invalid authorization context")
              | _ => raise e
              end).

Record status_info : Type := {
  status : string;
  message : string;
  progress : Z
}.

Definition status_map : list (string * status_info) :=
  [ ("upload_initiated",
     {| status := "uploading"; message := "Uploading document...";
        progress := 10 |});
    ("upload_complete",
     {| status := "processing"; message := "Processing document...";
        progress := 30 |});
    ("ingestion_started",
     {| status := "ingesting"; message := "Adding to knowledge base...";
        progress := 50 |});
    ("ingestion_in_progress",
     {| status := "ingesting"; message := "Adding to knowledge base...";
        progress := 70 |});
    ("ingestion_complete",
     {| status := "ready";
        message := "Document ready! You can now chat about this document.";
        progress := 100 |});
    ("error",
     {| status := "error"; message := "Error processing document";
        progress := 0 |}) ].

Definition fallback : status_info :=
  {| status := "unknown"; message := "Processing..."; progress := 50 |}.

Fixpoint lookup_status (k : string) (m : list (string * status_info))
    : option status_info :=
  match m with
  | [] => None
  | (k', v) :: m' => if String.eqb k' k then Some v else lookup_status k m'
  end.

(** [status_map.get(current_status, default)]: a list or a dictionary
    cannot be hashed; no other value equals a string key. *)
Definition status_map_get (current_status : json) : result status_info :=
  match current_status with
  | JStr s => Ok (match lookup_status s status_map with
                  | Some info => info
                  | None => fallback
                  end)
  | JList _ | JDict _ => Raise TypeError
  | _ => Ok fallback
  end.

Definition json_headers : list (string * string) :=
  [ ("Content-Type", "application/json");
    ("Access-Control-Allow-Origin", "*") ].

Definition item_get (it : item) (k : string) (default : json) : json :=
  match it !! k with
  | Some v => v
  | None => default
  end.

Definition handle (event : json) : M response :=
  user_id <- get_user_id_from_event event;;
  path_parameters <- lift (Py.get event "pathParameters" (JDict []));;
  document_id <- lift (Py.get path_parameters "documentId" JNull);;
  if negb (Py.truthy document_id) then
    ret {| statusCode := 400; headers := json_headers;
           body := JDict [ ("error", JStr "documentId is required") ] |}
  else
    found <- get_item user_id document_id;;
    match found with
    | None =>
        ret {| statusCode := 404; headers := json_headers;
               body := JDict [ ("error", JStr "Document not found") ] |}
    | Some it =>
        let current_status := item_get it "currentStatus" (JStr "unknown") in
        info <- lift (status_map_get current_status);;
        now <- utcnow_iso env;;
        ret {| statusCode := 200;
               headers :=
                 [ ("Content-Type", "application/json");
                   ("Access-Control-Allow-Origin", "*");
                   ("Access-Control-Allow-Headers", "Content-Type,Authorization");
                   ("Access-Control-Allow-Methods", "OPTIONS,GET") ];
               body :=
                 JDict [ ("documentId", document_id);
                         ("currentStatus", JStr (status info));
                         ("statusMessage", JStr (message info));
                         ("progress", JInt (progress info));
                         ("updatedAt", item_get it "updatedAt" now);
                         ("originalFilename",
                          item_get it "originalFilename" (JStr EmptyString));
                         ("documentType",
                          item_get it "documentType" (JStr "other")) ] |}
    end.

Definition lambda_handler (event : json) : World -> World * response :=
  fun w =>
    match handle event w with
    | (w', Ok r) => (w', r)
    | (w', Raise (ValueError msg)) =>
        (w', {| statusCode := 401; headers := json_headers;
                body := JDict [ ("error", JStr msg) ] |})
    | (w', Raise JSONDecodeError) =>
        (w', {| statusCode := 401; headers := json_headers;
                body := JDict [ ("error", JStr (str_exn env JSONDecodeError)) ] |})
    | (w', Raise _) =>
        (w', {| statusCode := 500; headers := json_headers;
                body := JDict [ ("error", JStr "Internal server error") ] |})
    end.

End WithEnv.

End DocumentStatus.

(** ** [document-upload/index.py]: the upload initiator *)

Module DocumentUpload.

Section WithEnv.
Variable env : Env.

(** The manager of the documents bucket. *)
Definition sidecar_manager : SidecarManager.t :=
  {| SidecarManager.bucket := BUCKET_NAME env |}.

Definition log_activity (user_id : json) (request_type : string)
    (metadata : dict) : M unit :=
  if negb (LOGGING_TABLE env) then ret tt
  else
    try_except
      (activity_id <- uuid4 env;;
       timestamp_iso <- utcnow_iso env;;
       let it : item :=
         list_to_map
           ([ ("id", JStr activity_id);
              ("timestamp", timestamp_iso);
              ("userId", user_id);
              ("requestId", JStr activity_id);
              ("requestType", JStr request_type);
              ("timestampISO", timestamp_iso) ]
            ++ match metadata with
               | [] => []
               | _ => [ ("metadata", JDict metadata) ]
               end)%list in
       modify (set_logging_table (fun l => (l ++ [it])%list)))
      (fun _ => ret tt).

(** The same function as in the status reader. *)
Definition get_user_id_from_event (event : json) : M json :=
  DocumentStatus.get_user_id_from_event event.

Definition max_size : Z := 60 * 1024 * 1024.

Definition valid_types : list string :=
  [ "wellness_plan"; "fitness_assessment"; "health_record";
    "nutrition_plan"; "other" ].

Definition reject (b : dict) : response :=
  {| statusCode := 400;
     headers := [ ("Content-Type", "application/json") ];
     body := JDict b |}.

Definition cors_headers : list (string * string) :=
  [ ("Content-Type", "application/json");
    ("Access-Control-Allow-Origin", "*");
    ("Access-Control-Allow-Headers", "Content-Type,X-Api-Key,Authorization");
    ("Access-Control-Allow-Methods", "OPTIONS,POST,GET") ].

(** [json.loads(event['body'])] *)
Definition loads (v : json) : M json :=
  match v with
  | JStr s => match json_loads env s with
              | Some data => ret data
              | None => raise JSONDecodeError
              end
  | _ => raise TypeError
  end.

Definition handle (event : json) : M response :=
  user_id <- get_user_id_from_event event;;
  event_body <- lift (Py.get event "body" JNull);;
  if negb (Py.truthy event_body) then
    ret (reject [ ("error", JStr "Request body is required") ])
  else
    body <- loads event_body;;
    filename <- lift (Py.get body "filename" JNull);;
    document_type <- lift (Py.get body "documentType" (JStr "other"));;
    content_type <- lift (Py.get body "contentType" (JStr "application/pdf"));;
    file_size <- lift (Py.get body "fileSize" (JInt 0));;
    tags <- lift (Py.get body "tags" (JList []));;
    if negb (Py.truthy filename) then
      ret (reject [ ("error", JStr "filename is required") ])
    else
      too_large <- lift (Py.gt_int file_size max_size);;
      if too_large : bool then
        ret (reject [ ("error",
                       JStr "File size exceeds maximum allowed size of 60MB");
                      ("maxSizeBytes", JInt max_size) ])
      else if negb (Py.in_strs document_type valid_types) then
        ret (reject [ ("error", JStr "Invalid documentType");
                      ("validTypes", JList (map JStr valid_types)) ])
      else
        document_id <- uuid4 env;;
        let s3_key :=
          "users/" ++ str env user_id ++ "/" ++ str env document_type ++ "/"
          ++ document_id ++ "-" ++ str env filename in
        let presigned_url :=
          generate_presigned_url env (BUCKET_NAME env) s3_key content_type in
        let family_profile := get_family_profile env user_id in
        now <- utcnow_iso env;;
        let metadata_sidecar :=
          JDict [ ("metadataAttributes",
                   JDict [ ("userid", user_id);
                           ("documenttype", document_type);
                           ("uploadedat", now) ]);
                  ("documentId", JStr document_id);
                  ("userId", user_id);
                  ("documentType", document_type);
                  ("originalFilename", filename);
                  ("s3Key", JStr s3_key);
                  ("uploadedAt", now);
                  ("uploadedBy", JStr "parent");
                  ("fileSize", file_size);
                  ("mimeType", content_type);
                  ("version", JStr "1.0");
                  ("tags", tags);
                  ("relatedDocuments", JList []);
                  ("familyProfile", family_profile) ] in
        let processing_sidecar :=
          JDict [ ("statusChain",
                   JList [ JDict [ ("status", JStr "upload_initiated");
                                   ("timestamp", now);
                                   ("details",
                                    JStr "Presigned URL generated, awaiting upload") ] ]);
                  ("currentStatus", JStr "upload_initiated");
                  ("errors", JList []) ] in
        let audit_sidecar :=
          JDict [ ("events",
                   JList [ JDict [ ("timestamp", now);
                                   ("action", JStr "upload_initiated");
                                   ("userId", user_id);
                                   ("documentId", JStr document_id);
                                   ("filename", filename) ] ]) ] in
        SidecarManager.write_sidecar env sidecar_manager s3_key "metadata"
          metadata_sidecar;;;
        SidecarManager.write_sidecar env sidecar_manager s3_key "processing"
          processing_sidecar;;;
        SidecarManager.write_sidecar env sidecar_manager s3_key "audit"
          audit_sidecar;;;
        metadata_key <- lift (SidecarManager.get_sidecar_key s3_key "metadata");;
        extracted_key <- lift (SidecarManager.get_sidecar_key s3_key "extracted");;
        processing_key <- lift (SidecarManager.get_sidecar_key s3_key "processing");;
        insights_key <- lift (SidecarManager.get_sidecar_key s3_key "insights");;
        audit_key <- lift (SidecarManager.get_sidecar_key s3_key "audit");;
        put_item user_id (JStr document_id)
          (list_to_map
             [ ("userId", user_id);
               ("documentId", JStr document_id);
               ("s3Key", JStr s3_key);
               ("documentType", document_type);
               ("originalFilename", filename);
               ("fileSize", file_size);
               ("mimeType", content_type);
               ("sidecarFiles",
                JDict [ ("metadata", JStr metadata_key);
                        ("extracted", JStr extracted_key);
                        ("processing", JStr processing_key);
                        ("insights", JStr insights_key);
                        ("audit", JStr audit_key) ]);
               ("currentStatus", JStr "upload_initiated");
               ("hasActionItems", JBool false);
               ("tags", tags);
               ("createdAt", now);
               ("updatedAt", now) ]);;;
        log_activity user_id "document_upload"
          [ ("documentId", JStr document_id);
            ("filename", filename);
            ("documentType", document_type);
            ("fileSize", file_size) ];;;
        ret {| statusCode := 200;
               headers := cors_headers;
               body :=
                 JDict [ ("documentId", JStr document_id);
                         ("uploadUrl", JStr presigned_url);
                         ("s3Key", JStr s3_key);
                         ("expiresIn", JInt 3600);
                         ("message",
                          JStr "Upload URL generated successfully. Use PUT request to upload file.") ] |}.

(** [json.JSONDecodeError] is a [ValueError]. *)
Definition lambda_handler (event : json) : World -> World * response :=
  fun w =>
    match handle event w with
    | (w', Ok r) => (w', r)
    | (w', Raise (ValueError msg)) =>
        (w', {| statusCode := 401; headers := cors_headers;
                body := JDict [ ("error", JStr msg) ] |})
    | (w', Raise JSONDecodeError) =>
        (w', {| statusCode := 401; headers := cors_headers;
                body := JDict [ ("error", JStr (str_exn env JSONDecodeError)) ] |})
    | (w', Raise _) =>
        (w', {| statusCode := 500; headers := cors_headers;
                body := JDict [ ("error", JStr "Internal server error") ] |})
    end.

End WithEnv.

End DocumentUpload.

(** ** [document-analysis/index.py]: the extraction worker *)

Module DocumentAnalysis.

(** A line break. *)
Definition nl : string := String (ascii_of_nat 10) EmptyString.

(** [os.path.splitext(p)[1]]: from the last dot of the last path
    component, unless only dots precede it there. *)
Definition splitext_ext (p : string) : string :=
  match PyStr.rfind_char "." p with
  | None => EmptyString
  | Some dot_index =>
      let filename_index :=
        match PyStr.rfind_char "/" p with
        | Some sep_index => S sep_index
        | None => O
        end in
      if (filename_index <=? dot_index)%nat
         && negb (forallb (fun a => Ascii.eqb a ".")
                    (list_ascii_of_string
                       (PyStr.slice filename_index dot_index p)))
      then String.substring dot_index (String.length p - dot_index) p
      else EmptyString
  end.

Definition allowed_extensions : list string :=
  [ ".pdf"; ".txt"; ".doc"; ".docx" ].

(** [event.get(k, '').strip()] *)
Definition get_stripped (event : json) (k : string) : result string :=
  match Py.get event k (JStr EmptyString) with
  | Ok (JStr s) => Ok (PyStr.strip s)
  | Ok _ => Raise AttributeError
  | Raise e => Raise e
  end.

Definition validate_input (event : json) : result (string * string * json) :=
  match get_stripped event "s3Bucket" with
  | Raise e => Raise e
  | Ok s3_bucket =>
  match get_stripped event "s3Key" with
  | Raise e => Raise e
  | Ok s3_key =>
  match Py.get event "ingestionJobId" JNull with
  | Raise e => Raise e
  | Ok ingestion_job_id =>
      if String.eqb s3_bucket EmptyString then
        Raise (ValueError "s3Bucket parameter is required")
      else if String.eqb s3_key EmptyString then
        Raise (ValueError "s3Key parameter is required")
      else
        let key_parts := PyStr.split "/" s3_key in
        if (length key_parts <? 4)%nat
           || negb (String.eqb (hd EmptyString key_parts) "users")
        then
          Raise (ValueError
                   ("Invalid s3Key format. Expected: "
                    ++ "users/{userId}/{documentType}/{filename}, got: "
                    ++ s3_key))
        else
          let file_extension := PyStr.lower (splitext_ext s3_key) in
          if negb (String.eqb file_extension EmptyString)
             && negb (existsb (String.eqb file_extension) allowed_extensions)
          then
            Raise (ValueError
                     ("Unsupported file type: " ++ file_extension
                      ++ ". Allowed types: "
                      ++ PyStr.join ", " allowed_extensions))
          else Ok (s3_bucket, s3_key, ingestion_job_id)
  end end end.

Definition get_document_type_from_key (s3_key : string) : string :=
  match PyStr.split "/" s3_key with
  | _ :: _ :: p2 :: _ => p2
  | _ => "other"
  end.

(** The document id [update_document_metadata] addresses:
    [s3_key.split('/')[-1].split('-')[0]]. *)
Definition metadata_document_id (s3_key : string) : string :=
  hd EmptyString (PyStr.split "-" (PyStr.last_part (PyStr.split "/" s3_key))).

(** The owner [update_document_metadata] addresses. *)
Definition metadata_user_id (s3_key : string) : string :=
  match PyStr.split "/" s3_key with
  | p0 :: p1 :: _ => if String.eqb p0 "users" then p1 else "unknown"
  | _ => "unknown"
  end.

Definition high_confidence : Q := 85 # 100.
Definition low_confidence : Q := 50 # 100.

Section WithEnv.
Variable env : Env.

Definition sidecar_manager : SidecarManager.t :=
  {| SidecarManager.bucket := BUCKET_NAME env |}.

(** The bytes [response['Body'].read(100000)] gives. *)
Definition read_prefix (o : s3object) : string :=
  PyStr.take 100000%N
    match Body o with
    | Raw bytes => bytes
    | Json data => json_dumps env data
    end.

Definition binary_placeholder : string :=
  "[Binary PDF file - using Textract would extract full text]".

Definition extract_text_from_document (s3_bucket s3_key : string) : M string :=
  try_except
    (if String.eqb s3_bucket EmptyString || String.eqb s3_key EmptyString
     then raise (ValueError "s3_bucket and s3_key are required for text extraction")
     else
       response <- get_object s3_bucket s3_key;;
       let content := read_prefix response in
       if String.eqb content EmptyString
       then raise (ValueError "Downloaded document is empty")
       else
         match utf8_decode env content with
         | Some decoded_content => ret decoded_content
         | None => ret binary_placeholder
         end)
    (fun e => match e with
              | NoSuchKey => raise (ValueError ("Document not found: " ++ s3_key))
              | _ => raise e
              end).

Definition valid_types : list string :=
  [ "iep"; "aba_report"; "medical_record"; "other" ].

(** What is stored when the response holds no JSON document. *)
Definition unparsed (extracted_text error : string) : json :=
  JDict [ ("raw_response", JStr extracted_text); ("error", JStr error) ].

(** The span from the first opening brace to the last closing brace of
    the response, when there is one. *)
Definition json_span (extracted_text : string) : option string :=
  match PyStr.find_char "{" extracted_text,
        PyStr.rfind_char "}" extracted_text with
  | Some start_idx, Some last =>
      let end_idx := S last in
      if (start_idx <? end_idx)%nat
      then Some (PyStr.slice start_idx end_idx extracted_text)
      else None
  | _, _ => None
  end.

Definition parse_extracted (extracted_text : string) : json :=
  match json_span extracted_text with
  | Some json_str =>
      match json_loads env json_str with
      | Some extracted_data => extracted_data
      | None => unparsed extracted_text "Invalid JSON"
      end
  | None => unparsed extracted_text "No JSON found"
  end.

(** The body of the request sent to the model. *)
Definition extraction_request (document_text document_type : string) : json :=
  let document_type :=
    if String.eqb document_type EmptyString then "other" else document_type in
  let document_type :=
    if existsb (String.eqb document_type) valid_types
    then document_type else "other" in
  let prompt := EXTRACTION_PROMPTS env document_type in
  let max_text_length := 15000%N in
  let truncated_text := PyStr.take max_text_length document_text in
  let full_prompt :=
    prompt ++ nl ++ nl ++ "Document text:" ++ nl ++ truncated_text ++ nl ++ nl
    ++ "Extract the information and return JSON only." in
  JDict [ ("anthropic_version", JStr "bedrock-2023-05-31");
          ("max_tokens", JInt 4096);
          ("messages",
           JList [ JDict [ ("role", JStr "user");
                           ("content", JStr full_prompt) ] ]);
          ("temperature", JFloat (2 # 10));
          ("top_p", JFloat (9 # 10)) ].

(** [json.loads(response['body'].read())['content'][0]['text']] *)
Definition response_text (response : string) : result json :=
  match json_loads env response with
  | None => Raise JSONDecodeError
  | Some response_body =>
      match Py.getitem response_body "content" with
      | Raise e => Raise e
      | Ok content =>
          match Py.getitem0 content with
          | Raise e => Raise e
          | Ok first => Py.getitem first "text"
          end
      end
  end.

Definition invoke_claude_for_extraction (document_text document_type : string)
    : M json :=
  if String.eqb document_text EmptyString
  then raise (ValueError "document_text cannot be empty")
  else
    response <-
      lift (invoke_model env (MODEL_ID env)
              (extraction_request document_text document_type));;
    extracted_text <- lift (response_text response);;
    match extracted_text with
    | JStr extracted_text => ret (parse_extracted extracted_text)
    | _ => raise AttributeError
    end.

Definition validate_environment : M unit :=
  if String.eqb (BUCKET_NAME env) EmptyString
  then raise (ValueError "BUCKET_NAME environment variable not configured")
  else ret tt.

Definition update_document_metadata (s3_key : string) (confidence now : json)
    : M unit :=
  match DOCUMENT_METADATA_TABLE env with
  | None => ret tt
  | Some _ =>
      try_except
        (let user_id := metadata_user_id s3_key in
         let document_id := metadata_document_id s3_key in
         update_item (JStr user_id) (JStr document_id)
           [ ("currentStatus", JStr "ai_analysis_complete");
             ("extractionConfidence", confidence);
             ("updatedAt", now) ] [])
        (fun _ => ret tt)
  end.

(** [s3_key] is [None] until the input has been validated. *)
Definition update_sidecar_error (s3_key : option string)
    (status error_message : string) : M unit :=
  match s3_key with
  | None | Some EmptyString => ret tt
  | Some s3_key =>
      try_except
        (timestamp <- utcnow_iso env;;
         SidecarManager.append_processing_status env sidecar_manager s3_key
           status ("Error: " ++ error_message)
           (Some [ ("error", JStr error_message); ("timestamp", timestamp) ]))
        (fun _ => ret tt)
  end.

(** The [try] block once the input is validated. *)
Definition analyse (s3_bucket s3_key : string) : M response :=
  SidecarManager.append_processing_status env sidecar_manager s3_key
    "ai_analysis_started" "Starting AI extraction with Claude" None;;;
  let document_type := get_document_type_from_key s3_key in
  document_text <- extract_text_from_document s3_bucket s3_key;;
  extracted_data <- invoke_claude_for_extraction document_text document_type;;
  has_error <- lift (Py.contains extracted_data "error");;
  let confidence :=
    JFloat (if has_error : bool then low_confidence else high_confidence) in
  now <- utcnow_iso env;;
  let extracted_sidecar :=
    JDict [ ("extractionTimestamp", now);
            ("extractionModel", JStr (MODEL_ID env));
            ("confidence", confidence);
            ("documentType", JStr document_type);
            ("data", extracted_data) ] in
  SidecarManager.write_sidecar env sidecar_manager s3_key "extracted"
    extracted_sidecar;;;
  SidecarManager.append_processing_status env sidecar_manager s3_key
    "ai_analysis_complete"
    ("Extraction successful, confidence: " ++ str env confidence) None;;;
  SidecarManager.append_audit_event env sidecar_manager s3_key
    "ai_extraction_complete" (JStr "system")
    [ ("confidence", confidence); ("documentType", JStr document_type) ];;;
  update_document_metadata s3_key confidence now;;;
  ret {| statusCode := 200;
         headers := [];
         body := JDict [ ("status", JStr "success");
                         ("s3Key", JStr s3_key);
                         ("documentType", JStr document_type);
                         ("confidence", confidence);
                         ("extractionTimestamp", now) ] |}.

(** [except ValueError] (a [json.JSONDecodeError] is one) and
    [except Exception]. *)
Definition on_error (s3_key : option string) (e : exn)
    : World -> World * response :=
  fun w =>
    match e with
    | ValueError _ | JSONDecodeError =>
        (fst (update_sidecar_error s3_key "validation_failed"
                ("Validation error: " ++ str_exn env e) w),
         {| statusCode := 400;
            headers := [];
            body := JDict [ ("error",
                             JStr ("Invalid input: " ++ str_exn env e)) ] |})
    | _ =>
        (fst (update_sidecar_error s3_key "ai_analysis_failed"
                (str_exn env e) w),
         {| statusCode := 500;
            headers := [];
            body := JDict [ ("error",
                             JStr "An unexpected error occurred during document analysis. Please try again later.") ] |})
    end.

Definition lambda_handler (event : json) : World -> World * response :=
  fun w =>
    match (validate_environment;;; lift (validate_input event)) w with
    | (w1, Raise e) => on_error None e w1
    | (w1, Ok (s3_bucket, s3_key, _)) =>
        match analyse s3_bucket s3_key w1 with
        | (w2, Ok r) => (w2, r)
        | (w2, Raise e) => on_error (Some s3_key) e w2
        end
    end.

End WithEnv.

End DocumentAnalysis.

(** ** What the sidecars of a document hold *)

Module Observe.

(** The parsed content of the sidecar of one kind of a document. *)
Definition sidecar (w : World) (bucket document_s3_key suffix : string)
    : option json :=
  match s3 w !! (bucket, document_s3_key ++ suffix) with
  | Some o => match Body o with
              | Json data => Some data
              | Raw _ => None
              end
  | None => None
  end.

Definition processing (w : World) (bucket document_s3_key : string)
    : option json :=
  sidecar w bucket document_s3_key ".processing.json".

(** The [statusChain] of a processing sidecar; a document without a
    processing sidecar has the empty chain. *)
Definition statusChain (processing_data : option json) : list json :=
  match processing_data with
  | Some (JDict d) =>
      match Py.dict_get "statusChain" d with
      | Some (JList chain) => chain
      | _ => []
      end
  | _ => []
  end.

Definition currentStatus (processing_data : option json) : option json :=
  match processing_data with
  | Some (JDict d) => Py.dict_get "currentStatus" d
  | _ => None
  end.

(** A processing sidecar as the data model has it: a [statusChain] list,
    a [currentStatus] and an [errors] list. *)
Definition is_processing_sidecar (data : json) : bool :=
  match data with
  | JDict d =>
      match Py.dict_get "statusChain" d, Py.dict_get "currentStatus" d,
            Py.dict_get "errors" d with
      | Some (JList _), Some (JStr _), Some (JList _) => true
      | _, _, _ => false
      end
  | _ => false
  end.

(** [entry["status"]] of a chain entry. *)
Definition entry_status (entry : json) : option json :=
  match entry with
  | JDict e => Py.dict_get "status" e
  | _ => None
  end.

(** The state a document's processing sidecar is in before an append:
    absent, or a processing sidecar. *)
Definition processing_state (w : World) (bucket document_s3_key : string)
    : Prop :=
  match s3 w !! (bucket, document_s3_key ++ ".processing.json") with
  | None => True
  | Some o => match Body o with
              | Json data => is_processing_sidecar data = true
              | Raw _ => False
              end
  end.

(** The object [write_sidecar] puts. *)
Definition sidecar_object (sidecar_type document_s3_key : string)
    (data created_at : json) : s3object :=
  {| Body := Json data;
     ContentType := Some "application/json";
     Metadata := [ ("sidecar-type", JStr sidecar_type);
                   ("parent-document", JStr document_s3_key);
                   ("created-at", created_at) ] |}.

(** The entry [append_processing_status] adds to the chain. *)
Definition chain_entry (status : string) (t : Z) (details : string) : json :=
  JDict [ ("status", JStr status); ("timestamp", JTime t);
          ("details", JStr details) ].

(** A storage-creation notification for the object [key] of [bucket]. *)
Definition creation_notification (record bucket : json) (key : string)
    : Prop :=
  exists (event_name : string) (s3_info bucket_info object_info : json),
    Py.get record "eventName" (JStr EmptyString) = Ok (JStr event_name)
    /\ PyStr.startswith event_name "ObjectCreated" = true
    /\ Py.get record "s3" (JDict []) = Ok s3_info
    /\ Py.get s3_info "bucket" (JDict []) = Ok bucket_info
    /\ Py.get bucket_info "name" (JStr EmptyString) = Ok bucket
    /\ Py.get s3_info "object" (JDict []) = Ok object_info
    /\ Py.get object_info "key" (JStr EmptyString) = Ok (JStr key).

(** A document record [doc] of the table, stored under the key [k], that
    the poller finds with a job id and for which the ingestion service
    reports [job] at the moment of the poll. *)
Definition polled (env : Env) (w : World) (doc : item) (k : string * string)
    (job : json) : Prop :=
  table_key (StatusChecker.attr doc "userId")
            (StatusChecker.attr doc "documentId") = Some k
  /\ metadata_table w !! k = Some doc
  /\ Py.truthy (StatusChecker.attr doc "ingestionJobId") = true
  /\ exists job_response,
       get_ingestion_job env (clock w) (StatusChecker.attr doc "ingestionJobId")
       = Ok job_response
       /\ Py.get job_response "ingestionJob" (JDict []) = Ok job.


(** [b.get(k, default)] *)
Definition declared (b : dict) (k : string) (default : json) : json :=
  match Py.dict_get k b with
  | Some v => v
  | None => default
  end.

Definition audit (w : World) (bucket document_s3_key : string) : option json :=
  sidecar w bucket document_s3_key ".audit.json".

Definition extracted (w : World) (bucket document_s3_key : string)
    : option json :=
  sidecar w bucket document_s3_key ".extracted.json".

(** The [events] of an audit sidecar; none without a sidecar. *)
Definition events (audit_data : option json) : list json :=
  match audit_data with
  | Some (JDict d) =>
      match Py.dict_get "events" d with
      | Some (JList l) => l
      | _ => []
      end
  | _ => []
  end.

(** The [errors] of a processing sidecar; none without a sidecar. *)
Definition errors (processing_data : option json) : list json :=
  match processing_data with
  | Some (JDict d) =>
      match Py.dict_get "errors" d with
      | Some (JList l) => l
      | _ => []
      end
  | _ => []
  end.

(** What [get_all_sidecars] reports for one kind: the content of the
    sidecar of that kind, when there is one and it is not empty. *)
Definition stored (w : World) (bucket document_s3_key sidecar_type : string)
    : option json :=
  match SidecarManager.get_sidecar_key document_s3_key sidecar_type with
  | Ok k =>
      match s3 w !! (bucket, k) with
      | Some o => match Body o with
                  | Json data => if Py.truthy data then Some data else None
                  | Raw _ => None
                  end
      | None => None
      end
  | Raise _ => None
  end.

(** The sidecars of a document are absent or hold parsed content. *)
Definition parsed_sidecars (w : World) (bucket document_s3_key : string)
    : Prop :=
  forall sidecar_type k o,
    SidecarManager.get_sidecar_key document_s3_key sidecar_type = Ok k ->
    s3 w !! (bucket, k) = Some o ->
    exists data, Body o = Json data.

(** The event [append_audit_event] adds to the trail. *)
Definition audit_entry (t : Z) (action : string) (user_id : json)
    (kwargs : dict) : json :=
  JDict (Py.dict_update [ ("timestamp", JTime t); ("action", JStr action);
                          ("userId", user_id) ] kwargs).

(** The state a document's audit sidecar is in before an append: absent,
    or a dictionary with an [events] list. *)
Definition audit_state (w : World) (bucket document_s3_key : string) : Prop :=
  match s3 w !! (bucket, document_s3_key ++ ".audit.json") with
  | None => True
  | Some o => match Body o with
              | Json (JDict d) =>
                  match Py.dict_get "events" d with
                  | Some (JList _) => True
                  | _ => False
                  end
              | _ => False
              end
  end.

(** An extraction run that gets as far as the answer of the model: the
    worker is configured, the event names the document [s3_key] of
    [s3_bucket], whose text is [document_text], and the model answers
    with the text [extracted_text]. *)
Definition extraction_run (env : Env) (w : World) (event : json)
    (s3_bucket s3_key document_text extracted_text : string) : Prop :=
  BUCKET_NAME env <> EmptyString
  /\ (exists ingestion_job_id,
        DocumentAnalysis.validate_input event
        = Ok (s3_bucket, s3_key, ingestion_job_id))
  /\ processing_state w (BUCKET_NAME env) s3_key
  /\ audit_state w (BUCKET_NAME env) s3_key
  /\ (exists o,
        s3 w !! (s3_bucket, s3_key) = Some o
        /\ DocumentAnalysis.read_prefix env o <> EmptyString
        /\ document_text
           = match utf8_decode env (DocumentAnalysis.read_prefix env o) with
             | Some decoded_content => decoded_content
             | None => DocumentAnalysis.binary_placeholder
             end)
  /\ document_text <> EmptyString
  /\ (exists response,
        invoke_model env (MODEL_ID env)
          (DocumentAnalysis.extraction_request env document_text
             (DocumentAnalysis.get_document_type_from_key s3_key))
        = Ok response
        /\ DocumentAnalysis.response_text env response
           = Ok (JStr extracted_text)).

(** The [data] and the [confidence] of an extracted sidecar. *)
Definition extracted_data (sidecar : option json) : option json :=
  match sidecar with
  | Some (JDict d) => Py.dict_get "data" d
  | _ => None
  end.

Definition extracted_confidence (sidecar : option json) : option json :=
  match sidecar with
  | Some (JDict d) => Py.dict_get "confidence" d
  | _ => None
  end.

(** A computation that makes no call to [start_ingestion_job]. *)
Definition keeps_calls {A : Type} (m : M A) : Prop :=
  forall w, ingestion_calls (fst (m w)) = ingestion_calls w.

(** A record the poller selects: its [currentStatus] is one of the two
    in-flight statuses. *)
Definition in_flight (doc : item) : bool :=
  Py.eq_str (StatusChecker.attr doc "currentStatus") "ingestion_in_progress"
  || Py.eq_str (StatusChecker.attr doc "currentStatus") "indexing_wait".

(** The key a record names itself by, when it names one. *)
Definition own_key (doc : item) : option (string * string) :=
  table_key (StatusChecker.attr doc "userId")
            (StatusChecker.attr doc "documentId").

(** Every record of the table is stored under the key it names. *)
Definition well_keyed (w : World) : Prop :=
  forall k doc, metadata_table w !! k = Some doc -> own_key doc = Some k.

(** A computation that leaves a part of the world as it finds it. *)
Definition preserves {A X : Type} (part : World -> X) (m : M A) : Prop :=
  forall w, part (fst (m w)) = part w.

(** Everything but the object store and the clock. *)
Definition ledger (w : World) :=
  (metadata_table w, logging_table w, ingestion_calls w, invocations w,
   uuids w).

(** The world but for its clock. *)
Definition timeless (w : World)
    : gmap (string * string) s3object * gmap (string * string) item
      * list item * list dict * list (string * dict) * nat :=
  (s3 w, metadata_table w, logging_table w, ingestion_calls w,
   invocations w, uuids w).

(** A computation that returns, whatever the world. *)
Definition returns {A : Type} (m : M A) : Prop :=
  forall w, exists a, snd (m w) = Ok a.

(** The event that delivers a batch of notifications. *)
Definition batch (records : list json) : json :=
  JDict [ ("Records", JList records) ].

Definition sidecar_suffixes : list string :=
  [ ".metadata.json"; ".extracted.json"; ".processing.json";
    ".insights.json"; ".audit.json" ].

End Observe.


(** ** A small deployment

    A concrete environment and a few concrete events and worlds, on which
    the handlers are run in the examples below. *)

Module Scenario.

(** The double quote. *)
Definition q : string := String (ascii_of_nat 34) EmptyString.

Definition document_id : string := "123e4567-e89b-12d3-a456-426614174000".

Definition key_a : string := "users/u1/other/" ++ document_id ++ "-report.txt".

(** The answer of the model: a message whose text is [{oops}]. *)
Definition model_response : string :=
  "{" ++ q ++ "content" ++ q ++ ": [{" ++ q ++ "type" ++ q ++ ": "
  ++ q ++ "text" ++ q ++ ", " ++ q ++ "text" ++ q ++ ": "
  ++ q ++ "{oops}" ++ q ++ "}]}".

(** The body of an upload request that declares 70 000 000 bytes. *)
Definition upload_body : string :=
  "{" ++ q ++ "filename" ++ q ++ ": " ++ q ++ "scan.pdf" ++ q ++ ", "
  ++ q ++ "documentType" ++ q ++ ": " ++ q ++ "other" ++ q ++ ", "
  ++ q ++ "fileSize" ++ q ++ ": 70000000}".

(** [json.loads] on the texts that occur below; it raises on [{oops}]. *)
Definition loads (s : string) : option json :=
  if String.eqb s model_response then
    Some (JDict [ ("content",
                   JList [ JDict [ ("type", JStr "text");
                                   ("text", JStr "{oops}") ] ]) ])
  else if String.eqb s upload_body then
    Some (JDict [ ("filename", JStr "scan.pdf");
                  ("documentType", JStr "other");
                  ("fileSize", JInt 70000000) ])
  else None.

Definition repr (v : json) : string :=
  match v with
  | JNull => "None"
  | JBool true => "True"
  | JBool false => "False"
  | JFloat x => if Qeq_bool x (1 # 2) then "0.5"
                else if Qeq_bool x (85 # 100) then "0.85" else "float"
  | _ => "object"
  end.

Definition job_response (status : string) (extra : dict) : json :=
  JDict [ ("ingestionJob",
           JDict (("ingestionJobId", JStr "job-12345")
                  :: ("status", JStr status) :: extra)) ].

(** The ingestion service is unavailable for the first call and starts a
    job for every later one; it reports a job by the name it goes by. *)
Definition env : Env :=
  {| KNOWLEDGE_BASE_ID := JStr "kb-789";
     DATA_SOURCE_ID := JStr "ds-456";
     DOCUMENT_ANALYSIS_LAMBDA := "document-analysis";
     DOCUMENT_METADATA_TABLE := Some "documents";
     BUCKET_NAME := "docs";
     MODEL_ID := "model";
     LOGGING_TABLE := true;
     EXTRACTION_PROMPTS :=
       fun _ => "Extract key information from this document in JSON format:";
     utcnow_at := fun n => 1000000 * Z.of_nat n;
     uuid4_at := fun _ => document_id;
     start_ingestion_job :=
       fun n _ => match n with
                  | O => Raise (ClientError "Service unavailable")
                  | _ => Ok (job_response "STARTING" [])
                  end;
     get_ingestion_job :=
       fun _ job_id =>
         if Py.eq_str job_id "job-complete" then Ok (job_response "COMPLETE" [])
         else if Py.eq_str job_id "job-failed" then
           Ok (job_response "FAILED"
                 [ ("failureReasons", JList [ JStr "quota exceeded" ]) ])
         else Ok (job_response "IN_PROGRESS" []);
     invoke_model := fun _ _ => Ok model_response;
     generate_presigned_url := fun _ key _ => "https://docs.example/" ++ key;
     get_family_profile := fun _ => JDict [];
     json_loads := loads;
     json_dumps := fun _ => "{}";
     utf8_decode := fun s => Some s;
     py_repr := repr;
     exn_text := fun _ => "error" |}.

Definition empty_world : World :=
  {| s3 := ∅; metadata_table := ∅; logging_table := []; ingestion_calls := [];
     invocations := []; clock := O; uuids := O |}.

(** A creation notification for an object of the documents bucket. *)
Definition notification (key : string) : json :=
  JDict [ ("eventVersion", JStr "2.1");
          ("eventSource", JStr "aws:s3");
          ("eventName", JStr "ObjectCreated:Put");
          ("s3", JDict [ ("bucket", JDict [ ("name", JStr "docs") ]);
                         ("object", JDict [ ("key", JStr key) ]) ]) ].

Definition text_object (text : string) : s3object :=
  {| Body := Raw text; ContentType := Some "text/plain"; Metadata := [] |}.

(** A world in which the document [key_a] has been uploaded. *)
Definition uploaded_world : World :=
  set_s3 (fun m => <[("docs", key_a) := text_object "Quarterly report."]> m)
    empty_world.

(** The processing sidecar the upload initiator seeds. *)
Definition seeded_processing : json :=
  JDict [ ("statusChain",
           JList [ JDict [ ("status", JStr "upload_initiated");
                           ("timestamp", JTime 0);
                           ("details",
                            JStr "Presigned URL generated, awaiting upload") ] ]);
          ("currentStatus", JStr "upload_initiated");
          ("errors", JList []) ].

(** A world in which [key_a] has been uploaded and has its seeded
    processing sidecar. *)
Definition initiated_world : World :=
  set_s3 (fun m =>
            <[("docs", key_a ++ ".processing.json")
              := Observe.sidecar_object "processing" key_a seeded_processing
                   (JTime 0)]> m)
    uploaded_world.

(** The event the extraction worker is invoked with. *)
Definition analysis_event : json :=
  JDict [ ("s3Bucket", JStr "docs"); ("s3Key", JStr key_a);
          ("ingestionJobId", JStr "job-12345") ].

(** An API event from the caller [u1]. *)
Definition api_event (fields : dict) : json :=
  JDict (("requestContext",
          JDict [ ("authorizer",
                   JDict [ ("claims", JDict [ ("sub", JStr "u1") ]) ]) ])
         :: fields).

(** A document record of the caller [u1]. *)
Definition record (current_status : string) (extra : list (string * json))
    : item :=
  list_to_map
    ([ ("userId", JStr "u1"); ("documentId", JStr document_id);
       ("currentStatus", JStr current_status) ] ++ extra)%list.

Definition world_with (doc : item) : World :=
  set_metadata_table (fun m => <[("u1", document_id) := doc]> m) empty_world.

(** The manager of the documents bucket. *)
Definition docs : SidecarManager.t := {| SidecarManager.bucket := "docs" |}.

(** Records whose job the service reports complete, and failed. *)
Definition in_progress : item :=
  record "ingestion_in_progress" [ ("ingestionJobId", JStr "job-complete") ].

Definition failed : item :=
  record "ingestion_in_progress" [ ("ingestionJobId", JStr "job-failed") ].

(** A record the extraction worker has marked. *)
Definition analysed : item := record "ai_analysis_complete" [].



(** A status request for the document of [u1]. *)
Definition status_request : json :=
  api_event [ ("pathParameters", JDict [ ("documentId", JStr document_id) ]) ].

(** A record of another caller that has reached the end of ingestion. *)
Definition settled : item :=
  list_to_map [ ("userId", JStr "u2"); ("documentId", JStr document_id);
                ("currentStatus", JStr "ingestion_complete") ].

(** A table with a record in flight, whose job the service reports
    failed, and a settled one. *)
Definition mixed_world : World :=
  set_metadata_table
    (fun m => <[("u2", document_id) := settled]>
                (<[("u1", document_id) := failed]> m))
    empty_world.

(** A removal notification for an object of the documents bucket. *)
Definition removal (key : string) : json :=
  JDict [ ("eventVersion", JStr "2.1");
          ("eventSource", JStr "aws:s3");
          ("eventName", JStr "ObjectRemoved:Delete");
          ("s3", JDict [ ("bucket", JDict [ ("name", JStr "docs") ]);
                         ("object", JDict [ ("key", JStr key) ]) ]) ].

(** The world after the first attempt on [key_a], for which the start
    call fails. *)
Definition retried_world : World :=
  fst (Ingest.lambda_handler env (Observe.batch [ notification key_a ])
         "request-1" uploaded_world).






End Scenario.

(** * Properties *)

(** ** Strings *)

#[local] Arguments String.append !_ _ / : simpl nomatch.

Section StringFacts.

Lemma append_nil_r (s : string) : s ++ "" = s.
Proof. induction s as [|a s IH]; simpl; [reflexivity | now rewrite IH]. Qed.

Lemma append_assoc (s1 s2 s3 : string) : (s1 ++ s2) ++ s3 = s1 ++ (s2 ++ s3).
Proof. induction s1 as [|a s1 IH]; simpl; [reflexivity | now rewrite IH]. Qed.

Lemma length_append (s1 s2 : string) :
  String.length (s1 ++ s2) = (String.length s1 + String.length s2)%nat.
Proof. induction s1 as [|a s1 IH]; simpl; [reflexivity | now rewrite IH]. Qed.

Lemma chars_append (s1 s2 : string) :
  list_ascii_of_string (s1 ++ s2)
  = (list_ascii_of_string s1 ++ list_ascii_of_string s2)%list.
Proof. induction s1 as [|a s1 IH]; simpl; [reflexivity | now rewrite IH]. Qed.

Lemma substring_prefix (s1 s2 : string) :
  String.substring 0 (String.length s1) (s1 ++ s2) = s1.
Proof.
  induction s1 as [|a s1 IH]; simpl.
  - now destruct s2.
  - now rewrite IH.
Qed.

Lemma endswith_unfold (s suf : string) :
  PyStr.endswith s suf
  = if String.eqb s suf then true
    else match s with
         | EmptyString => false
         | String _ s' => PyStr.endswith s' suf
         end.
Proof. destruct s; reflexivity. Qed.

(** [endswith] holds exactly of the strings that have [suf] at their end. *)
Lemma endswith_spec (s suf : string) :
  PyStr.endswith s suf = true <-> exists p, s = p ++ suf.
Proof.
  induction s as [|a s IH]; rewrite endswith_unfold.
  - destruct (String.eqb_spec "" suf) as [E|E].
    + split; [intros _; exists ""; now subst | reflexivity].
    + split; [discriminate |].
      intros [p Hp]. destruct p; simpl in Hp; [now subst | discriminate].
  - destruct (String.eqb_spec (String a s) suf) as [E|E].
    + split; [intros _; exists ""; now subst | reflexivity].
    + rewrite IH. split.
      * intros [p ->]. now exists (String a p).
      * intros [p Hp]. destruct p as [|b p]; simpl in Hp.
        -- now subst.
        -- injection Hp as _ ->. now exists p.
Qed.

Lemma endswith_append (k suf : string) : PyStr.endswith (k ++ suf) suf = true.
Proof. apply endswith_spec. now exists k. Qed.

Lemma drop_last_append (k suf : string) :
  suf <> "" -> PyStr.drop_last (String.length suf) (k ++ suf) = k.
Proof.
  intros Hne. unfold PyStr.drop_last.
  destruct (String.length suf) eqn:El.
  - destruct suf; [congruence | discriminate].
  - rewrite <- El, length_append.
    replace (String.length k + String.length suf - String.length suf)%nat
      with (String.length k) by lia.
    apply substring_prefix.
Qed.

(** Two strings that end alike have the same reversed tail. *)
Lemma append_eq_rev (k p s1 s2 : string) :
  k ++ s1 = p ++ s2 ->
  (rev (list_ascii_of_string s1) ++ rev (list_ascii_of_string k))%list
  = (rev (list_ascii_of_string s2) ++ rev (list_ascii_of_string p))%list.
Proof.
  intros H. apply (f_equal list_ascii_of_string) in H.
  rewrite !chars_append in H. apply (f_equal (@rev ascii)) in H.
  now rewrite !rev_app_distr in H.
Qed.

End StringFacts.

(** [s] does not end in [suf], whatever precedes it. *)
Ltac no_suffix :=
  match goal with
  | |- PyStr.endswith (?k ++ ?s) ?suf = false =>
      destruct (PyStr.endswith (k ++ s) suf) eqn:E; [exfalso | reflexivity];
      apply endswith_spec in E; destruct E as [p E];
      apply append_eq_rev in E; simpl in E; discriminate E
  end.

(** ** Sidecar keys *)

Section SidecarKeys.

Import SidecarManager Observe.

Lemma is_sidecar_file_iff (k : string) :
  is_sidecar_file k = true
  <-> exists p suffix, In suffix sidecar_suffixes /\ k = p ++ suffix.
Proof.
  unfold is_sidecar_file. rewrite existsb_exists. split.
  - intros (suffix & Hin & He). apply endswith_spec in He as [p ->].
    exists p, suffix. split; [exact Hin | reflexivity].
  - intros (p & suffix & Hin & ->). exists suffix.
    split; [exact Hin | apply endswith_append].
Qed.

Lemma document_from_sidecar_key (k : string) :
  Forall (fun suffix => get_document_from_sidecar_key (k ++ suffix) = Some k)
         sidecar_suffixes.
Proof.
  unfold get_document_from_sidecar_key, values, SIDECAR_TYPES, sidecar_suffixes.
  repeat constructor; cbn [map snd first_suffix];
    repeat (first [ rewrite endswith_append
                  | match goal with
                    | |- context [PyStr.endswith (?a ++ ?s) ?suf] =>
                        replace (PyStr.endswith (a ++ s) suf) with false
                          by (symmetry; no_suffix)
                    end ]);
    f_equal; apply drop_last_append; discriminate.
Qed.

(** C4. Sidecar classification is total and invertible: [is_sidecar_file]
    answers [True] exactly on the keys that end in one of the five sidecar
    suffixes, and for every key and each of the five sidecar kinds
    [get_document_from_sidecar_key] gives back the key that
    [get_sidecar_key] was applied to. *)
Theorem sidecar_classification_invertible (k : string) :
  (is_sidecar_file k = true
   <-> exists p suffix,
         In suffix [".metadata.json"; ".extracted.json"; ".processing.json";
                    ".insights.json"; ".audit.json"]
         /\ k = p ++ suffix)
  /\ (is_sidecar_file k = true \/ is_sidecar_file k = false)
  /\ Forall (fun kind =>
               exists sidecar_key,
                 get_sidecar_key k kind = Ok sidecar_key
                 /\ get_document_from_sidecar_key sidecar_key = Some k)
            ["metadata"; "extracted"; "processing"; "insights"; "audit"].
Proof.
  split; [apply is_sidecar_file_iff |].
  split; [destruct (is_sidecar_file k); auto |].
  pose proof (document_from_sidecar_key k) as H.
  unfold sidecar_suffixes in H.
  repeat match goal with
         | H : Forall _ (_ :: _) |- _ => inversion H; subst; clear H
         end.
  repeat constructor; eexists; (split; [reflexivity | assumption]).
Qed.

End SidecarKeys.

(** ** The processing status chain *)

Section StatusChain.

Import SidecarManager Observe.
Variable env : Env.
Variable self : SidecarManager.t.

Lemma dict_get_set_eq (k : string) (v : json) (d : dict) :
  Py.dict_get k (Py.dict_set k v d) = Some v.
Proof.
  induction d as [|[k' v'] d IH]; simpl.
  - now rewrite String.eqb_refl.
  - destruct (String.eqb k' k) eqn:E; simpl; now rewrite E.
Qed.

Lemma dict_get_set_ne (k k' : string) (v : json) (d : dict) :
  k <> k' -> Py.dict_get k' (Py.dict_set k v d) = Py.dict_get k' d.
Proof.
  intros Hne. induction d as [|[k0 v0] d IH]; simpl.
  - destruct (String.eqb_spec k k'); [congruence | reflexivity].
  - destruct (String.eqb_spec k0 k) as [->|E]; simpl.
    + destruct (String.eqb_spec k k'); [congruence | reflexivity].
    + now rewrite IH.
Qed.

(** What a successful append does to the world: the clock is read a few
    times and one object, the processing sidecar, is written. *)
Lemma append_processing_status_run
    (w : World) (document_s3_key status details : string)
    (error_info : option dict) :
  processing_state w (bucket self) document_s3_key ->
  exists (data : json) (n : nat) (created_at : json),
    append_processing_status env self document_s3_key status details
      error_info w
    = (set_s3 (fun m => <[(bucket self, document_s3_key ++ ".processing.json")
                          := sidecar_object "processing" document_s3_key
                               data created_at]> m)
              (Nat.iter n tick w), Ok tt)
    /\ Observe.is_processing_sidecar data = true
    /\ Observe.statusChain (Some data)
       = (Observe.statusChain
            (Observe.processing w (bucket self) document_s3_key)
          ++ [chain_entry status (utcnow_at env (clock w)) details])%list
    /\ Observe.currentStatus (Some data) = Some (JStr status).
Proof.
  unfold processing_state, Observe.processing, Observe.sidecar.
  intros Hst.
  unfold append_processing_status, read_sidecar, write_sidecar, append_at,
    setitem, put_object, get_object, utcnow_iso, utcnow, try_except, bind,
    lift, ret, raise, modify.
  cbn [get_sidecar_key assoc SIDECAR_TYPES String.eqb Ascii.eqb Bool.eqb].
  fold (chain_entry status (utcnow_at env (clock w)) details).
  set (entry := chain_entry status (utcnow_at env (clock w)) details).
  destruct (s3 w !! (bucket self, document_s3_key ++ ".processing.json"))
    as [o|] eqn:Eo.
  - destruct (Body o) as [bytes|data] eqn:Eb; [contradiction |].
    destruct data as [| | | | | | |d]; try discriminate Hst.
    simpl in Hst.
    destruct (Py.dict_get "statusChain" d) as [[| | | | | |chain|]|] eqn:Ec;
      try discriminate Hst.
    destruct (Py.dict_get "currentStatus" d) as [[| | | |cs| | |]|] eqn:Es;
      try discriminate Hst.
    destruct (Py.dict_get "errors" d) as [[| | | | | |errs|]|] eqn:Ee;
      try discriminate Hst.
    assert (Ht : Py.truthy (JDict d) = true)
      by (destruct d; [discriminate Ec | reflexivity]).
    unfold Py.or_else. rewrite Ht. cbn [Py.getitem]. rewrite Ec.
    destruct error_info as [[|kv extra]|]; cbn [fst snd Py.getitem];
      rewrite ?dict_get_set_ne by discriminate; rewrite ?Ee;
      [ eexists _, 2%nat, _ | eexists _, 3%nat, _ | eexists _, 2%nat, _ ];
      (split; [reflexivity |]);
      unfold Observe.is_processing_sidecar, Observe.statusChain,
        Observe.currentStatus;
      rewrite ?Eo, ?Eb;
      repeat first [ rewrite dict_get_set_eq
                   | rewrite dict_get_set_ne by discriminate ];
      rewrite ?Ec, ?Ee; auto.
  - cbn [Py.or_else Py.truthy Py.getitem Py.dict_get String.eqb Ascii.eqb
         Bool.eqb].
    destruct error_info as [[|kv extra]|]; cbn [fst snd].
    + eexists _, 2%nat, _. split; [reflexivity |]. now simpl.
    + eexists _, 3%nat, _. split; [reflexivity |]. now simpl.
    + eexists _, 2%nat, _. split; [reflexivity |]. now simpl.
Qed.

(** C1. Whatever the document key, the prior state of its processing
    sidecar and the arguments, [append_processing_status] leaves a
    processing sidecar whose [statusChain] is the previous chain followed
    by exactly one new entry, and whose [currentStatus] is the status of
    that last entry. *)
Theorem append_processing_status_extends_chain
    (w : World) (document_s3_key status details : string)
    (error_info : option dict) :
  processing_state w (bucket self) document_s3_key ->
  let before := Observe.processing w (bucket self) document_s3_key in
  let run := append_processing_status env self document_s3_key status details
               error_info w in
  let after := Observe.processing (fst run) (bucket self) document_s3_key in
  exists (entry : json),
    snd run = Ok tt
    /\ Observe.statusChain after = (Observe.statusChain before ++ [entry])%list
    /\ entry = JDict [ ("status", JStr status);
                       ("timestamp", JTime (utcnow_at env (clock w)));
                       ("details", JStr details) ]
    /\ last (Observe.statusChain after) = Some entry
    /\ Observe.currentStatus after = Some (JStr status)
    /\ Observe.entry_status entry = Observe.currentStatus after
    /\ processing_state (fst run) (bucket self) document_s3_key.
Proof.
  intros Hst before run after.
  destruct (append_processing_status_run w document_s3_key status details
              error_info Hst) as (data & n & created & Hrun & Hwf & Hch & Hcs).
  assert (Hafter : after = Some data).
  { unfold after, run. rewrite Hrun. unfold Observe.processing, Observe.sidecar.
    cbn [fst s3 set_s3]. now rewrite lookup_insert_eq. }
  exists (chain_entry status (utcnow_at env (clock w)) details).
  rewrite Hafter, Hch, Hcs. unfold run at 1. rewrite Hrun.
  repeat split.
  - apply last_snoc.
  - unfold processing_state, run. rewrite Hrun. cbn [fst s3 set_s3].
    now rewrite lookup_insert_eq.
Qed.

End StatusChain.

(** ** The ingestion trigger *)

Section IngestionTrigger.

Import Observe.
Variable env : Env.

Lemma bind_ok {A B : Type} (m : M A) (f : A -> M B) (w w' : World) (a : A) :
  m w = (w', Ok a) -> bind m f w = f a w'.
Proof. intros H. unfold bind. now rewrite H. Qed.

Lemma bind_raise {A B : Type} (m : M A) (f : A -> M B) (w w' : World) (e : exn) :
  m w = (w', Raise e) -> bind m f w = (w', Raise e).
Proof. intros H. unfold bind. now rewrite H. Qed.

(** A notification of an object that [is_sidecar_file] recognises is
    skipped. *)
Lemma sidecar_key_skipped
    (record bucket : json) (key aws_request_id : string) (w : World) :
  creation_notification record bucket key ->
  SidecarManager.is_sidecar_file key = true ->
  Ingest.process_s3_record env record aws_request_id w = (w, Ok JNull).
Proof.
  intros (event_name & s3_info & bucket_info & object_info
          & He & Hc & Hs & Hb & Hn & Ho & Hk) Hsuf.
  unfold Ingest.process_s3_record, bind, lift, ret.
  rewrite He, Hc. cbn [negb].
  now rewrite Hs, Hb, Hn, Ho, Hk, Hsuf.
Qed.

(** C7. A storage-creation notification whose object key ends in one of
    the five sidecar suffixes is a no-op for the ingestion trigger: the
    world is left as it was (no ingestion job is started, no sidecar or
    document record is written, no extraction worker is invoked) and the
    entry yields no job. *)
Theorem sidecar_notification_is_noop
    (record bucket : json) (key aws_request_id : string) (w : World) :
  creation_notification record bucket key ->
  (exists p suffix,
      In suffix [".metadata.json"; ".extracted.json"; ".processing.json";
                 ".insights.json"; ".audit.json"]
      /\ key = p ++ suffix) ->
  Ingest.process_s3_record env record aws_request_id w = (w, Ok JNull).
Proof.
  intros Hn Hsuf. apply is_sidecar_file_iff in Hsuf.
  exact (sidecar_key_skipped record bucket key aws_request_id w Hn Hsuf).
Qed.



(** *** Which failures escape a record *)

Lemma keeps_ret {A : Type} (a : A) : keeps_calls (ret a).
Proof. now intros w. Qed.

Lemma keeps_raise {A : Type} (e : exn) : keeps_calls (@raise A e).
Proof. now intros w. Qed.

Lemma keeps_lift {A : Type} (r : result A) : keeps_calls (lift r).
Proof. now intros w. Qed.

Lemma keeps_bind {A B : Type} (m : M A) (f : A -> M B) :
  keeps_calls m -> (forall a, keeps_calls (f a)) -> keeps_calls (bind m f).
Proof.
  intros Hm Hf w. unfold bind. specialize (Hm w).
  destruct (m w) as [w' [a|e]]; cbn [fst] in *; [| exact Hm].
  now rewrite Hf.
Qed.

Lemma keeps_try_except {A : Type} (m : M A) (h : exn -> M A) :
  keeps_calls m -> (forall e, keeps_calls (h e)) -> keeps_calls (try_except m h).
Proof.
  intros Hm Hh w. unfold try_except. specialize (Hm w).
  destruct (m w) as [w' [a|e]]; cbn [fst] in *; [exact Hm |].
  now rewrite Hh.
Qed.

Lemma keeps_utcnow_iso : keeps_calls (utcnow_iso env).
Proof. now intros w. Qed.

Lemma keeps_get_object (b k : string) : keeps_calls (get_object b k).
Proof. intros w. unfold get_object. now destruct (s3 w !! (b, k)). Qed.

Lemma keeps_put_object (b k : string) (o : s3object) :
  keeps_calls (put_object b k o).
Proof. now intros w. Qed.

Lemma keeps_update_item (u d : json) (sets : list (string * json))
    (removes : list string) :
  keeps_calls (update_item u d sets removes).
Proof.
  intros w. unfold update_item.
  destruct (existsb _ sets); [reflexivity |].
  destruct (table_key u d) as [[u' d']|]; reflexivity.
Qed.

Lemma keeps_set_invocations (f : list (string * dict) -> list (string * dict)) :
  keeps_calls (modify (set_invocations f)).
Proof. now intros w. Qed.

Create HintDb keeps discriminated.
Hint Resolve keeps_ret keeps_raise keeps_lift keeps_utcnow_iso
  keeps_get_object keeps_put_object keeps_update_item
  keeps_set_invocations : keeps.

Ltac keeps :=
  repeat first
    [ progress auto with keeps
    | apply keeps_bind; [| intros ?]
    | apply keeps_try_except; [| intros ?]
    | match goal with
      | |- keeps_calls (match ?x with _ => _ end) => destruct x
      | |- keeps_calls (let _ := _ in _) => cbv zeta
      end ].

Lemma keeps_write_sidecar (self : SidecarManager.t) (k ty : string) (data : json) :
  keeps_calls (SidecarManager.write_sidecar env self k ty data).
Proof. unfold SidecarManager.write_sidecar. keeps. Qed.

Lemma keeps_read_sidecar (self : SidecarManager.t) (k ty : string) :
  keeps_calls (SidecarManager.read_sidecar env self k ty).
Proof. unfold SidecarManager.read_sidecar. keeps. Qed.

Lemma keeps_append_at (data : json) (k : string) (entry : M json) :
  keeps_calls entry -> keeps_calls (SidecarManager.append_at data k entry).
Proof. intros He. unfold SidecarManager.append_at. keeps. Qed.

Hint Resolve keeps_write_sidecar keeps_read_sidecar : keeps.

Lemma keeps_append_processing_status (self : SidecarManager.t)
    (k status details : string) (error_info : option dict) :
  keeps_calls
    (SidecarManager.append_processing_status env self k status details
       error_info).
Proof.
  unfold SidecarManager.append_processing_status.
  repeat first [ apply keeps_append_at | keeps ].
Qed.

Lemma keeps_append_audit_event (self : SidecarManager.t) (k action : string)
    (user_id : json) (kwargs : dict) :
  keeps_calls
    (SidecarManager.append_audit_event env self k action user_id kwargs).
Proof.
  unfold SidecarManager.append_audit_event.
  repeat first [ apply keeps_append_at | keeps ].
Qed.

Hint Resolve keeps_append_processing_status keeps_append_audit_event : keeps.

Lemma returns_try_except {A : Type} (m : M A) (a : A) :
  returns (try_except m (fun _ => ret a)).
Proof.
  intros w. unfold try_except. destruct (m w) as [w' [x|e]]; cbn; eauto.
Qed.

(** A step that returns and makes no start call hands over to what
    follows it, with the same calls on record. *)
Lemma bind_quiet {A B : Type} (m : M A) (f : A -> M B) (w : World) :
  keeps_calls m -> returns m ->
  exists w' a, bind m f w = f a w' /\ ingestion_calls w' = ingestion_calls w.
Proof.
  intros Hk Hr. specialize (Hk w). destruct (Hr w) as [a Ha].
  unfold bind. destruct (m w) as [w' r]. cbn [fst snd] in *. subst r.
  now exists w', a.
Qed.

(** The start call is the one step of a record that is not guarded: when
    the ingestion service raises for it, the record raises. *)
Lemma start_failure_escapes
    (record bucket : json) (key aws_request_id : string) (w : World) (e : exn) :
  creation_notification record bucket key ->
  SidecarManager.is_sidecar_file key = false ->
  start_ingestion_job env (length (ingestion_calls w))
    [ ("knowledgeBaseId", KNOWLEDGE_BASE_ID env);
      ("dataSourceId", DATA_SOURCE_ID env);
      ("clientToken", JStr aws_request_id) ] = Raise e ->
  snd (Ingest.process_s3_record env record aws_request_id w) = Raise e.
Proof.
  intros (event_name & s3_info & bucket_info & object_info
          & He & Hc & Hs & Hb & Hn & Ho & Hk) Hside Hstart.
  unfold Ingest.process_s3_record.
  unfold bind at 1. unfold lift at 1. rewrite He, Hc. cbn [negb].
  unfold bind at 1. unfold lift at 1. rewrite Hs.
  unfold bind at 1. unfold lift at 1. rewrite Hb.
  unfold bind at 1. unfold lift at 1. rewrite Hn.
  unfold bind at 1. unfold lift at 1. rewrite Ho.
  unfold bind at 1. unfold lift at 1. rewrite Hk, Hside.
  match goal with
  | |- snd (bind ?m ?f w) = _ =>
      destruct (bind_quiet m f w) as (w1 & a1 & -> & H1)
  end.
  { destruct (Py.truthy (Ingest.extract_user_id_from_s3_key key)).
    - unfold Ingest.add_user_id_metadata_to_s3. keeps.
    - keeps. }
  { intros w0. destruct (Py.truthy (Ingest.extract_user_id_from_s3_key key)).
    - unfold bind.
      destruct (returns_try_except
                  (match bucket with
                   | JStr b =>
                       obj <- get_object b key;;
                       timestamp <- utcnow_iso env;;
                       put_object b key
                         {| Body := Body obj;
                            ContentType :=
                              Some match ContentType obj with
                                   | Some c => c
                                   | None => "application/pdf"
                                   end;
                            Metadata :=
                              [ ("userId", Ingest.extract_user_id_from_s3_key key);
                                ("ingestionTimestamp", timestamp) ] |};;;
                       ret true
                   | _ => raise (ClientError "ParamValidationError")
                   end) false w0) as [x Hx].
      unfold Ingest.add_user_id_metadata_to_s3.
      destruct (try_except _ _ w0) as [w0' r0]. cbn [snd] in Hx. subst r0.
      cbn. eauto.
    - cbn. eauto. }
  match goal with
  | |- snd (bind ?m ?f w1) = _ =>
      destruct (bind_quiet m f w1) as (w2 & a2 & -> & H2)
  end.
  { unfold Ingest.update_document_status. keeps. }
  { intros w0. unfold Ingest.update_document_status.
    destruct (DOCUMENT_METADATA_TABLE env); [| cbn; eauto].
    destruct (negb _); [cbn; eauto |]. apply returns_try_except. }
  match goal with
  | |- snd (bind ?m ?f w2) = _ =>
      destruct (bind_quiet m f w2) as (w3 & a3 & -> & H3)
  end.
  { unfold Ingest.update_sidecar_status. keeps. }
  { apply returns_try_except. }
  unfold bind at 1. unfold Ingest.bedrock_start_ingestion_job.
  rewrite H3, H2, H1, Hstart. reflexivity.
Qed.

(** A batch whose records are all notifications of sidecar objects is a
    no-op. *)
Lemma sidecar_batch_is_noop (records : list json) (aws_request_id : string)
    (w : World) :
  Forall (fun record =>
            exists bucket key,
              creation_notification record bucket key
              /\ SidecarManager.is_sidecar_file key = true) records ->
  Ingest.lambda_handler env (batch records) aws_request_id w
  = (w, JDict [ ("status", JStr "success");
                ("message", JStr "Ingestion processing complete") ]).
Proof.
  intros Hall.
  assert (H : Ingest.process_records env records aws_request_id [] w
              = (w, Ok [])).
  { induction Hall as [|record rest (bucket & key & Hn & Hs) _ IH];
      [reflexivity |].
    cbn [Ingest.process_records]. unfold bind.
    rewrite (sidecar_key_skipped record bucket key aws_request_id w Hn Hs).
    exact IH. }
  unfold Ingest.lambda_handler, batch, bind, lift.
  cbn [Py.get Py.dict_get String.eqb Ascii.eqb Bool.eqb Py.iter].
  now rewrite H.
Qed.

End IngestionTrigger.

(** ** The status reader *)

Section StatusReader.

Import DocumentStatus.
Variable env : Env.

Lemma lookup_status_in (s : string) (info : status_info)
    (m : list (string * status_info)) :
  lookup_status s m = Some info -> In (s, info) m.
Proof.
  induction m as [|[k v] m IH]; simpl; [discriminate |].
  destruct (String.eqb_spec k s) as [->|].
  - intros [= ->]. now left.
  - intros H. right. now apply IH.
Qed.

Lemma lookup_status_none (s : string) (m : list (string * status_info)) :
  lookup_status s m = None -> ~ In s (map fst m).
Proof.
  induction m as [|[k v] m IH]; simpl; [tauto |].
  destruct (String.eqb_spec k s) as [->|]; [discriminate |].
  intros H [E|E]; [congruence | now apply IH].
Qed.

(** C9. For an existing document record the status reader answers 200
    with the [status], [message] and [progress] that the fixed table of
    six entries gives for [currentStatus]; for every value outside the
    table, the [ai_analysis_*] values among them, it answers with the
    fallback: progress 50 and the generic message.  The table itself is
    left as it was. *)
Theorem status_reader_maps_through_table
    (event user_id document_id : json) (k : string * string) (it : item)
    (current_status : string) (w : World) :
  get_user_id_from_event event w = (w, Ok user_id) ->
  (exists path_parameters,
      Py.get event "pathParameters" (JDict []) = Ok path_parameters
      /\ Py.get path_parameters "documentId" JNull = Ok document_id) ->
  Py.truthy document_id = true ->
  table_key user_id document_id = Some k ->
  metadata_table w !! k = Some it ->
  item_get it "currentStatus" (JStr "unknown") = JStr current_status ->
  let run := lambda_handler env event w in
  exists (info : status_info) (b : dict),
    statusCode (snd run) = 200
    /\ body (snd run) = JDict b
    /\ Py.dict_get "currentStatus" b = Some (JStr (status info))
    /\ Py.dict_get "statusMessage" b = Some (JStr (message info))
    /\ Py.dict_get "progress" b = Some (JInt (progress info))
    /\ (In (current_status, info)
           [ ("upload_initiated",
              {| status := "uploading"; message := "Uploading document...";
                 progress := 10 |});
             ("upload_complete",
              {| status := "processing"; message := "Processing document...";
                 progress := 30 |});
             ("ingestion_started",
              {| status := "ingesting";
                 message := "Adding to knowledge base..."; progress := 50 |});
             ("ingestion_in_progress",
              {| status := "ingesting";
                 message := "Adding to knowledge base..."; progress := 70 |});
             ("ingestion_complete",
              {| status := "ready";
                 message := "Document ready! You can now chat about this document.";
                 progress := 100 |});
             ("error",
              {| status := "error"; message := "Error processing document";
                 progress := 0 |}) ]
        \/ (~ In current_status
                [ "upload_initiated"; "upload_complete"; "ingestion_started";
                  "ingestion_in_progress"; "ingestion_complete"; "error" ]
            /\ info = {| status := "unknown"; message := "Processing...";
                         progress := 50 |}))
    /\ (In current_status
           [ "ai_analysis_started"; "ai_analysis_complete";
             "ai_analysis_failed" ]
        -> progress info = 50 /\ message info = "Processing...")
    /\ metadata_table (fst run) = metadata_table w.
Proof.
  intros Hu (pp & Hp & Hd) Ht Hk Hit Hcs run.
  unfold run, lambda_handler, handle.
  rewrite (bind_ok _ _ _ _ _ Hu).
  unfold bind, lift, get_item. rewrite Hp, Hd, Ht, Hk. cbn [negb gets].
  rewrite Hit, Hcs. cbn [status_map_get utcnow_iso utcnow bind ret fst snd].
  exists (match lookup_status current_status status_map with
          | Some info => info
          | None => fallback
          end).
  eexists. do 5 (split; [reflexivity |]).
  split; [| split; [| reflexivity]].
  - destruct (lookup_status current_status status_map) as [info|] eqn:El.
    + left. now apply lookup_status_in.
    + right. split; [exact (lookup_status_none _ _ El) | reflexivity].
  - intros [<-|[<-|[<-|[]]]]; split; reflexivity.
Qed.

End StatusReader.

(** ** The status poller *)

Section StatusPoller.

Import Observe StatusChecker.
Variable env : Env.

Ltac poll_start H :=
  destruct H as (Hk & Hdoc & Hjob & job_response & Hget & Hj);
  unfold check_document, bedrock_get_ingestion_job, bind, lift;
  rewrite Hjob; cbn [negb]; rewrite Hget, Hj.

(** C2. When the job of a polled record is reported COMPLETE: a record
    still in [ingestion_in_progress] moves to [indexing_wait] with a settle
    deadline 15 seconds after the clock reading, and is not marked ready; a
    record in [indexing_wait] with a recorded deadline is left as it is by
    a poll before the deadline, and moves to [ingestion_complete], its
    deadline removed, by a poll at or after it.  STARTING and IN_PROGRESS
    change nothing. *)
Theorem poller_settle_delay
    (w : World) (doc : item) (k : string * string) (job : json) :
  polled env w doc k job ->
  let run := check_document env doc w in
  let now := utcnow_at env (clock w) in
  (Py.get job "status" JNull = Ok (JStr "COMPLETE") ->
   attr doc "currentStatus" = JStr "ingestion_in_progress" ->
   snd run = Ok tt
   /\ metadata_table (fst run)
      = <[k := <["updatedAt" := JTime (utcnow_at env (S (clock w)))]>
                 (<["indexingDelayUntil" := JTime (now + 15 * 1000000)]>
                    (<["currentStatus" := JStr "indexing_wait"]> doc))]>
          (metadata_table w)
   /\ s3 (fst run) = s3 w)
  /\ (forall deadline : Z,
        Py.get job "status" JNull = Ok (JStr "COMPLETE") ->
        attr doc "currentStatus" = JStr "indexing_wait" ->
        attr doc "indexingDelayUntil" = JTime deadline ->
        snd run = Ok tt
        /\ s3 (fst run) = s3 w
        /\ (now < deadline -> metadata_table (fst run) = metadata_table w)
        /\ (deadline <= now ->
            metadata_table (fst run)
            = <[k := delete "indexingDelayUntil"
                       (<["updatedAt" := JTime (utcnow_at env (S (clock w)))]>
                          (<["currentStatus" := JStr "ingestion_complete"]> doc))]>
                (metadata_table w)))
  /\ (Py.get job "status" JNull = Ok (JStr "STARTING")
      \/ Py.get job "status" JNull = Ok (JStr "IN_PROGRESS") ->
      run = (w, Ok tt)).
Proof.
  intros Hp run now. subst run now. destruct k as [u d].
  split; [| split].
  - intros Hs Hc. poll_start Hp. rewrite Hs, Hc.
    cbn [Py.eq_str String.eqb Ascii.eqb Bool.eqb utcnow utcnow_iso bind ret].
    unfold update_item. cbn [existsb Py.has_float snd orb clock tick].
    rewrite Hk. cbn [modify fst snd metadata_table set_metadata_table tick s3].
    rewrite Hdoc. auto.
  - intros deadline Hs Hc Hd. poll_start Hp. rewrite Hs, Hc, Hd.
    cbn [Py.eq_str String.eqb Ascii.eqb Bool.eqb utcnow utcnow_iso bind ret
         Py.truthy andb fromisoformat].
    destruct (Z.geb_spec (utcnow_at env (clock w)) deadline) as [Hge|Hlt].
    + unfold update_item. cbn [existsb Py.has_float snd orb clock tick].
      rewrite Hk.
      cbn [modify fst snd metadata_table set_metadata_table tick s3].
      rewrite Hdoc. repeat split; try reflexivity; lia.
    + cbn [fst snd tick metadata_table s3]. repeat split; try reflexivity; lia.
  - intros [Hs|Hs]; poll_start Hp; now rewrite Hs.
Qed.

Lemma strings_map_JStr (l : list string) : Py.strings (map JStr l) = Ok l.
Proof. induction l as [|s l IH]; simpl; [reflexivity | now rewrite IH]. Qed.

Lemma join_strings (sep : string) (l : list string) :
  Py.join sep (JList (map JStr l)) = Ok (PyStr.join sep l).
Proof. unfold Py.join. cbn [Py.iter]. now rewrite strings_map_JStr. Qed.

(** C5. When the job of a polled record is reported FAILED, the poller
    sets [currentStatus] to [error] and stores the failure reasons of the
    job, as they are and joined by a comma and a space, in [errorMessage];
    for the single reason [quota exceeded] the message is
    [quota exceeded]. *)
Theorem poller_records_failure
    (w : World) (doc : item) (k : string * string) (job : json)
    (reasons : list string) :
  polled env w doc k job ->
  Py.get job "status" JNull = Ok (JStr "FAILED") ->
  Py.get job "failureReasons" (JList [ JStr "Unknown error" ])
  = Ok (JList (map JStr reasons)) ->
  let run := check_document env doc w in
  exists it : item,
    snd run = Ok tt
    /\ metadata_table (fst run) = <[k := it]> (metadata_table w)
    /\ it = <["updatedAt" := JTime (utcnow_at env (clock w))]>
              (<["errorMessage" := JStr (PyStr.join ", " reasons)]>
                 (<["currentStatus" := JStr "error"]> doc))
    /\ attr it "currentStatus" = JStr "error"
    /\ attr it "errorMessage" = JStr (PyStr.join ", " reasons)
    /\ (reasons = [ "quota exceeded" ]
        -> attr it "errorMessage" = JStr "quota exceeded").
Proof.
  intros Hp Hs Hr run. subst run. destruct k as [u d].
  poll_start Hp. rewrite Hs, Hr, join_strings.
  cbn [Py.eq_str String.eqb Ascii.eqb Bool.eqb utcnow utcnow_iso bind ret].
  unfold update_item. cbn [existsb Py.has_float snd orb clock tick].
  rewrite Hk. cbn [modify fst snd metadata_table set_metadata_table tick s3].
  rewrite Hdoc. eexists. do 3 (split; [reflexivity |]).
  unfold attr. cbn [fold_left fst snd].
  rewrite lookup_insert_ne, lookup_insert_ne, lookup_insert_eq by discriminate.
  rewrite lookup_insert_ne, lookup_insert_eq by discriminate.
  repeat split. now intros ->.
Qed.

End StatusPoller.

(** ** The upload initiator *)

Section UploadInitiator.

Import DocumentUpload.
Variable env : Env.




End UploadInitiator.

(** ** The extraction worker *)

Section ExtractionWorker.

Import Observe SidecarManager DocumentAnalysis.
Variable env : Env.

Lemma s3_iter_tick (n : nat) (w : World) : s3 (Nat.iter n tick w) = s3 w.
Proof. induction n as [|n IH]; [reflexivity | exact IH]. Qed.

Lemma key_ne_sidecar_key (b1 b2 key suffix : string) :
  suffix <> "" -> (b1, key) <> (b2, key ++ suffix).
Proof.
  intros Hne [= _ H]. apply (f_equal String.length) in H.
  rewrite length_append in H. destruct suffix; [congruence | simpl in H; lia].
Qed.

Lemma sidecar_keys_differ (b key s1 s2 : string) :
  s1 <> s2 -> (b, key ++ s1) <> (b, key ++ s2).
Proof.
  intros Hne [= H]. apply Hne.
  induction key as [|a key IH]; simpl in H; [exact H |].
  injection H as H. now apply IH.
Qed.

(** What a successful audit append does to the world. *)
Lemma append_audit_event_run
    (self : SidecarManager.t) (w : World) (document_s3_key action : string)
    (user_id : json) (kwargs : dict) :
  audit_state w (bucket self) document_s3_key ->
  exists (data created_at : json),
    append_audit_event env self document_s3_key action user_id kwargs w
    = (set_s3 (fun m => <[(bucket self, document_s3_key ++ ".audit.json")
                          := sidecar_object "audit" document_s3_key
                               data created_at]> m)
              (Nat.iter 2 tick w), Ok tt).
Proof.
  unfold audit_state. intros Hst.
  unfold append_audit_event, read_sidecar, write_sidecar, append_at,
    put_object, get_object, utcnow_iso, utcnow, try_except, bind,
    lift, ret, raise, modify.
  cbn [get_sidecar_key assoc SIDECAR_TYPES String.eqb Ascii.eqb Bool.eqb].
  destruct (s3 w !! (bucket self, document_s3_key ++ ".audit.json"))
    as [o|] eqn:Eo.
  - destruct (Body o) as [bytes|[| | | | | | |d]] eqn:Eb; try contradiction.
    destruct (Py.dict_get "events" d) as [[| | | | | |events|]|] eqn:Ee;
      try contradiction.
    assert (Ht : Py.truthy (JDict d) = true)
      by (destruct d; [discriminate Ee | reflexivity]).
    unfold Py.or_else. rewrite Ht. cbn [Py.getitem]. rewrite Ee.
    eexists _, _. reflexivity.
  - cbn. eexists _, _. reflexivity.
Qed.

Lemma validate_input_nonempty (event : json) (s3_bucket s3_key : string)
    (ingestion_job_id : json) :
  validate_input event = Ok (s3_bucket, s3_key, ingestion_job_id) ->
  s3_bucket <> "" /\ s3_key <> "".
Proof.
  unfold validate_input.
  destruct (get_stripped event "s3Bucket") as [b|]; [| discriminate].
  destruct (get_stripped event "s3Key") as [k|]; [| discriminate].
  destruct (Py.get event "ingestionJobId" JNull) as [j|]; [| discriminate].
  destruct (String.eqb_spec b ""); [discriminate |].
  destruct (String.eqb_spec k ""); [discriminate |].
  repeat match goal with
         | |- context [if ?c then _ else _] => destruct c; try discriminate
         end.
  now intros [= <- <- _].
Qed.

Lemma eqb_ne (s1 s2 : string) : s1 <> s2 -> String.eqb s1 s2 = false.
Proof. intros H. now destruct (String.eqb_spec s1 s2). Qed.

(** The record update of the worker never gets through: the confidence
    is a [float], which the table client refuses. *)
Lemma update_document_metadata_noop (s3_key : string) (q : Q) (now : json)
    (w : World) :
  update_document_metadata env s3_key (JFloat q) now w = (w, Ok tt).
Proof.
  unfold update_document_metadata.
  destruct (DOCUMENT_METADATA_TABLE env); reflexivity.
Qed.

Lemma extract_text_run (w : World) (s3_bucket s3_key : string) (o : s3object) :
  s3 w !! (s3_bucket, s3_key) = Some o ->
  s3_bucket <> "" -> s3_key <> "" -> read_prefix env o <> "" ->
  extract_text_from_document env s3_bucket s3_key w
  = (w, Ok match utf8_decode env (read_prefix env o) with
           | Some decoded_content => decoded_content
           | None => binary_placeholder
           end).
Proof.
  intros Ho Hb Hk Hne.
  unfold extract_text_from_document, try_except, bind, get_object.
  rewrite (eqb_ne _ _ Hb), (eqb_ne _ _ Hk). cbn [orb].
  rewrite Ho, (eqb_ne _ _ Hne).
  now destruct (utf8_decode env (read_prefix env o)).
Qed.

Lemma invoke_claude_run (w : World)
    (document_text document_type response extracted_text : string) :
  document_text <> "" ->
  invoke_model env (MODEL_ID env)
    (extraction_request env document_text document_type) = Ok response ->
  response_text env response = Ok (JStr extracted_text) ->
  invoke_claude_for_extraction env document_text document_type w
  = (w, Ok (parse_extracted env extracted_text)).
Proof.
  intros Hne Hi Hr. unfold invoke_claude_for_extraction, bind, lift.
  now rewrite (eqb_ne _ _ Hne), Hi, Hr.
Qed.

Lemma write_extracted_run (self : SidecarManager.t) (key : string)
    (data : json) (w : World) :
  write_sidecar env self key "extracted" data w
  = (set_s3 (fun m => <[(bucket self, key ++ ".extracted.json")
                        := sidecar_object "extracted" key data
                             (JTime (utcnow_at env (clock w)))]> m)
            (tick w), Ok (key ++ ".extracted.json")).
Proof. reflexivity. Qed.

(** C8, as the code has it. An extraction run whose model answer holds
    no JSON document still writes the extracted sidecar and succeeds: the
    [data] stored is the raw answer with the marker [No JSON found] when the
    answer has no span from an opening to a closing brace, and with the
    marker [Invalid JSON] when that span does not parse.  The confidence
    stored is 0.50 exactly when the data has an [error] key, and 0.85
    otherwise. *)
Theorem extraction_degrades_without_json
    (w : World) (event : json)
    (s3_bucket s3_key document_text extracted_text : string) (d : dict) :
  extraction_run env w event s3_bucket s3_key document_text extracted_text ->
  parse_extracted env extracted_text = JDict d ->
  let run := lambda_handler env event w in
  let side := extracted (fst run) (BUCKET_NAME env) s3_key in
  statusCode (snd run) = 200
  /\ extracted_data side = Some (JDict d)
  /\ extracted_confidence side
     = Some (JFloat (if Py.dict_mem "error" d then 50 # 100 else 85 # 100))
  /\ (json_span extracted_text = None ->
      d = [ ("raw_response", JStr extracted_text);
            ("error", JStr "No JSON found") ]
      /\ extracted_confidence side = Some (JFloat (50 # 100)))
  /\ (forall json_str,
        json_span extracted_text = Some json_str ->
        json_loads env json_str = None ->
        d = [ ("raw_response", JStr extracted_text);
              ("error", JStr "Invalid JSON") ]
        /\ extracted_confidence side = Some (JFloat (50 # 100))).
Proof.
  intros (Hb & (jid & Hv) & Hps & Has & (o & Ho & Hne & Hdt) & Hdne
          & (response & Hinv & Hrt)) Hd run side.
  destruct (validate_input_nonempty _ _ _ _ Hv) as [Hbn Hkn].
  set (kp := (BUCKET_NAME env, s3_key ++ ".processing.json")).
  set (ke := (BUCKET_NAME env, s3_key ++ ".extracted.json")).
  set (ka := (BUCKET_NAME env, s3_key ++ ".audit.json")).
  assert (Hpe : kp <> ke) by (apply sidecar_keys_differ; discriminate).
  assert (Hpa : kp <> ka) by (apply sidecar_keys_differ; discriminate).
  assert (Hea : ke <> ka) by (apply sidecar_keys_differ; discriminate).
  assert (Hrun : exists w' r created now,
             run = (w', r) /\ statusCode r = 200
             /\ s3 w' !! ke
                = Some (sidecar_object "extracted" s3_key
                          (JDict
                             [ ("extractionTimestamp", now);
                               ("extractionModel", JStr (MODEL_ID env));
                               ("confidence",
                                JFloat (if Py.dict_mem "error" d
                                        then low_confidence
                                        else high_confidence));
                               ("documentType",
                                JStr (get_document_type_from_key s3_key));
                               ("data", JDict d) ])
                          created)).
  { subst run. unfold lambda_handler, validate_environment, bind, lift, ret, raise.
    rewrite (eqb_ne _ _ Hb), Hv.
    unfold analyse.
    destruct (append_processing_status_run env (sidecar_manager env) w s3_key
                "ai_analysis_started" "Starting AI extraction with Claude"
                None Hps) as (data1 & n1 & c1 & Hrun1 & Hwf1 & _).
    rewrite (bind_ok _ _ _ _ _ Hrun1).
    match type of Hrun1 with _ = (?x, _) => set (w1 := x) in * end.
    assert (Ho1 : s3 w1 !! (s3_bucket, s3_key) = Some o).
    { unfold w1. cbn [s3 set_s3]. rewrite s3_iter_tick, lookup_insert_ne; [exact Ho |].
      apply not_eq_sym, key_ne_sidecar_key. discriminate. }
    rewrite (bind_ok _ _ _ _ _ (extract_text_run w1 _ _ _ Ho1 Hbn Hkn Hne)).
    rewrite <- Hdt.
    rewrite (bind_ok _ _ _ _ _ (invoke_claude_run w1 _ _ _ _ Hdne Hinv Hrt)).
    rewrite Hd. unfold bind at 1. cbn [lift Py.contains].
    unfold bind at 1. cbn [utcnow_iso utcnow bind ret].
    set (now := JTime (utcnow_at env (clock w1))).
    set (conf := JFloat (if Py.dict_mem "error" d
                         then low_confidence else high_confidence)).
    rewrite (bind_ok _ _ _ _ _ (write_extracted_run _ _ _ _)).
    match goal with
    | |- context [bind (append_processing_status _ _ _ _ _ _) _ ?x] =>
        set (w3 := x)
    end.
    assert (Hps3 : processing_state w3 (BUCKET_NAME env) s3_key).
    { unfold processing_state, w3, w1. cbn [s3 set_s3 tick].
      fold kp ke. rewrite lookup_insert_ne by (apply not_eq_sym; exact Hpe).
      rewrite lookup_insert_eq. exact Hwf1. }
    destruct (append_processing_status_run env (sidecar_manager env) w3 s3_key
                "ai_analysis_complete"
                ("Extraction successful, confidence: " ++ str env conf)
                None Hps3) as (data3 & n3 & c3 & Hrun3 & _).
    rewrite (bind_ok _ _ _ _ _ Hrun3).
    match type of Hrun3 with _ = (?x, _) => set (w4 := x) in * end.
    assert (Has4 : audit_state w4 (BUCKET_NAME env) s3_key).
    { unfold audit_state, w4, w3, w1. cbn [s3 set_s3 tick].
      rewrite s3_iter_tick. cbn [s3 set_s3 tick]. rewrite s3_iter_tick.
      fold kp ke ka. cbn [sidecar_manager bucket].
      fold kp ke ka.
      rewrite !lookup_insert_ne
        by (first [assumption | apply not_eq_sym; assumption]).
      exact Has. }
    destruct (append_audit_event_run (sidecar_manager env) w4 s3_key
                "ai_extraction_complete" (JStr "system")
                [ ("confidence", conf);
                  ("documentType", JStr (get_document_type_from_key s3_key)) ]
                Has4) as (data5 & c5 & Hrun5).
    rewrite (bind_ok _ _ _ _ _ Hrun5).
    unfold conf at 1.
    rewrite (bind_ok _ _ _ _ _ (update_document_metadata_noop _ _ _ _)).
    cbn [ret].
    eexists _, _, _, now. split; [reflexivity |]. split; [reflexivity |].
    cbn [s3 set_s3 tick]. rewrite s3_iter_tick. unfold w4.
    cbn [s3 set_s3 tick]. rewrite s3_iter_tick. unfold w3.
    cbn [s3 set_s3 tick sidecar_manager bucket]. fold kp ke ka.
    rewrite lookup_insert_ne by (apply not_eq_sym; exact Hea).
    rewrite lookup_insert_ne by exact Hpe.
    rewrite lookup_insert_eq. reflexivity. }
  destruct Hrun as (w' & r & created & now & Hrun & Hst & Hlook).
  assert (Hside : side = Some (JDict
                             [ ("extractionTimestamp", now);
                               ("extractionModel", JStr (MODEL_ID env));
                               ("confidence",
                                JFloat (if Py.dict_mem "error" d
                                        then low_confidence
                                        else high_confidence));
                               ("documentType",
                                JStr (get_document_type_from_key s3_key));
                               ("data", JDict d) ])).
  { unfold side, extracted, sidecar. rewrite Hrun. cbn [fst].
    fold ke. now rewrite Hlook. }
  rewrite Hside, Hrun. cbn [snd].
  split; [exact Hst |]. split; [reflexivity |]. split; [reflexivity |].
  unfold parse_extracted, unparsed in Hd. split.
  - intros Hs. rewrite Hs in Hd. injection Hd as <-. split; reflexivity.
  - intros json_str Hs Hl. rewrite Hs, Hl in Hd. injection Hd as <-.
    split; reflexivity.
Qed.

End ExtractionWorker.

(** ** The properties on the small deployment *)

Section Examples.

Import Observe Scenario.

Lemma append_processing_status_extends_chain_witness :
  processing_state initiated_world "docs" key_a
  /\ statusChain
       (processing
          (fst (SidecarManager.append_processing_status env docs key_a
                  "ingestion_started" "Starting Knowledge Base ingestion"
                  None initiated_world))
          "docs" key_a)
     = [ chain_entry "upload_initiated" 0
           "Presigned URL generated, awaiting upload";
         chain_entry "ingestion_started" 0
           "Starting Knowledge Base ingestion" ].
Proof.
  assert (H : processing_state initiated_world "docs" key_a)
    by (vm_compute; reflexivity).
  split; [exact H |].
  destruct (append_processing_status_extends_chain env docs initiated_world
              key_a "ingestion_started" "Starting Knowledge Base ingestion"
              None H) as (entry & _ & Hchain & -> & _).
  etransitivity; [exact Hchain | vm_compute; reflexivity].
Defined.

(** *** The poller *)

Lemma polled_in_progress :
  polled env (world_with in_progress) in_progress ("u1", document_id)
    (JDict [ ("ingestionJobId", JStr "job-12345");
             ("status", JStr "COMPLETE") ]).
Proof.
  repeat split; try (vm_compute; reflexivity).
  eexists. split; vm_compute; reflexivity.
Defined.

Lemma poller_settle_delay_witness :
  polled env (world_with in_progress) in_progress ("u1", document_id)
    (JDict [ ("ingestionJobId", JStr "job-12345");
             ("status", JStr "COMPLETE") ])
  /\ StatusChecker.attr in_progress "currentStatus"
     = JStr "ingestion_in_progress"
  /\ snd (StatusChecker.check_document env in_progress (world_with in_progress))
     = Ok tt.
Proof.
  split; [exact polled_in_progress |].
  split; [vm_compute; reflexivity |].
  destruct (poller_settle_delay env _ _ _ _ polled_in_progress) as (H & _).
  apply H; vm_compute; reflexivity.
Defined.

Lemma polled_failed :
  polled env (world_with failed) failed ("u1", document_id)
    (JDict [ ("ingestionJobId", JStr "job-12345");
             ("status", JStr "FAILED");
             ("failureReasons", JList [ JStr "quota exceeded" ]) ]).
Proof.
  repeat split; try (vm_compute; reflexivity).
  eexists. split; vm_compute; reflexivity.
Defined.

Lemma poller_records_failure_witness :
  polled env (world_with failed) failed ("u1", document_id)
    (JDict [ ("ingestionJobId", JStr "job-12345");
             ("status", JStr "FAILED");
             ("failureReasons", JList [ JStr "quota exceeded" ]) ])
  /\ exists it : item,
       metadata_table
         (fst (StatusChecker.check_document env failed (world_with failed)))
       = <[("u1", document_id) := it]> (metadata_table (world_with failed))
       /\ StatusChecker.attr it "errorMessage" = JStr "quota exceeded".
Proof.
  split; [exact polled_failed |].
  destruct (poller_records_failure env _ _ _ _ [ "quota exceeded" ]
              polled_failed)
    as (it & _ & Ht & _ & _ & _ & Hq);
    try (vm_compute; reflexivity).
  exists it. split; [exact Ht | now apply Hq].
Defined.

(** *** The ingestion trigger *)

Lemma sidecar_notification_is_noop_witness :
  creation_notification (notification (key_a ++ ".processing.json"))
    (JStr "docs") (key_a ++ ".processing.json")
  /\ Ingest.process_s3_record env (notification (key_a ++ ".processing.json"))
       "request-1" initiated_world
     = (initiated_world, Ok JNull).
Proof.
  assert (H : creation_notification
                (notification (key_a ++ ".processing.json"))
                (JStr "docs") (key_a ++ ".processing.json")).
  { exists "ObjectCreated:Put". do 3 eexists.
    repeat split; vm_compute; reflexivity. }
  split; [exact H |].
  apply (sidecar_notification_is_noop env _ _ _ _ _ H).
  exists key_a, ".processing.json". split; [| reflexivity].
  simpl. auto.
Defined.




(** *** The upload initiator *)


(** *** The status reader *)

Lemma status_reader_maps_through_table_witness :
  DocumentStatus.get_user_id_from_event status_request (world_with analysed)
  = (world_with analysed, Ok (JStr "u1"))
  /\ metadata_table (world_with analysed) !! ("u1", document_id)
     = Some analysed
  /\ exists b : dict,
       body (snd (DocumentStatus.lambda_handler env status_request
                    (world_with analysed))) = JDict b
       /\ Py.dict_get "progress" b = Some (JInt 50)
       /\ Py.dict_get "currentStatus" b = Some (JStr "unknown").
Proof.
  assert (Hu : DocumentStatus.get_user_id_from_event status_request
                 (world_with analysed)
               = (world_with analysed, Ok (JStr "u1"))) by reflexivity.
  assert (Hl : metadata_table (world_with analysed) !! ("u1", document_id)
               = Some analysed) by (vm_compute; reflexivity).
  split; [exact Hu |]. split; [exact Hl |].
  destruct (status_reader_maps_through_table env status_request (JStr "u1")
              (JStr document_id) ("u1", document_id) analysed
              "ai_analysis_complete" (world_with analysed) Hu)
    as (info & b & _ & Hb & Hcs & _ & Hp & Hin & Hai & _).
  - eexists. split; reflexivity.
  - reflexivity.
  - reflexivity.
  - exact Hl.
  - vm_compute. reflexivity.
  - exists b. split; [exact Hb |].
    destruct Hin as [Hin|[_ ->]].
    + repeat (destruct Hin as [Hin|Hin]; [discriminate Hin |]).
      destruct Hin.
    + split; [exact Hp | exact Hcs].
Defined.

(** *** The extraction worker *)

Lemma extraction_run_oops :
  extraction_run env initiated_world analysis_event "docs" key_a
    "Quarterly report." "{oops}".
Proof.
  split; [discriminate |].
  split; [eexists; vm_compute; reflexivity |].
  split; [vm_compute; reflexivity |].
  split; [vm_compute; exact I |].
  split.
  { exists (text_object "Quarterly report.").
    split; [vm_compute; reflexivity |].
    split; [vm_compute; discriminate | vm_compute; reflexivity]. }
  split; [discriminate |].
  exists model_response. split; vm_compute; reflexivity.
Defined.

Lemma extraction_degrades_without_json_witness :
  extraction_run env initiated_world analysis_event "docs" key_a
    "Quarterly report." "{oops}"
  /\ DocumentAnalysis.parse_extracted env "{oops}"
     = JDict [ ("raw_response", JStr "{oops}");
               ("error", JStr "Invalid JSON") ]
  /\ statusCode
       (snd (DocumentAnalysis.lambda_handler env analysis_event
               initiated_world))
     = 200.
Proof.
  split; [exact extraction_run_oops |].
  assert (H : DocumentAnalysis.parse_extracted env "{oops}"
              = JDict [ ("raw_response", JStr "{oops}");
                        ("error", JStr "Invalid JSON") ])
    by (vm_compute; reflexivity).
  split; [exact H |].
  exact (proj1 (extraction_degrades_without_json env _ _ _ _ _ _ _
                  extraction_run_oops H)).
Defined.

(** C8, as the claim states it, fails.  The answer [{oops}] holds no JSON
    document that parses (the parser raises on its only span from an
    opening to a closing brace), yet the marker stored is [Invalid JSON],
    not [No JSON found]. *)
Lemma unparsable_braces_are_invalid_json :
  let run := DocumentAnalysis.lambda_handler env analysis_event
               initiated_world in
  let side := extracted (fst run) "docs" key_a in
  DocumentAnalysis.response_text env model_response = Ok (JStr "{oops}")
  /\ DocumentAnalysis.json_span "{oops}" = Some "{oops}"
  /\ json_loads env "{oops}" = None
  /\ statusCode (snd run) = 200
  /\ extracted_data side
     = Some (JDict [ ("raw_response", JStr "{oops}");
                     ("error", JStr "Invalid JSON") ])
  /\ extracted_data side
     <> Some (JDict [ ("raw_response", JStr "{oops}");
                      ("error", JStr "No JSON found") ]).
Proof.
  vm_compute. repeat split; try reflexivity. discriminate.
Defined.

(** *** Document identifiers *)

(** C10, on the code. For the key the upload initiator derives from the
    owner [u1], the type [other], the identifier
    [123e4567-e89b-12d3-a456-426614174000] and the file name [report.txt],
    the ingestion trigger recovers the identifier, while the extraction
    worker addresses the record by its first group only. *)
Theorem document_id_of_worker_differs :
  key_a = "users/u1/other/123e4567-e89b-12d3-a456-426614174000-report.txt"
  /\ Ingest.extract_document_id_from_s3_key key_a
     = "123e4567-e89b-12d3-a456-426614174000"
  /\ DocumentAnalysis.metadata_document_id key_a = "123e4567"
  /\ Ingest.extract_document_id_from_s3_key key_a
     <> DocumentAnalysis.metadata_document_id key_a.
Proof.
  vm_compute. repeat split; discriminate.
Qed.

End Examples.

(** ** Document identifiers in storage keys *)

Section DocumentIds.

Lemma contains_char_append (c : ascii) (a b : string) :
  PyStr.contains_char c (a ++ b)
  = PyStr.contains_char c a || PyStr.contains_char c b.
Proof.
  induction a as [|x a IH]; simpl; [reflexivity |].
  now rewrite IH, orb_assoc.
Qed.

Lemma split_no_sep (c : ascii) (s : string) :
  PyStr.contains_char c s = false -> PyStr.split c s = [s].
Proof.
  induction s as [|a s IH]; simpl; [reflexivity |].
  destruct (Ascii.eqb a c); [discriminate |]. simpl.
  intros H. now rewrite (IH H).
Qed.

Lemma split_app_sep (c : ascii) (a b : string) :
  PyStr.contains_char c a = false ->
  PyStr.split c (a ++ String c b) = a :: PyStr.split c b.
Proof.
  induction a as [|x a IH]; simpl.
  - now rewrite Ascii.eqb_refl.
  - destruct (Ascii.eqb x c); [discriminate |]. simpl.
    intros H. now rewrite (IH H).
Qed.

Lemma split_not_nil (c : ascii) (s : string) : PyStr.split c s <> [].
Proof.
  induction s as [|a s IH]; simpl; [discriminate |].
  destruct (Ascii.eqb a c); [discriminate |].
  destruct (PyStr.split c s); discriminate.
Qed.

Lemma last_cons_nonempty (x : string) (l : list string) :
  l <> [] -> List.last (x :: l) "" = List.last l "".
Proof. destruct l; [congruence | reflexivity]. Qed.

(** The last path component is decided by what follows the last
    separator. *)
Lemma last_part_after_sep (c : ascii) (p s : string) :
  PyStr.last_part (PyStr.split c (p ++ String c s))
  = PyStr.last_part (PyStr.split c s).
Proof.
  unfold PyStr.last_part.
  induction p as [|a p IH]; simpl.
  - rewrite Ascii.eqb_refl. apply last_cons_nonempty, split_not_nil.
  - destruct (Ascii.eqb a c).
    + rewrite last_cons_nonempty by apply split_not_nil. exact IH.
    + destruct (PyStr.split c (p ++ String c s)) as [|h t] eqn:E;
        [now apply split_not_nil in E |].
      destruct t as [|h' t].
      * exfalso. clear IH.
        assert (Hl : (2 <= length (PyStr.split c (p ++ String c s)))%nat).
        { clear E. induction p as [|b p IHp]; simpl.
          - rewrite Ascii.eqb_refl. simpl.
            pose proof (split_not_nil c s).
            destruct (PyStr.split c s); [congruence | simpl; lia].
          - destruct (Ascii.eqb b c); simpl; [lia |].
            destruct (PyStr.split c (p ++ String c s)); simpl in *; lia. }
        rewrite E in Hl. simpl in Hl. lia.
      * rewrite <- IH. reflexivity.
Qed.

(** On every key the upload initiator derives, with a hyphenated
    identifier of five groups, the ingestion trigger recovers the
    identifier and the extraction worker its first group: the two never
    address the same record. *)
Lemma document_ids_differ (owner ty g1 g2 g3 g4 g5 filename : string) :
  Forall (fun g => PyStr.contains_char "-" g = false
                   /\ PyStr.contains_char "/" g = false)
         [g1; g2; g3; g4; g5] ->
  PyStr.contains_char "/" filename = false ->
  let document_id := g1 ++ "-" ++ g2 ++ "-" ++ g3 ++ "-" ++ g4 ++ "-" ++ g5 in
  let s3_key :=
    "users/" ++ owner ++ "/" ++ ty ++ "/" ++ document_id ++ "-" ++ filename in
  Ingest.extract_document_id_from_s3_key s3_key = document_id
  /\ DocumentAnalysis.metadata_document_id s3_key = g1
  /\ Ingest.extract_document_id_from_s3_key s3_key
     <> DocumentAnalysis.metadata_document_id s3_key.
Proof.
  intros Hg Hf document_id s3_key.
  repeat match goal with
         | H : Forall _ (_ :: _) |- _ => inversion H; subst; clear H
         | H : Forall _ [] |- _ => clear H
         | H : _ /\ _ |- _ => destruct H
         end.
  set (fname := g1 ++ String "-" (g2 ++ String "-" (g3 ++ String "-"
                  (g4 ++ String "-" (g5 ++ String "-" filename))))).
  assert (Hkey : s3_key = ("users/" ++ owner ++ String "/" ty) ++ String "/" fname).
  { unfold s3_key, document_id, fname.
    repeat first [ rewrite append_assoc | progress simpl ]. reflexivity. }
  assert (Hslash : PyStr.contains_char "/" fname = false).
  { unfold fname.
    repeat (rewrite contains_char_append; simpl).
    repeat match goal with H : PyStr.contains_char "/" _ = false |- _ =>
                             rewrite H; clear H end.
    reflexivity. }
  assert (Hlast : PyStr.last_part (PyStr.split "/" s3_key) = fname).
  { rewrite Hkey, last_part_after_sep, (split_no_sep _ _ Hslash).
    reflexivity. }
  assert (Hsplit : PyStr.split "-" fname
                   = g1 :: g2 :: g3 :: g4 :: g5 :: PyStr.split "-" filename).
  { unfold fname. now rewrite !split_app_sep by assumption. }
  assert (Hin : Ingest.extract_document_id_from_s3_key s3_key = document_id).
  { unfold Ingest.extract_document_id_from_s3_key. rewrite Hlast.
    assert (Hc : PyStr.contains_char "-" fname = true).
    { unfold fname. rewrite contains_char_append. simpl. apply orb_true_r. }
    rewrite Hc, Hsplit. cbn [length Nat.leb firstn].
    unfold document_id, PyStr.join.
    repeat first [ rewrite append_assoc | progress simpl ]. reflexivity. }
  assert (Hw : DocumentAnalysis.metadata_document_id s3_key = g1).
  { unfold DocumentAnalysis.metadata_document_id. now rewrite Hlast, Hsplit. }
  split; [exact Hin |]. split; [exact Hw |].
  rewrite Hin, Hw. unfold document_id. intros Heq.
  apply (f_equal String.length) in Heq. rewrite length_append in Heq.
  simpl in Heq. lia.
Qed.

End DocumentIds.

(** * Further properties of the handlers *)

(** ** What a storage key encodes *)

Section StorageKeys.

(** X1. The owner and the document type of a key that the upload
    initiator derives are recovered by parsing the key alone, by the
    ingestion trigger and by the extraction worker alike. *)
Theorem upload_key_encodes_owner_and_type (owner ty rest : string) :
  PyStr.contains_char "/" owner = false ->
  PyStr.contains_char "/" ty = false ->
  let s3_key := "users/" ++ owner ++ "/" ++ ty ++ "/" ++ rest in
  Ingest.extract_user_id_from_s3_key s3_key = JStr owner
  /\ DocumentAnalysis.get_document_type_from_key s3_key = ty
  /\ DocumentAnalysis.metadata_user_id s3_key = owner.
Proof.
  intros Ho Ht s3_key.
  assert (Hs : PyStr.split "/" s3_key
               = "users" :: owner :: ty :: PyStr.split "/" rest).
  { unfold s3_key.
    change ("users/" ++ owner ++ "/" ++ ty ++ "/" ++ rest)
      with ("users" ++ String "/" (owner ++ String "/" (ty ++ String "/" rest))).
    now rewrite !split_app_sep by (reflexivity || assumption). }
  unfold Ingest.extract_user_id_from_s3_key,
    DocumentAnalysis.get_document_type_from_key,
    DocumentAnalysis.metadata_user_id.
  rewrite Hs. repeat split; reflexivity.
Qed.

(** X2. Where a file name carries no five-group identifier, the
    ingestion trigger falls back: a name without a hyphen gives what
    precedes its first dot, a name with a single hyphen what precedes the
    hyphen; the directories of the key play no part. *)
Theorem extract_document_id_fallbacks (directory filename : string) :
  PyStr.contains_char "/" filename = false ->
  (PyStr.contains_char "-" filename = false ->
   Ingest.extract_document_id_from_s3_key (directory ++ "/" ++ filename)
   = hd "" (PyStr.split "." filename))
  /\ (forall a b,
        filename = a ++ "-" ++ b ->
        PyStr.contains_char "-" a = false ->
        PyStr.contains_char "-" b = false ->
        Ingest.extract_document_id_from_s3_key (directory ++ "/" ++ filename)
        = a).
Proof.
  intros Hf.
  assert (Hl : PyStr.last_part (PyStr.split "/" (directory ++ "/" ++ filename))
               = filename).
  { change (directory ++ "/" ++ filename)
      with (directory ++ String "/" filename).
    rewrite last_part_after_sep, (split_no_sep _ _ Hf). reflexivity. }
  unfold Ingest.extract_document_id_from_s3_key. rewrite Hl. split.
  - intros Hh. now rewrite Hh.
  - intros a b -> Ha Hb.
    change (a ++ "-" ++ b) with (a ++ String "-" b).
    rewrite contains_char_append. cbn [PyStr.contains_char].
    rewrite Ascii.eqb_refl, orb_true_r.
    rewrite (split_app_sep _ _ _ Ha), (split_no_sep _ _ Hb).
    cbn [length Nat.leb]. unfold PyStr.rsplit1_head.
    rewrite (split_app_sep _ _ _ Ha), (split_no_sep _ _ Hb).
    reflexivity.
Qed.

End StorageKeys.

(** ** Sidecar keys *)

Section SidecarKeysMore.

Import SidecarManager.

Lemma get_sidecar_key_cases (k kind s : string) :
  get_sidecar_key k kind = Ok s ->
  exists suffix, In (kind, suffix) SIDECAR_TYPES /\ s = k ++ suffix.
Proof.
  unfold get_sidecar_key.
  destruct (assoc kind SIDECAR_TYPES) as [suffix|] eqn:E; [| discriminate].
  destruct (String.eqb suffix ""); [discriminate |].
  intros [= <-]. exists suffix. split; [| reflexivity].
  revert E. unfold SIDECAR_TYPES. cbn [assoc].
  repeat match goal with
         | |- context [String.eqb ?a kind] =>
             destruct (String.eqb_spec a kind) as [<-|_];
             [intros [= <-]; cbn [In]; auto 10 |]
         end.
  discriminate.
Qed.

Lemma sidecar_key_inverse (k kind s : string) :
  get_sidecar_key k kind = Ok s -> get_document_from_sidecar_key s = Some k.
Proof.
  intros H. destruct (get_sidecar_key_cases _ _ _ H) as (suffix & Hin & ->).
  pose proof (document_from_sidecar_key k) as HF.
  rewrite List.Forall_forall in HF. apply HF.
  unfold SIDECAR_TYPES in Hin. unfold Observe.sidecar_suffixes.
  cbn [In] in *.
  destruct Hin as [Hin|[Hin|[Hin|[Hin|[Hin|[]]]]]];
    injection Hin as _ <-; auto 10.
Qed.

Lemma sidecar_key_inj (k1 k2 kind1 kind2 s : string) :
  get_sidecar_key k1 kind1 = Ok s ->
  get_sidecar_key k2 kind2 = Ok s ->
  k1 = k2 /\ kind1 = kind2.
Proof.
  intros H1 H2.
  assert (Hk : k1 = k2).
  { apply sidecar_key_inverse in H1, H2. congruence. }
  subst k2. split; [reflexivity |].
  destruct (get_sidecar_key_cases _ _ _ H1) as (s1 & Hin1 & E1).
  destruct (get_sidecar_key_cases _ _ _ H2) as (s2 & Hin2 & E2).
  assert (Hs : s1 = s2).
  { rewrite E1 in E2. clear -E2.
    induction k1 as [|a k1 IH]; simpl in E2; [exact E2 |].
    injection E2 as E2. now apply IH. }
  subst s2. unfold SIDECAR_TYPES in Hin1, Hin2. cbn [In] in Hin1, Hin2.
  destruct Hin1 as [Hin1|[Hin1|[Hin1|[Hin1|[Hin1|[]]]]]];
    destruct Hin2 as [Hin2|[Hin2|[Hin2|[Hin2|[Hin2|[]]]]]];
    congruence.
Qed.

(** X3. The sidecar keys of two documents, or of two kinds of one
    document, never coincide: a sidecar key determines its document and
    its kind.  A kind outside the five is refused with a [ValueError]. *)
Theorem sidecar_keys_never_collide (k1 k2 kind1 kind2 s : string) :
  (get_sidecar_key k1 kind1 = Ok s ->
   get_sidecar_key k2 kind2 = Ok s ->
   k1 = k2 /\ kind1 = kind2)
  /\ (~ In kind1 ["metadata"; "extracted"; "processing"; "insights"; "audit"]
      -> exists msg, get_sidecar_key k1 kind1 = Raise (ValueError msg)).
Proof.
  split.
  - apply sidecar_key_inj.
  - intros Hn. unfold get_sidecar_key.
    destruct (assoc kind1 SIDECAR_TYPES) as [suffix|] eqn:E.
    + exfalso. apply Hn. revert E. unfold SIDECAR_TYPES. cbn [assoc].
      repeat match goal with
             | |- context [String.eqb ?a kind1] =>
                 destruct (String.eqb_spec a kind1) as [<-|_];
                 [intros _; cbn [In]; auto 10 |]
             end.
      discriminate.
    + eexists. reflexivity.
Qed.

(** X4. [get_document_from_sidecar_key] answers [None] exactly on the
    keys that [is_sidecar_file] rejects, and a document it answers has the
    given key as one of its sidecar keys. *)
Theorem document_of_sidecar_key_sound (k : string) :
  (get_document_from_sidecar_key k = None <-> is_sidecar_file k = false)
  /\ (forall d, get_document_from_sidecar_key k = Some d ->
        exists kind, get_sidecar_key d kind = Ok k).
Proof.
  unfold get_document_from_sidecar_key, is_sidecar_file, values,
    SIDECAR_TYPES.
  cbn [map snd first_suffix existsb].
  assert (Hd : forall suffix d,
             suffix <> "" -> PyStr.endswith k suffix = true ->
             PyStr.drop_last (String.length suffix) k = d ->
             k = d ++ suffix).
  { intros suffix d Hne He Hdrop. apply endswith_spec in He as [p ->].
    rewrite drop_last_append in Hdrop by exact Hne. now subst. }
  destruct (PyStr.endswith k ".metadata.json") eqn:E1.
  { split; [split; discriminate |]. intros d [= H].
    exists "metadata".
    now rewrite (Hd ".metadata.json" d ltac:(discriminate) E1 H). }
  destruct (PyStr.endswith k ".extracted.json") eqn:E2.
  { split; [split; discriminate |]. intros d [= H].
    exists "extracted".
    now rewrite (Hd ".extracted.json" d ltac:(discriminate) E2 H). }
  destruct (PyStr.endswith k ".processing.json") eqn:E3.
  { split; [split; discriminate |]. intros d [= H].
    exists "processing".
    now rewrite (Hd ".processing.json" d ltac:(discriminate) E3 H). }
  destruct (PyStr.endswith k ".insights.json") eqn:E4.
  { split; [split; discriminate |]. intros d [= H].
    exists "insights".
    now rewrite (Hd ".insights.json" d ltac:(discriminate) E4 H). }
  destruct (PyStr.endswith k ".audit.json") eqn:E5.
  { split; [split; discriminate |]. intros d [= H].
    exists "audit".
    now rewrite (Hd ".audit.json" d ltac:(discriminate) E5 H). }
  split; [split; reflexivity | discriminate].
Qed.

End SidecarKeysMore.

(** ** Parts of the world a computation leaves alone *)

Section Frames.

Import Observe.
Context {X : Type} (part : World -> X).

Lemma preserves_ret {A : Type} (a : A) : preserves part (ret a).
Proof. now intros w. Qed.

Lemma preserves_raise {A : Type} (e : exn) : preserves part (@raise A e).
Proof. now intros w. Qed.

Lemma preserves_lift {A : Type} (r : result A) : preserves part (lift r).
Proof. now intros w. Qed.

Lemma preserves_gets {A : Type} (f : World -> A) : preserves part (gets f).
Proof. now intros w. Qed.

Lemma preserves_bind {A B : Type} (m : M A) (f : A -> M B) :
  preserves part m -> (forall a, preserves part (f a)) ->
  preserves part (bind m f).
Proof.
  intros Hm Hf w. unfold bind. specialize (Hm w).
  destruct (m w) as [w' [a|e]]; cbn [fst] in *; [| exact Hm].
  now rewrite Hf.
Qed.

Lemma preserves_try_except {A : Type} (m : M A) (h : exn -> M A) :
  preserves part m -> (forall e, preserves part (h e)) ->
  preserves part (try_except m h).
Proof.
  intros Hm Hh w. unfold try_except. specialize (Hm w).
  destruct (m w) as [w' [a|e]]; cbn [fst] in *; [exact Hm |].
  now rewrite Hh.
Qed.

Lemma preserves_modify (f : World -> World) :
  (forall w, part (f w) = part w) -> preserves part (modify f).
Proof. intros H w. apply H. Qed.

End Frames.

(** A computation built from steps that each leave [part] alone. *)
Ltac frame_step :=
  first
    [ apply preserves_ret | apply preserves_raise | apply preserves_lift
    | apply preserves_gets
    | apply preserves_bind; [| intros ?]
    | apply preserves_try_except; [| intros ?]
    | apply preserves_modify; intros ?; reflexivity
    | match goal with
      | |- Observe.preserves _ (match ?x with _ => _ end) => destruct x
      | |- Observe.preserves _ (let _ := _ in _) => cbv zeta
      | |- Observe.preserves _ (fun w => (tick w, _)) =>
          intros ?; reflexivity
      | |- Observe.preserves _ (fun w => match ?t with _ => _ end) =>
          let w := fresh "w" in intros w; cbv beta; destruct t; reflexivity
      end ].

Ltac frame := repeat frame_step.

(** ** The status reader, beyond the table *)

Section StatusReaderMore.

Import Observe DocumentStatus.
Variable env : Env.

Lemma get_user_id_pure (event : json) (w : World) :
  fst (get_user_id_from_event event w) = w.
Proof.
  assert (H : preserves (fun w => w) (get_user_id_from_event event)).
  { unfold get_user_id_from_event. frame. }
  apply H.
Qed.

(** X5. The status reader is a pure read: whatever the event, it leaves
    the objects, the document table, the activity log, the start calls,
    the invocations and the identifiers drawn as they were; at most the
    clock has been read. *)
Theorem status_reader_is_pure_read (event : json) (w : World) :
  timeless (fst (lambda_handler env event w)) = timeless w.
Proof.
  assert (H : preserves timeless (handle env event)).
  { unfold handle, get_user_id_from_event, get_item, utcnow_iso, utcnow.
    frame. }
  unfold lambda_handler. specialize (H w).
  destruct (handle env event w) as [w' [r|e]]; cbn [fst] in *; [exact H |].
  destruct e; exact H.
Qed.

(** X6. What the status reader refuses: an event without a request
    context is answered 401, an identified caller who names no document
    400, and one who names a document that has no record 404; in each
    case the world is the one before the request. *)
Theorem status_reader_refusals (event : json) (w : World) :
  (forall d, event = JDict d -> Py.dict_get "requestContext" d = None ->
     lambda_handler env event w
     = (w, {| statusCode := 401; headers := json_headers;
              body := JDict [ ("error",
                               JStr "Invalid authorization context") ] |}))
  /\ (forall user_id path_parameters document_id,
        get_user_id_from_event event w = (w, Ok user_id) ->
        Py.get event "pathParameters" (JDict []) = Ok path_parameters ->
        Py.get path_parameters "documentId" JNull = Ok document_id ->
        (Py.truthy document_id = false ->
         lambda_handler env event w
         = (w, {| statusCode := 400; headers := json_headers;
                  body := JDict [ ("error",
                                   JStr "documentId is required") ] |}))
        /\ (forall k,
              Py.truthy document_id = true ->
              table_key user_id document_id = Some k ->
              metadata_table w !! k = None ->
              lambda_handler env event w
              = (w, {| statusCode := 404; headers := json_headers;
                       body := JDict [ ("error",
                                        JStr "Document not found") ] |}))).
Proof.
  split.
  - intros d -> Hd. unfold lambda_handler, handle, get_user_id_from_event.
    unfold bind at 1. unfold try_except, bind, lift. cbn [Py.getitem].
    now rewrite Hd.
  - intros user_id pp document_id Hu Hp Hd. split.
    + intros Ht. unfold lambda_handler, handle.
      rewrite (bind_ok _ _ _ _ _ Hu). unfold bind, lift.
      now rewrite Hp, Hd, Ht.
    + intros k Ht Hk Hn. unfold lambda_handler, handle.
      rewrite (bind_ok _ _ _ _ _ Hu). unfold bind, lift, get_item, gets.
      rewrite Hp, Hd, Ht, Hk. cbn [negb]. now rewrite Hn.
Qed.

(** X7. The projection the status reader answers with keeps progress
    within 0 and 100, and reports [ready], like progress 100, for
    [ingestion_complete] and for no other status. *)
Theorem status_projection_bounds (current_status : json) (info : status_info) :
  status_map_get current_status = Ok info ->
  0 <= progress info <= 100
  /\ (status info = "ready" <-> current_status = JStr "ingestion_complete")
  /\ (progress info = 100 <-> current_status = JStr "ingestion_complete").
Proof.
  unfold status_map_get.
  destruct current_status as [| | | |s| | |]; try discriminate;
    try (intros [= <-]; cbn; repeat split; try lia; discriminate).
  unfold status_map. cbn [lookup_status].
  repeat match goal with
         | |- context [String.eqb ?a s] =>
             destruct (String.eqb_spec a s) as [<-|?]
         end;
    intros [= <-]; cbn; repeat split; try lia; try discriminate;
    try reflexivity; intros [= ?]; congruence.
Qed.

End StatusReaderMore.

(** ** The status poller, as a whole run *)

Section StatusPollerMore.

Import Observe StatusChecker.
Variable env : Env.

Lemma check_documents_ok (documents : list item) (w : World) :
  snd (check_documents env documents w) = Ok tt.
Proof.
  revert w. induction documents as [|doc rest IH]; intros w; [reflexivity |].
  cbn [check_documents]. unfold bind, try_except.
  destruct (check_document env doc w) as [w' [[]|e]]; cbn; apply IH.
Qed.

Lemma check_document_keeps_gen {X : Type} (part : World -> X) (doc : item) :
  (forall sets removes,
      preserves part
        (update_item (attr doc "userId") (attr doc "documentId") sets removes)) ->
  (forall w, part (tick w) = part w) ->
  preserves part (check_document env doc).
Proof.
  intros Hup Ht.
  assert (Hu : preserves part (utcnow env)) by (intros w; apply Ht).
  assert (Hi : preserves part (utcnow_iso env))
    by (unfold utcnow_iso; frame; exact Hu).
  unfold check_document, bedrock_get_ingestion_job.
  repeat first
    [ exact Hu | exact Hi | apply Hup
    | apply preserves_ret | apply preserves_raise | apply preserves_lift
    | apply preserves_bind; [| intros ?]
    | match goal with
      | |- preserves _ (if ?c then _ else _) => destruct c
      | |- preserves _ (let _ := _ in _) => cbv zeta
      | |- preserves _ (fun w => (w, _)) => intros ?; reflexivity
      end ].
Qed.

Lemma check_document_keeps {X : Type} (part : World -> X) (doc : item) :
  (forall f w, part (set_metadata_table f w) = part w) ->
  (forall w, part (tick w) = part w) ->
  preserves part (check_document env doc).
Proof.
  intros Hm Ht. apply check_document_keeps_gen; [| exact Ht].
  intros sets removes. unfold update_item.
  destruct (existsb _ sets); [frame |].
  destruct (table_key _ _) as [[u' d']|]; [| frame].
  intros w. apply Hm.
Qed.

Lemma check_document_other (doc : item) (k : string * string) :
  own_key doc <> Some k ->
  preserves (fun w => metadata_table w !! k) (check_document env doc).
Proof.
  intros Hne. apply check_document_keeps_gen; [| reflexivity].
  intros sets removes. unfold update_item.
  destruct (existsb _ sets); [frame |].
  fold (own_key doc).
  destruct (own_key doc) as [[u' d']|] eqn:E; [| frame].
  intros w. cbn [modify fst metadata_table set_metadata_table].
  apply lookup_insert_ne. congruence.
Qed.

Lemma check_documents_keeps {X : Type} (part : World -> X)
    (documents : list item) :
  (forall doc, In doc documents -> preserves part (check_document env doc)) ->
  preserves part (check_documents env documents).
Proof.
  induction documents as [|doc rest IH]; intros H; [apply preserves_ret |].
  cbn [check_documents]. apply preserves_bind.
  - apply preserves_try_except; [apply H; now left | intros; apply preserves_ret].
  - intros _. apply IH. intros d Hd. apply H. now right.
Qed.

(** X8. A run of the poller never aborts and never touches what is not
    the document table: whatever the table holds and whatever the
    ingestion service answers or raises, the answer is 200 and counts the
    records selected, and the objects, the activity log, the start calls
    and the invocations are as before. *)
Theorem poller_run_completes (w : World) :
  let run := lambda_handler env w in
  statusCode (snd run) = 200
  /\ (exists b, body (snd run) = JDict b
      /\ Py.dict_get "processed" b
         = Some (JInt (Z.of_nat (length (scan_in_flight w)))))
  /\ s3 (fst run) = s3 w
  /\ logging_table (fst run) = logging_table w
  /\ ingestion_calls (fst run) = ingestion_calls w
  /\ invocations (fst run) = invocations w.
Proof.
  intros run. subst run. unfold lambda_handler.
  pose proof (check_documents_ok (scan_in_flight w) w) as Hok.
  assert (Hk : forall {X} (part : World -> X),
             (forall f w, part (set_metadata_table f w) = part w) ->
             (forall w, part (tick w) = part w) ->
             part (fst (check_documents env (scan_in_flight w) w)) = part w).
  { intros X part Hm Ht. apply check_documents_keeps.
    intros doc _. now apply check_document_keeps. }
  destruct (check_documents env (scan_in_flight w) w) as [w' r].
  cbn [snd fst] in *. subst r. cbn [fst snd statusCode body].
  split; [reflexivity |]. split; [eexists; split; reflexivity |].
  repeat split; apply Hk; reflexivity.
Qed.

Lemma scan_nothing_in_flight (w : World) :
  (forall k doc, metadata_table w !! k = Some doc -> in_flight doc = false) ->
  scan_in_flight w = [].
Proof.
  intros H. unfold scan_in_flight.
  assert (Hall : forall doc,
             doc ∈ (snd <$> map_to_list (metadata_table w)) ->
             in_flight doc = false).
  { intros doc Hin. apply list_elem_of_fmap in Hin as ([k d] & -> & Hin).
    apply elem_of_map_to_list in Hin. exact (H k d Hin). }
  induction (snd <$> map_to_list (metadata_table w)) as [|doc l IH];
    [reflexivity |].
  rewrite filter_cons_False.
  - apply IH. intros d Hd. apply Hall. now right.
  - unfold in_flight in Hall. rewrite (Hall doc); [discriminate | now left].
Qed.

(** X9. Repeated runs are idle once nothing is in flight: when no record
    of the table has one of the two in-flight statuses, a run of the
    poller answers that it checked no document and leaves the world as it
    was, without asking the ingestion service or reading the clock. *)
Theorem poller_idle_when_nothing_in_flight (w : World) :
  (forall k doc, metadata_table w !! k = Some doc -> in_flight doc = false) ->
  fst (lambda_handler env w) = w
  /\ statusCode (snd (lambda_handler env w)) = 200
  /\ exists b, body (snd (lambda_handler env w)) = JDict b
               /\ Py.dict_get "processed" b = Some (JInt 0).
Proof.
  intros H. unfold lambda_handler.
  rewrite (scan_nothing_in_flight w H). cbn.
  split; [reflexivity |]. split; [reflexivity |].
  eexists. split; reflexivity.
Qed.

(** X10. A record that cannot be checked does not stop the run: a record
    without a job id, and a record for which the ingestion service raises,
    are passed over with the world unchanged, and the records after them
    are checked all the same. *)
Theorem poller_passes_over_failing_record
    (doc : item) (rest : list item) (w : World) :
  (Py.truthy (attr doc "ingestionJobId") = false ->
   check_documents env (doc :: rest) w = check_documents env rest w)
  /\ (forall e,
        Py.truthy (attr doc "ingestionJobId") = true ->
        get_ingestion_job env (clock w) (attr doc "ingestionJobId") = Raise e ->
        check_documents env (doc :: rest) w = check_documents env rest w).
Proof.
  split.
  - intros Hj. cbn [check_documents]. unfold bind at 1, try_except at 1.
    unfold check_document. now rewrite Hj.
  - intros e Hj Hg. cbn [check_documents]. unfold bind at 1, try_except at 1.
    unfold check_document, bedrock_get_ingestion_job. rewrite Hj. cbn [negb].
    unfold bind at 1. now rewrite Hg.
Qed.

Lemma check_documents_app (l1 l2 : list item) (w : World) :
  check_documents env (l1 ++ l2) w
  = check_documents env l2 (fst (check_documents env l1 w)).
Proof.
  revert w. induction l1 as [|doc l1 IH]; intros w; [reflexivity |].
  cbn [app check_documents]. unfold bind.
  destruct (try_except (check_document env doc) (fun _ => ret tt) w)
    as [w' [[]|e]] eqn:E.
  - cbn [fst]. apply IH.
  - exfalso. unfold try_except in E.
    destruct (check_document env doc w) as [w0 [[]|e0]]; discriminate E.
Qed.

Lemma scan_elem (w : World) (doc : item) :
  doc ∈ scan_in_flight w <->
  in_flight doc = true /\ exists k, metadata_table w !! k = Some doc.
Proof.
  unfold scan_in_flight. rewrite list_elem_of_filter, list_elem_of_fmap.
  fold (in_flight doc). split.
  - intros (Hf & [k d] & -> & Hin). apply elem_of_map_to_list in Hin. eauto.
  - intros (Hf & k & Hk). split; [exact Hf |]. exists (k, doc).
    split; [reflexivity | now apply elem_of_map_to_list].
Qed.

Lemma scan_NoDup (w : World) : well_keyed w -> NoDup (scan_in_flight w).
Proof.
  intros Hw. unfold scan_in_flight. apply NoDup_filter.
  apply NoDup_fmap_2_strong; [| apply NoDup_map_to_list].
  intros [k1 d1] [k2 d2] H1 H2 Heq. cbn in Heq. subst d2.
  apply elem_of_map_to_list in H1, H2.
  apply Hw in H1, H2. congruence.
Qed.

(** The records selected, around one of them. *)
Lemma scan_split (w : World) (k : string * string) (doc : item) :
  well_keyed w -> metadata_table w !! k = Some doc -> in_flight doc = true ->
  exists l1 l2,
    scan_in_flight w = (l1 ++ doc :: l2)%list
    /\ Forall (fun d => own_key d <> Some k) l1
    /\ Forall (fun d => own_key d <> Some k) l2.
Proof.
  intros Hw Hk Hf.
  assert (Hin : doc ∈ scan_in_flight w) by (apply scan_elem; eauto).
  pose proof (scan_NoDup w Hw) as Hnd.
  assert (Hother : forall d, d ∈ scan_in_flight w -> d <> doc ->
                             own_key d <> Some k).
  { intros d Hd Hne Ho. apply scan_elem in Hd as (_ & k' & Hk').
    pose proof (Hw _ _ Hk') as Ho'. rewrite Ho in Ho'. injection Ho' as <-.
    congruence. }
  apply list_elem_of_split in Hin as (l1 & l2 & E).
  exists l1, l2. split; [exact E |].
  rewrite E in Hnd, Hother.
  apply NoDup_app in Hnd as (_ & Hd1 & Hd2).
  apply NoDup_cons in Hd2 as (Hd2 & _).
  split; apply Forall_forall; intros d Hd; apply Hother.
  - apply elem_of_app. now left.
  - intros ->. apply (Hd1 doc Hd). now left.
  - apply elem_of_app. right. now right.
  - intros ->. contradiction.
Qed.

Lemma check_documents_other (documents : list item) (k : string * string) :
  Forall (fun d => own_key d <> Some k) documents ->
  preserves (fun w => metadata_table w !! k) (check_documents env documents).
Proof.
  intros H. apply check_documents_keeps. intros doc Hin.
  apply check_document_other. rewrite List.Forall_forall in H. now apply H.
Qed.

(** X11. A run of the poller leaves every record that is not in flight
    as it is, in a table that stores each record under the key the record
    names: it is the only component that moves a record out of the
    ingestion chain, and it moves in-flight records only. *)
Theorem poller_leaves_settled_records
    (w : World) (k : string * string) (doc : item) :
  well_keyed w ->
  metadata_table w !! k = Some doc ->
  in_flight doc = false ->
  metadata_table (fst (lambda_handler env w)) !! k = Some doc.
Proof.
  intros Hw Hk Hf.
  assert (H : metadata_table (fst (check_documents env (scan_in_flight w) w)) !! k
              = metadata_table w !! k).
  { apply (check_documents_other (scan_in_flight w) k).
    apply Forall_forall. intros d Hd Ho.
    apply scan_elem in Hd as (Hfd & k' & Hk').
    pose proof (Hw _ _ Hk') as Ho'. rewrite Ho in Ho'. injection Ho' as <-.
    congruence. }
  unfold lambda_handler.
  destruct (check_documents env (scan_in_flight w) w) as [w' [[]|e]];
    cbn [fst] in *; now rewrite H.
Qed.

(** What a run of the poller does to an in-flight record is what the
    check of that record alone does to it, in some world of the run in
    which the record is still as the run found it. *)
Lemma run_reaches_record (w : World) (k : string * string) (doc : item) :
  well_keyed w ->
  metadata_table w !! k = Some doc ->
  in_flight doc = true ->
  exists w1,
    metadata_table w1 !! k = Some doc
    /\ metadata_table (fst (lambda_handler env w)) !! k
       = metadata_table
           (fst (try_except (check_document env doc) (fun _ => ret tt) w1))
         !! k.
Proof.
  intros Hw Hk Hf.
  destruct (scan_split w k doc Hw Hk Hf) as (l1 & l2 & E & H1 & H2).
  exists (fst (check_documents env l1 w)).
  split.
  - rewrite <- Hk. apply (check_documents_other l1 k H1).
  - assert (Hrun : fst (lambda_handler env w)
                   = fst (check_documents env (scan_in_flight w) w)).
    { unfold lambda_handler.
      now destruct (check_documents env (scan_in_flight w) w) as [w' [[]|e]]. }
    rewrite Hrun, E, check_documents_app.
    cbn [check_documents]. set (w1 := fst (check_documents env l1 w)).
    unfold bind at 1.
    destruct (try_except (check_document env doc) (fun _ => ret tt) w1)
      as [w2 [[]|e]] eqn:Et.
    + cbn [fst]. apply (check_documents_other l2 k H2).
    + exfalso. unfold try_except in Et.
      destruct (check_document env doc w1) as [w0 [[]|e0]]; discriminate Et.
Qed.

(** X12. A run of the poller settles every in-flight record on its own,
    whatever other records the run visits before and after it: when the
    ingestion service reports the job of the record FAILED, the record is
    in [error] with the joined failure reasons after the run; when it
    reports COMPLETE for a record in [ingestion_in_progress], the record is
    in [indexing_wait] after the run, never [ingestion_complete]. *)
Theorem poller_run_settles_record
    (w : World) (k : string * string) (doc : item)
    (job_response job : json) :
  well_keyed w ->
  metadata_table w !! k = Some doc ->
  in_flight doc = true ->
  Py.truthy (attr doc "ingestionJobId") = true ->
  (forall n, get_ingestion_job env n (attr doc "ingestionJobId")
             = Ok job_response) ->
  Py.get job_response "ingestionJob" (JDict []) = Ok job ->
  (forall reasons : list string,
      Py.get job "status" JNull = Ok (JStr "FAILED") ->
      Py.get job "failureReasons" (JList [ JStr "Unknown error" ])
      = Ok (JList (map JStr reasons)) ->
      exists it : item,
        metadata_table (fst (lambda_handler env w)) !! k = Some it
        /\ attr it "currentStatus" = JStr "error"
        /\ attr it "errorMessage" = JStr (PyStr.join ", " reasons))
  /\ (Py.get job "status" JNull = Ok (JStr "COMPLETE") ->
      attr doc "currentStatus" = JStr "ingestion_in_progress" ->
      exists it : item,
        metadata_table (fst (lambda_handler env w)) !! k = Some it
        /\ attr it "currentStatus" = JStr "indexing_wait").
Proof.
  intros Hw Hk Hf Hjob Hget Hj.
  destruct (run_reaches_record w k doc Hw Hk Hf) as (w1 & Hk1 & ->).
  pose proof (Hw _ _ Hk) as Hown. unfold own_key in Hown.
  destruct k as [u d]. split.
  - intros reasons Hs Hr.
    unfold try_except, check_document, bedrock_get_ingestion_job, bind, lift.
    rewrite Hjob. cbn [negb]. rewrite Hget, Hj, Hs, Hr, join_strings.
    cbn [Py.eq_str String.eqb Ascii.eqb Bool.eqb utcnow utcnow_iso bind ret].
    unfold update_item. cbn [existsb Py.has_float snd orb clock tick].
    rewrite Hown.
    cbn [modify fst snd metadata_table set_metadata_table tick s3].
    rewrite Hk1, lookup_insert_eq. eexists. split; [reflexivity |].
    unfold attr. cbn [fold_left fst snd].
    rewrite lookup_insert_ne, lookup_insert_ne, lookup_insert_eq by discriminate.
    now rewrite lookup_insert_ne, lookup_insert_eq by discriminate.
  - intros Hs Hc.
    unfold try_except, check_document, bedrock_get_ingestion_job, bind, lift.
    rewrite Hjob. cbn [negb]. rewrite Hget, Hj, Hs, Hc.
    cbn [Py.eq_str String.eqb Ascii.eqb Bool.eqb utcnow utcnow_iso bind ret].
    unfold update_item. cbn [existsb Py.has_float snd orb clock tick].
    rewrite Hown.
    cbn [modify fst snd metadata_table set_metadata_table tick s3].
    rewrite Hk1, lookup_insert_eq. eexists. split; [reflexivity |].
    unfold attr. cbn [fold_left fst snd].
    now rewrite lookup_insert_ne, lookup_insert_ne, lookup_insert_eq
      by discriminate.
Qed.

End StatusPollerMore.

(** ** The sidecar store, beyond the status chain *)

Section SidecarFrames.

Import SidecarManager Observe.
Variable env : Env.
Variable self : SidecarManager.t.
Context {X : Type} (part : World -> X).
Hypothesis part_s3 : forall f w, part (set_s3 f w) = part w.
Hypothesis part_tick : forall w, part (tick w) = part w.

Lemma frame_utcnow_iso : preserves part (utcnow_iso env).
Proof.
  unfold utcnow_iso. apply preserves_bind; [| intros ?; apply preserves_ret].
  intros w. apply part_tick.
Qed.

Lemma frame_put_object (b k : string) (o : s3object) :
  preserves part (put_object b k o).
Proof. intros w. apply part_s3. Qed.

Lemma frame_delete_object (b k : string) : preserves part (delete_object b k).
Proof. intros w. apply part_s3. Qed.

Lemma frame_get_object (b k : string) : preserves part (get_object b k).
Proof. intros w. unfold get_object. now destruct (s3 w !! (b, k)). Qed.

Ltac sidecar_frame :=
  repeat first
    [ apply frame_utcnow_iso | apply frame_put_object
    | apply frame_delete_object | apply frame_get_object | frame_step ].

Lemma frame_write_sidecar (k ty : string) (data : json) :
  preserves part (write_sidecar env self k ty data).
Proof. unfold write_sidecar. sidecar_frame. Qed.

Lemma frame_read_sidecar (k ty : string) :
  preserves part (read_sidecar env self k ty).
Proof. unfold read_sidecar. sidecar_frame. Qed.

Lemma frame_append_at (data : json) (k : string) (entry : M json) :
  preserves part entry -> preserves part (append_at data k entry).
Proof. intros He. unfold append_at. repeat first [ exact He | frame_step ]. Qed.

Lemma frame_append_processing_status (k status details : string)
    (error_info : option dict) :
  preserves part (append_processing_status env self k status details error_info).
Proof.
  unfold append_processing_status.
  repeat first [ apply frame_read_sidecar | apply frame_write_sidecar
               | apply frame_append_at | apply frame_utcnow_iso | frame_step ].
Qed.

Lemma frame_append_audit_event (k action : string) (user_id : json)
    (kwargs : dict) :
  preserves part (append_audit_event env self k action user_id kwargs).
Proof.
  unfold append_audit_event.
  repeat first [ apply frame_read_sidecar | apply frame_write_sidecar
               | apply frame_append_at | apply frame_utcnow_iso | frame_step ].
Qed.

Lemma frame_delete_all (k : string) (types : list string) (n : Z) :
  preserves part (delete_all self k types n).
Proof.
  revert n. induction types as [|ty types IH]; intros n; cbn [delete_all].
  - apply preserves_ret.
  - repeat first [ apply IH | apply frame_delete_object | frame_step ].
Qed.

End SidecarFrames.

Section SidecarStoreMore.

Import SidecarManager Observe.
Variable env : Env.
Variable self : SidecarManager.t.

Lemma read_sidecar_pure (k ty : string) :
  preserves (fun w => w) (read_sidecar env self k ty).
Proof.
  unfold read_sidecar. repeat first [ apply frame_get_object | frame_step ].
Qed.

Lemma read_all_pure (k : string) (types : list string) (acc : dict) :
  preserves (fun w => w) (read_all env self k types acc).
Proof.
  revert acc. induction types as [|ty types IH]; intros acc; cbn [read_all].
  - apply preserves_ret.
  - apply preserves_bind; [apply read_sidecar_pure | intros ?; apply IH].
Qed.

(** X13. The sidecar manager works on the object store only: writing
    a sidecar, appending a status or an audit event and deleting the
    sidecars of a document leave the document table, the activity log, the
    ingestion calls, the worker invocations and the identifiers drawn as
    they are; reading one sidecar or all of them leaves the whole world as
    it is, the clock included. *)
Theorem sidecar_manager_touches_only_storage
    (document_s3_key sidecar_type status details action : string)
    (data user_id : json) (error_info : option dict) (kwargs : dict) :
  preserves ledger (write_sidecar env self document_s3_key sidecar_type data)
  /\ preserves ledger
       (append_processing_status env self document_s3_key status details
          error_info)
  /\ preserves ledger
       (append_audit_event env self document_s3_key action user_id kwargs)
  /\ preserves ledger (delete_all_sidecars self document_s3_key)
  /\ preserves (fun w => w) (read_sidecar env self document_s3_key sidecar_type)
  /\ preserves (fun w => w) (get_all_sidecars env self document_s3_key).
Proof.
  split; [| split; [| split; [| split; [| split]]]].
  - now apply frame_write_sidecar.
  - now apply frame_append_processing_status.
  - now apply frame_append_audit_event.
  - unfold delete_all_sidecars.
    apply (frame_delete_all self ledger); reflexivity.
  - apply read_sidecar_pure.
  - unfold get_all_sidecars.
    apply preserves_bind; [apply read_all_pure | intros ?; apply preserves_ret].
Qed.


Lemma read_sidecar_missing (w : World) (doc ty k : string) :
  get_sidecar_key doc ty = Ok k ->
  s3 w !! (bucket self, k) = None ->
  read_sidecar env self doc ty w = (w, Ok JNull).
Proof.
  intros H Hn. unfold read_sidecar, bind, lift, try_except, get_object.
  now rewrite H, Hn.
Qed.

Lemma read_sidecar_parsed (w : World) (doc ty k : string) (o : s3object)
    (data : json) :
  get_sidecar_key doc ty = Ok k ->
  s3 w !! (bucket self, k) = Some o ->
  Body o = Json data ->
  read_sidecar env self doc ty w = (w, Ok data).
Proof.
  intros H Ho Hb. unfold read_sidecar, bind, lift, try_except, get_object.
  now rewrite H, Ho, Hb.
Qed.


Lemma dict_get_nil_all (d : dict) :
  (forall k, Py.dict_get k d = None) -> d = [].
Proof.
  destruct d as [|[k v] d]; [reflexivity |].
  intros H. specialize (H k). cbn in H. now rewrite String.eqb_refl in H.
Qed.

Lemma read_all_spec (w : World) (doc : string) (types : list string)
    (acc : dict) :
  parsed_sidecars w (bucket self) doc ->
  Forall (fun ty => exists k, get_sidecar_key doc ty = Ok k) types ->
  exists d,
    read_all env self doc types acc w = (w, Ok d)
    /\ forall ty,
         Py.dict_get ty d
         = match (if existsb (String.eqb ty) types
                  then stored w (bucket self) doc ty else None) with
           | Some v => Some v
           | None => Py.dict_get ty acc
           end.
Proof.
  intros Hp Hall. revert acc.
  induction Hall as [|t rest (k & Hk) _ IH]; intros acc.
  - exists acc. split; [reflexivity |]. intros ty. reflexivity.
  - cbn [read_all].
    assert (Hr : exists v,
               read_sidecar env self doc t w = (w, Ok v)
               /\ stored w (bucket self) doc t
                  = if Py.truthy v then Some v else None).
    { unfold stored. rewrite Hk.
      destruct (s3 w !! (bucket self, k)) as [o|] eqn:Eo.
      - destruct (Hp t k o Hk Eo) as [data Hb]. exists data. rewrite Hb.
        split; [| reflexivity].
        exact (read_sidecar_parsed w doc t k o data Hk Eo Hb).
      - exists JNull. split; [| reflexivity].
        exact (read_sidecar_missing w doc t k Hk Eo). }
    destruct Hr as (v & Hr & Hst). unfold bind at 1. rewrite Hr.
    destruct (IH (if Py.truthy v then Py.dict_set t v acc else acc))
      as (d & Hd & Hget).
    exists d. split; [exact Hd |]. intros ty. rewrite Hget.
    cbn [existsb].
    destruct (String.eqb_spec ty t) as [->|Hne]; cbn [orb].
    + rewrite Hst.
      destruct (existsb (String.eqb t) rest).
      * destruct (Py.truthy v); reflexivity.
      * destruct (Py.truthy v); [apply dict_get_set_eq | reflexivity].
    + destruct (existsb (String.eqb ty) rest);
        [destruct (stored w (bucket self) doc ty); [reflexivity |] |];
        (destruct (Py.truthy v);
         [apply dict_get_set_ne; congruence | reflexivity]).
Qed.

Lemma keys_known (doc : string) :
  Forall (fun ty => exists k, get_sidecar_key doc ty = Ok k) keys.
Proof.
  unfold keys, SIDECAR_TYPES. cbn [map fst].
  repeat (apply List.Forall_cons; [eexists; reflexivity |]).
  apply List.Forall_nil.
Qed.

(** X15. [get_all_sidecars] reports, for a document whose sidecars are
    absent or hold parsed content, exactly the kinds whose sidecar is there
    and not empty, each with its content: an absent sidecar, an empty one
    and a name outside the five kinds are not reported.  It changes
    nothing. *)
Theorem get_all_sidecars_collects (w : World) (doc : string) :
  parsed_sidecars w (bucket self) doc ->
  exists d,
    get_all_sidecars env self doc w = (w, Ok (JDict d))
    /\ forall ty, Py.dict_get ty d = stored w (bucket self) doc ty.
Proof.
  intros Hp.
  destruct (read_all_spec w doc keys [] Hp (keys_known doc)) as (d & Hd & Hget).
  exists d. unfold get_all_sidecars, bind. rewrite Hd.
  split; [reflexivity |]. intros ty. rewrite Hget. cbn [Py.dict_get].
  destruct (existsb (String.eqb ty) keys) eqn:E.
  - now destruct (stored w (bucket self) doc ty).
  - unfold stored, get_sidecar_key.
    destruct (assoc ty SIDECAR_TYPES) as [suffix|] eqn:Ea; [| reflexivity].
    exfalso. revert E Ea. unfold keys, SIDECAR_TYPES.
    cbn [map fst existsb assoc].
    repeat match goal with
           | |- context [String.eqb ?a ty] =>
               rewrite (String.eqb_sym a ty)
           end.
    repeat (destruct (String.eqb ty _); [discriminate |]).
    discriminate.
Qed.

(** X16. [delete_all_sidecars] answers 5 whatever sidecars the document
    had: afterwards none of the five sidecar keys of the document holds an
    object, every other object of the store is as before, and
    [get_all_sidecars] reports nothing for the document. *)
Theorem delete_all_sidecars_clears (w : World) (doc : string) :
  let run := delete_all_sidecars self doc w in
  snd run = Ok 5
  /\ (forall ty k, get_sidecar_key doc ty = Ok k ->
        s3 (fst run) !! (bucket self, k) = None)
  /\ (forall b k,
        (b = bucket self -> forall ty, get_sidecar_key doc ty <> Ok k) ->
        s3 (fst run) !! (b, k) = s3 w !! (b, k))
  /\ get_all_sidecars env self doc (fst run) = (fst run, Ok (JDict [])).
Proof.
  intros run.
  assert (Hrun : snd run = Ok 5
                 /\ s3 (fst run)
                    = delete (bucket self, doc ++ ".audit.json")
                        (delete (bucket self, doc ++ ".insights.json")
                           (delete (bucket self, doc ++ ".processing.json")
                              (delete (bucket self, doc ++ ".extracted.json")
                                 (delete (bucket self, doc ++ ".metadata.json")
                                    (s3 w)))))).
  { split; reflexivity. }
  destruct Hrun as [Hres Hs3].
  assert (Hgone : forall ty k, get_sidecar_key doc ty = Ok k ->
                               s3 (fst run) !! (bucket self, k) = None).
  { intros ty k Hk. rewrite Hs3.
    destruct (get_sidecar_key_cases _ _ _ Hk) as (suffix & Hin & ->).
    unfold SIDECAR_TYPES in Hin. cbn [In] in Hin.
    repeat rewrite lookup_delete_None.
    destruct Hin as [Hin|[Hin|[Hin|[Hin|[Hin|[]]]]]];
      injection Hin as _ <-; auto 10. }
  split; [exact Hres |]. split; [exact Hgone |]. split.
  - intros b k Hother. rewrite Hs3.
    assert (Hne : forall ty suffix,
               get_sidecar_key doc ty = Ok (doc ++ suffix) ->
               (bucket self, doc ++ suffix) <> (b, k)).
    { intros ty suffix Hk [= <- <-]. exact (Hother eq_refl ty Hk). }
    rewrite !lookup_delete_ne;
      first [ reflexivity
            | apply (Hne "audit"); reflexivity
            | apply (Hne "insights"); reflexivity
            | apply (Hne "processing"); reflexivity
            | apply (Hne "extracted"); reflexivity
            | apply (Hne "metadata"); reflexivity ].
  - assert (Hp : parsed_sidecars (fst run) (bucket self) doc).
    { intros ty k o Hk Ho. rewrite (Hgone ty k Hk) in Ho. discriminate Ho. }
    destruct (read_all_spec (fst run) doc keys [] Hp (keys_known doc))
      as (d & Hd & Hget).
    unfold get_all_sidecars, bind. rewrite Hd.
    rewrite (dict_get_nil_all d); [reflexivity |].
    intros ty. rewrite Hget. cbn [Py.dict_get].
    assert (Hst : stored (fst run) (bucket self) doc ty = None).
    { unfold stored.
      destruct (get_sidecar_key doc ty) as [k|e] eqn:E; [| reflexivity].
      now rewrite (Hgone ty k E). }
    rewrite Hst. now destruct (existsb (String.eqb ty) keys).
Qed.

(** X17. Whatever the document, the action, the actor and the extra
    fields, [append_audit_event] leaves an audit sidecar whose [events] are
    the previous ones followed by exactly one new event, stamped with the
    clock reading and carrying the action, the actor and the extra fields;
    no other object of the store is touched. *)
Theorem append_audit_event_extends_trail
    (w : World) (doc action : string) (user_id : json) (kwargs : dict) :
  audit_state w (bucket self) doc ->
  let run := append_audit_event env self doc action user_id kwargs w in
  snd run = Ok tt
  /\ events (audit (fst run) (bucket self) doc)
     = (events (audit w (bucket self) doc)
        ++ [audit_entry (utcnow_at env (clock w)) action user_id kwargs])%list
  /\ audit_state (fst run) (bucket self) doc
  /\ (forall b k, (b, k) <> (bucket self, doc ++ ".audit.json") ->
        s3 (fst run) !! (b, k) = s3 w !! (b, k)).
Proof.
  intros Hst run. subst run. unfold audit_state, audit, sidecar in *.
  unfold append_audit_event, read_sidecar, write_sidecar, append_at,
    put_object, get_object, utcnow_iso, utcnow, try_except, bind,
    lift, ret, raise, modify.
  cbn [get_sidecar_key assoc SIDECAR_TYPES String.eqb Ascii.eqb Bool.eqb].
  fold (audit_entry (utcnow_at env (clock w)) action user_id kwargs).
  destruct (s3 w !! (bucket self, doc ++ ".audit.json")) as [o|] eqn:Eo.
  - destruct (Body o) as [bytes|[| | | | | | |d]] eqn:Eb; try contradiction.
    destruct (Py.dict_get "events" d) as [[| | | | | |evs|]|] eqn:Ee;
      try contradiction.
    assert (Ht : Py.truthy (JDict d) = true)
      by (destruct d; [discriminate Ee | reflexivity]).
    unfold Py.or_else. rewrite Ht. cbn [Py.getitem]. rewrite Ee.
    cbn [fst snd s3 set_s3 tick Body]. rewrite !lookup_insert_eq.
    cbn [Body events]. rewrite !dict_get_set_eq, Ee.
    repeat split; try reflexivity.
    intros b k Hne. now apply lookup_insert_ne.
  - cbn [Py.or_else Py.truthy Py.getitem Py.dict_get String.eqb Ascii.eqb
         Bool.eqb fst snd s3 set_s3 tick Body].
    rewrite !lookup_insert_eq. cbn [Body events Py.dict_get Py.dict_set
      String.eqb Ascii.eqb Bool.eqb].
    repeat split; try reflexivity.
    intros b k Hne. now apply lookup_insert_ne.
Qed.

(** X18. [append_processing_status] records an error exactly when it
    is given error details that are not empty: the [errors] of the
    processing sidecar then grow by one entry, the details together with
    the second clock reading of the call; without details, or with empty
    ones, the [errors] stay as they are. *)
Theorem append_processing_status_records_error
    (w : World) (doc status details : string) (error_info : option dict) :
  processing_state w (bucket self) doc ->
  let run := append_processing_status env self doc status details
               error_info w in
  errors (processing (fst run) (bucket self) doc)
  = (errors (processing w (bucket self) doc)
     ++ match error_info with
        | Some ((_ :: _) as extra) =>
            [ JDict (Py.dict_update
                       [ ("timestamp",
                          JTime (utcnow_at env (S (clock w)))) ] extra) ]
        | _ => []
        end)%list.
Proof.
  intros Hst run. subst run. unfold processing_state, processing, sidecar in *.
  unfold append_processing_status, read_sidecar, write_sidecar, append_at,
    setitem, put_object, get_object, utcnow_iso, utcnow, try_except, bind,
    lift, ret, raise, modify.
  cbn [get_sidecar_key assoc SIDECAR_TYPES String.eqb Ascii.eqb Bool.eqb].
  destruct (s3 w !! (bucket self, doc ++ ".processing.json")) as [o|] eqn:Eo.
  - destruct (Body o) as [bytes|data] eqn:Eb; [contradiction |].
    destruct data as [| | | | | | |d]; try discriminate Hst.
    simpl in Hst.
    destruct (Py.dict_get "statusChain" d) as [[| | | | | |chain|]|] eqn:Ec;
      try discriminate Hst.
    destruct (Py.dict_get "currentStatus" d) as [[| | | |cs| | |]|] eqn:Es;
      try discriminate Hst.
    destruct (Py.dict_get "errors" d) as [[| | | | | |errs|]|] eqn:Ee;
      try discriminate Hst.
    assert (Ht : Py.truthy (JDict d) = true)
      by (destruct d; [discriminate Ec | reflexivity]).
    unfold Py.or_else. rewrite Ht. cbn [Py.getitem]. rewrite Ec.
    destruct error_info as [[|kv extra]|]; cbn [fst snd Py.getitem];
      rewrite ?dict_get_set_ne by discriminate; rewrite ?Ee;
      cbn [fst snd s3 set_s3 tick clock Body]; rewrite !lookup_insert_eq;
      cbn [Body errors];
      repeat first [ rewrite dict_get_set_eq
                   | rewrite dict_get_set_ne by discriminate ];
      rewrite ?Ee, ?app_nil_r; reflexivity.
  - cbn [Py.or_else Py.truthy Py.getitem Py.dict_get String.eqb Ascii.eqb
         Bool.eqb].
    destruct error_info as [[|kv extra]|];
      cbn [fst snd s3 set_s3 tick clock Body Py.getitem Py.dict_get
           Py.dict_set String.eqb Ascii.eqb Bool.eqb];
      rewrite !lookup_insert_eq; reflexivity.
Qed.

(** What [append_processing_status] does on a stored sidecar that has no
    [statusChain]: it raises on the lookup and writes nothing. *)
Lemma append_processing_status_malformed
    (w : World) (doc status details : string) (error_info : option dict)
    (o : s3object) (d : dict) :
  s3 w !! (bucket self, doc ++ ".processing.json") = Some o ->
  Body o = Json (JDict d) ->
  d <> [] ->
  Py.dict_get "statusChain" d = None ->
  append_processing_status env self doc status details error_info w
  = (w, Raise (KeyError "statusChain")).
Proof.
  intros Ho Hb Hd Hc.
  unfold append_processing_status, read_sidecar, append_at, get_object,
    try_except, bind, lift, ret.
  cbn [get_sidecar_key assoc SIDECAR_TYPES String.eqb Ascii.eqb Bool.eqb].
  rewrite Ho, Hb.
  assert (Ht : Py.truthy (JDict d) = true) by (now destruct d).
  unfold Py.or_else. rewrite Ht. cbn [Py.getitem]. now rewrite Hc.
Qed.

End SidecarStoreMore.

(** ** The ingestion trigger, beyond the skipped and the failing record *)

Section IngestionTriggerMore.

Import Observe.
Variable env : Env.

Lemma bind_returns {A B : Type} (m : M A) (f : A -> M B) (w : World) :
  returns m -> exists a, bind m f w = f a (fst (m w)).
Proof.
  intros Hr. destruct (Hr w) as [a Ha]. exists a. unfold bind.
  destruct (m w) as [w' r]. cbn [fst snd] in *. now subst r.
Qed.

Lemma returns_ret {A : Type} (a : A) : returns (ret a).
Proof. intros w. now exists a. Qed.

Lemma returns_add_user_id_metadata (bucket : json) (key : string)
    (user_id : json) :
  returns (Ingest.add_user_id_metadata_to_s3 env bucket key user_id).
Proof. apply returns_try_except. Qed.

Lemma returns_tag (bucket : json) (key : string) (user_id : json) :
  returns (if Py.truthy user_id
           then Ingest.add_user_id_metadata_to_s3 env bucket key user_id;;;
                ret tt
           else ret tt).
Proof.
  destruct (Py.truthy user_id); [| apply returns_ret].
  intros w.
  destruct (bind_returns
              (Ingest.add_user_id_metadata_to_s3 env bucket key user_id)
              (fun _ => ret tt) w (returns_add_user_id_metadata _ _ _))
    as [a ->].
  now exists tt.
Qed.

Lemma returns_update_document_status (user_id : json) (key status : string)
    (job_id : json) :
  returns (Ingest.update_document_status env user_id key status job_id).
Proof.
  unfold Ingest.update_document_status.
  destruct (DOCUMENT_METADATA_TABLE env); [| apply returns_ret].
  destruct (negb _); [apply returns_ret | apply returns_try_except].
Qed.

Lemma returns_update_sidecar_status (key status details : string)
    (user_id : json) :
  returns (Ingest.update_sidecar_status env key status details user_id).
Proof. apply returns_try_except. Qed.

Lemma returns_invoke_document_analysis (bucket : json) (key : string)
    (job_id : json) :
  returns (Ingest.invoke_document_analysis env bucket key job_id).
Proof.
  unfold Ingest.invoke_document_analysis.
  destruct (String.eqb _ _); [apply returns_ret | apply returns_try_except].
Qed.

Section Parts.

Context {X : Type} (part : World -> X).

Lemma frame_tag (bucket : json) (key : string) (user_id : json) :
  (forall f w, part (set_s3 f w) = part w) ->
  (forall w, part (tick w) = part w) ->
  preserves part
    (if Py.truthy user_id
     then Ingest.add_user_id_metadata_to_s3 env bucket key user_id;;; ret tt
     else ret tt).
Proof.
  intros Hs Ht. unfold Ingest.add_user_id_metadata_to_s3.
  repeat first [ apply (frame_utcnow_iso env part Ht)
               | apply (frame_put_object part Hs)
               | apply frame_get_object | frame_step ].
Qed.

Lemma frame_update_item (u d : json) (sets : list (string * json))
    (removes : list string) :
  (forall f w, part (set_metadata_table f w) = part w) ->
  preserves part (update_item u d sets removes).
Proof.
  intros Hm. unfold update_item.
  destruct (existsb _ sets); [frame |].
  destruct (table_key u d) as [[u' d']|]; [| frame].
  intros w. apply Hm.
Qed.

Lemma frame_update_document_status (user_id : json) (key status : string)
    (job_id : json) :
  (forall f w, part (set_metadata_table f w) = part w) ->
  (forall w, part (tick w) = part w) ->
  preserves part
    (Ingest.update_document_status env user_id key status job_id).
Proof.
  intros Hm Ht. unfold Ingest.update_document_status.
  repeat first [ apply (frame_utcnow_iso env part Ht)
               | apply (frame_update_item _ _ _ _ Hm) | frame_step ].
Qed.

Lemma frame_update_sidecar_status (key status details : string)
    (user_id : json) :
  (forall f w, part (set_s3 f w) = part w) ->
  (forall w, part (tick w) = part w) ->
  preserves part
    (Ingest.update_sidecar_status env key status details user_id).
Proof.
  intros Hs Ht. unfold Ingest.update_sidecar_status.
  repeat first
    [ apply (frame_append_processing_status env _ part Hs Ht)
    | apply (frame_append_audit_event env _ part Hs Ht) | frame_step ].
Qed.

Lemma frame_invoke_document_analysis (bucket : json) (key : string)
    (job_id : json) :
  (forall f w, part (set_invocations f w) = part w) ->
  preserves part (Ingest.invoke_document_analysis env bucket key job_id).
Proof.
  intros Hi. unfold Ingest.invoke_document_analysis.
  repeat first [ apply preserves_modify; exact (Hi _) | frame_step ].
Qed.

End Parts.

(** X19. The helpers of the trigger are best effort: tagging the
    object with its owner, updating the document record, updating the
    sidecars and invoking the extraction worker never raise, whatever the
    state of the store and of the table.  In particular a stored
    processing sidecar that lacks its [statusChain] makes the sidecar
    update a silent no-op: nothing is written and nothing is raised. *)
Theorem trigger_helpers_are_best_effort
    (bucket user_id job_id : json) (key status details : string) :
  returns (Ingest.add_user_id_metadata_to_s3 env bucket key user_id)
  /\ returns (Ingest.update_document_status env user_id key status job_id)
  /\ returns (Ingest.update_sidecar_status env key status details user_id)
  /\ returns (Ingest.invoke_document_analysis env bucket key job_id)
  /\ (forall (w : World) (o : s3object) (d : dict),
        s3 w !! (BUCKET_NAME env, key ++ ".processing.json") = Some o ->
        Body o = Json (JDict d) ->
        d <> [] ->
        Py.dict_get "statusChain" d = None ->
        Ingest.update_sidecar_status env key status details user_id w
        = (w, Ok tt)).
Proof.
  split; [apply returns_add_user_id_metadata |].
  split; [apply returns_update_document_status |].
  split; [apply returns_update_sidecar_status |].
  split; [apply returns_invoke_document_analysis |].
  intros w o d Ho Hb Hd Hc.
  unfold Ingest.update_sidecar_status, try_except. unfold bind at 1.
  now rewrite (append_processing_status_malformed env
                 (Ingest.sidecar_manager env) w key status details None o d
                 Ho Hb Hd Hc).
Qed.

(** X20. A creation notification of an object that is not a sidecar
    makes exactly one start call to the ingestion service, whether the
    record then succeeds or raises; the call carries the knowledge base,
    the data source and, as its client token, the request id of the
    invocation, the same for every record of a batch. *)
Theorem trigger_record_makes_one_start_call
    (record bucket : json) (key aws_request_id : string) (w : World) :
  creation_notification record bucket key ->
  SidecarManager.is_sidecar_file key = false ->
  ingestion_calls (fst (Ingest.process_s3_record env record aws_request_id w))
  = (ingestion_calls w
     ++ [ [ ("knowledgeBaseId", KNOWLEDGE_BASE_ID env);
            ("dataSourceId", DATA_SOURCE_ID env);
            ("clientToken", JStr aws_request_id) ] ])%list.
Proof.
  intros (event_name & s3_info & bucket_info & object_info
          & He & Hc & Hs & Hb & Hn & Ho & Hk) Hside.
  unfold Ingest.process_s3_record.
  unfold bind at 1. unfold lift at 1. rewrite He, Hc. cbn [negb].
  unfold bind at 1. unfold lift at 1. rewrite Hs.
  unfold bind at 1. unfold lift at 1. rewrite Hb.
  unfold bind at 1. unfold lift at 1. rewrite Hn.
  unfold bind at 1. unfold lift at 1. rewrite Ho.
  unfold bind at 1. unfold lift at 1. rewrite Hk, Hside.
  set (user_id := Ingest.extract_user_id_from_s3_key key).
  match goal with
  | |- context [bind ?m ?f w] =>
      destruct (bind_returns m f w (returns_tag bucket key user_id))
        as [a1 ->];
      pose proof (frame_tag ingestion_calls bucket key user_id
                    ltac:(reflexivity) ltac:(reflexivity) w) as H1;
      set (w1 := fst (m w)) in *
  end.
  match goal with
  | |- context [bind ?m ?f w1] =>
      destruct (bind_returns m f w1
                  (returns_update_document_status _ _ _ _)) as [a2 ->];
      pose proof (frame_update_document_status ingestion_calls
                    user_id key "upload_complete" JNull
                    ltac:(reflexivity) ltac:(reflexivity) w1) as H2;
      set (w2 := fst (m w1)) in *
  end.
  match goal with
  | |- context [bind ?m ?f w2] =>
      destruct (bind_returns m f w2
                  (returns_update_sidecar_status _ _ _ _)) as [a3 ->];
      pose proof (frame_update_sidecar_status ingestion_calls key
                    "ingestion_started" "Starting Knowledge Base ingestion"
                    user_id ltac:(reflexivity) ltac:(reflexivity) w2) as H3;
      set (w3 := fst (m w2)) in *
  end.
  unfold bind at 1. unfold Ingest.bedrock_start_ingestion_job.
  rewrite <- H1, <- H2, <- H3.
  destruct (start_ingestion_job env _ _) as [resp|e]; [| reflexivity].
  match goal with
  | |- ingestion_calls (fst (?m ?w4)) = _ =>
      assert (Hrest : preserves ingestion_calls m); [| exact (Hrest w4)]
  end.
  repeat first
    [ apply frame_update_sidecar_status; reflexivity
    | apply frame_update_document_status; reflexivity
    | apply frame_invoke_document_analysis; reflexivity
    | frame_step ].
Qed.

(** X21. A batch in which every record is either not a creation
    event or the creation of a sidecar object is answered with the success
    message and no job, and leaves the world as it is. *)
Theorem trigger_skips_what_is_not_a_document
    (records : list json) (aws_request_id : string) (w : World) :
  Forall (fun record =>
            (exists event_name,
                Py.get record "eventName" (JStr EmptyString)
                = Ok (JStr event_name)
                /\ PyStr.startswith event_name "ObjectCreated" = false)
            \/ (exists bucket key,
                   creation_notification record bucket key
                   /\ SidecarManager.is_sidecar_file key = true)) records ->
  Ingest.lambda_handler env (batch records) aws_request_id w
  = (w, JDict [ ("status", JStr "success");
                ("message", JStr "Ingestion processing complete") ]).
Proof.
  intros Hall.
  assert (H : Ingest.process_records env records aws_request_id [] w
              = (w, Ok [])).
  { induction Hall as [|record rest Hrec _ IH]; [reflexivity |].
    cbn [Ingest.process_records]. unfold bind.
    assert (Hskip : Ingest.process_s3_record env record aws_request_id w
                    = (w, Ok JNull)).
    { destruct Hrec as [(event_name & He & Hc)|(bucket & key & Hn & Hs)].
      - unfold Ingest.process_s3_record, bind, lift. now rewrite He, Hc.
      - exact (sidecar_key_skipped env record bucket key aws_request_id w
                 Hn Hs). }
    rewrite Hskip. exact IH. }
  unfold Ingest.lambda_handler, batch, bind, lift.
  cbn [Py.get Py.dict_get String.eqb Ascii.eqb Bool.eqb Py.iter].
  now rewrite H.
Qed.

(** X22. Tagging an object with its owner keeps the content of the
    object and its content type (a missing one becomes
    [application/pdf]) and replaces its metadata by exactly the owner and
    the time of the tagging, touching no other object; when the object is
    not there the tagging answers [False] and changes nothing. *)
Theorem owner_tag_replaces_metadata
    (w : World) (b key : string) (user_id : json) :
  let run := Ingest.add_user_id_metadata_to_s3 env (JStr b) key user_id w in
  (forall o, s3 w !! (b, key) = Some o ->
     snd run = Ok true
     /\ s3 (fst run)
        = <[(b, key)
            := {| Body := Body o;
                  ContentType := Some match ContentType o with
                                      | Some c => c
                                      | None => "application/pdf"
                                      end;
                  Metadata := [ ("userId", user_id);
                                ("ingestionTimestamp",
                                 JTime (utcnow_at env (clock w))) ] |}]>
            (s3 w))
  /\ (s3 w !! (b, key) = None -> run = (w, Ok false)).
Proof.
  intros run. subst run.
  unfold Ingest.add_user_id_metadata_to_s3, try_except, bind, get_object.
  split.
  - intros o Ho. rewrite Ho. split; reflexivity.
  - intros Ho. now rewrite Ho.
Qed.

(** What a status update of the document record leaves in the table. *)
Lemma update_document_status_run
    (user_id : json) (key status : string) (job_id : json)
    (k : string * string) (w : World) :
  DOCUMENT_METADATA_TABLE env <> None ->
  table_key user_id (JStr (Ingest.extract_document_id_from_s3_key key))
  = Some k ->
  Py.has_float job_id = false ->
  exists it : item,
    metadata_table
      (fst (Ingest.update_document_status env user_id key status job_id w))
    !! k = Some it
    /\ StatusChecker.attr it "currentStatus" = JStr status
    /\ (Py.truthy job_id = true ->
        StatusChecker.attr it "ingestionJobId" = job_id).
Proof.
  intros Htab Hkey Hfl. unfold Ingest.update_document_status.
  destruct (DOCUMENT_METADATA_TABLE env) as [t|]; [| congruence].
  assert (Hu : Py.truthy user_id = true).
  { destruct user_id as [| | | |u| | |]; try discriminate Hkey.
    cbn in Hkey |- *. destruct (String.eqb u ""); [discriminate | reflexivity]. }
  rewrite Hu. cbn [negb].
  unfold try_except, bind, utcnow_iso, utcnow, bind, ret, update_item.
  destruct k as [u d].
  destruct (Py.truthy job_id) eqn:Ej;
    cbn [app existsb snd Py.has_float orb]; rewrite ?Hfl; cbn [orb];
    rewrite Hkey; cbn [modify fst snd metadata_table set_metadata_table tick];
    rewrite lookup_insert_eq; eexists; (split; [reflexivity |]);
    unfold StatusChecker.attr; cbn [fold_left fst snd].
  - rewrite lookup_insert_ne, lookup_insert_ne, lookup_insert_eq
      by discriminate.
    rewrite lookup_insert_eq. auto.
  - rewrite lookup_insert_ne, lookup_insert_eq by discriminate.
    split; [reflexivity | discriminate].
Qed.

(** X23. A creation notification of a document for which the ingestion
    service starts a job is processed to the end: the record yields the
    job details, the extraction worker, when one is configured, is invoked
    exactly once with the bucket, the key and the job id, and the document
    record of the owner, when the key names one, ends in
    [ingestion_in_progress] with the job id. *)
Theorem trigger_record_success
    (record bucket : json) (key aws_request_id : string) (w : World)
    (aws_api_response ingestion_job_details ingestion_job_id : json) :
  creation_notification record bucket key ->
  SidecarManager.is_sidecar_file key = false ->
  start_ingestion_job env (length (ingestion_calls w))
    [ ("knowledgeBaseId", KNOWLEDGE_BASE_ID env);
      ("dataSourceId", DATA_SOURCE_ID env);
      ("clientToken", JStr aws_request_id) ] = Ok aws_api_response ->
  Py.get aws_api_response "ingestionJob" JNull = Ok ingestion_job_details ->
  Py.get ingestion_job_details "ingestionJobId" JNull = Ok ingestion_job_id ->
  let run := Ingest.process_s3_record env record aws_request_id w in
  snd run = Ok ingestion_job_details
  /\ invocations (fst run)
     = (invocations w
        ++ if String.eqb (DOCUMENT_ANALYSIS_LAMBDA env) EmptyString then []
           else [ (DOCUMENT_ANALYSIS_LAMBDA env,
                   [ ("s3Bucket", bucket); ("s3Key", JStr key);
                     ("ingestionJobId", ingestion_job_id) ]) ])%list
  /\ (forall k : string * string,
        DOCUMENT_METADATA_TABLE env <> None ->
        table_key (Ingest.extract_user_id_from_s3_key key)
          (JStr (Ingest.extract_document_id_from_s3_key key)) = Some k ->
        Py.has_float ingestion_job_id = false ->
        exists it : item,
          metadata_table (fst run) !! k = Some it
          /\ StatusChecker.attr it "currentStatus"
             = JStr "ingestion_in_progress"
          /\ (Py.truthy ingestion_job_id = true ->
              StatusChecker.attr it "ingestionJobId" = ingestion_job_id)).
Proof.
  intros (event_name & s3_info & bucket_info & object_info
          & He & Hc & Hs & Hb & Hn & Ho & Hk) Hside Hstart Hdet Hjob run.
  assert (Hrun : exists w',
             run = (w', Ok ingestion_job_details)
             /\ invocations w'
                = (invocations w
                   ++ if String.eqb (DOCUMENT_ANALYSIS_LAMBDA env) EmptyString
                      then []
                      else [ (DOCUMENT_ANALYSIS_LAMBDA env,
                              [ ("s3Bucket", bucket); ("s3Key", JStr key);
                                ("ingestionJobId", ingestion_job_id) ]) ])%list
             /\ (forall k : string * string,
                   DOCUMENT_METADATA_TABLE env <> None ->
                   table_key (Ingest.extract_user_id_from_s3_key key)
                     (JStr (Ingest.extract_document_id_from_s3_key key))
                   = Some k ->
                   Py.has_float ingestion_job_id = false ->
                   exists it : item,
                     metadata_table w' !! k = Some it
                     /\ StatusChecker.attr it "currentStatus"
                        = JStr "ingestion_in_progress"
                     /\ (Py.truthy ingestion_job_id = true ->
                         StatusChecker.attr it "ingestionJobId"
                         = ingestion_job_id)));
    [| destruct Hrun as (w' & -> & Hi & Ht); cbn [fst snd]; auto ].
  subst run. unfold Ingest.process_s3_record.
  unfold bind at 1. unfold lift at 1. rewrite He, Hc. cbn [negb].
  unfold bind at 1. unfold lift at 1. rewrite Hs.
  unfold bind at 1. unfold lift at 1. rewrite Hb.
  unfold bind at 1. unfold lift at 1. rewrite Hn.
  unfold bind at 1. unfold lift at 1. rewrite Ho.
  unfold bind at 1. unfold lift at 1. rewrite Hk, Hside.
  set (user_id := Ingest.extract_user_id_from_s3_key key).
  match goal with
  | |- context [bind ?m ?f w] =>
      destruct (bind_returns m f w (returns_tag bucket key user_id))
        as [a1 ->];
      pose proof (frame_tag ingestion_calls bucket key user_id
                    ltac:(reflexivity) ltac:(reflexivity) w) as H1;
      pose proof (frame_tag invocations bucket key user_id
                    ltac:(reflexivity) ltac:(reflexivity) w) as I1;
      set (w1 := fst (m w)) in *
  end.
  match goal with
  | |- context [bind ?m ?f w1] =>
      destruct (bind_returns m f w1
                  (returns_update_document_status _ _ _ _)) as [a2 ->];
      pose proof (frame_update_document_status ingestion_calls
                    user_id key "upload_complete" JNull
                    ltac:(reflexivity) ltac:(reflexivity) w1) as H2;
      pose proof (frame_update_document_status invocations
                    user_id key "upload_complete" JNull
                    ltac:(reflexivity) ltac:(reflexivity) w1) as I2;
      set (w2 := fst (m w1)) in *
  end.
  match goal with
  | |- context [bind ?m ?f w2] =>
      destruct (bind_returns m f w2
                  (returns_update_sidecar_status _ _ _ _)) as [a3 ->];
      pose proof (frame_update_sidecar_status ingestion_calls key
                    "ingestion_started" "Starting Knowledge Base ingestion"
                    user_id ltac:(reflexivity) ltac:(reflexivity) w2) as H3;
      pose proof (frame_update_sidecar_status invocations key
                    "ingestion_started" "Starting Knowledge Base ingestion"
                    user_id ltac:(reflexivity) ltac:(reflexivity) w2) as I3;
      set (w3 := fst (m w2)) in *
  end.
  unfold bind at 1. unfold Ingest.bedrock_start_ingestion_job.
  rewrite H3, H2, H1, Hstart.
  unfold bind at 1. unfold lift at 1. rewrite Hdet.
  unfold bind at 1. unfold lift at 1. rewrite Hjob.
  match goal with
  | |- context [bind ?m ?f ?w4] =>
      destruct (bind_returns m f w4
                  (returns_update_sidecar_status _ _ _ _)) as [a5 ->];
      pose proof (frame_update_sidecar_status invocations key
                    "ingestion_in_progress"
                    ("Ingestion job " ++ str env ingestion_job_id
                     ++ " in progress")
                    JNull ltac:(reflexivity) ltac:(reflexivity) w4) as I5;
      set (w5 := fst (m w4)) in *
  end.
  match goal with
  | |- context [bind ?m ?f w5] =>
      destruct (bind_returns m f w5
                  (returns_update_document_status _ _ _ _)) as [a6 ->];
      pose proof (frame_update_document_status invocations
                    user_id key "ingestion_in_progress" ingestion_job_id
                    ltac:(reflexivity) ltac:(reflexivity) w5) as I6;
      set (w6 := fst (m w5)) in *
  end.
  match goal with
  | |- context [bind ?m ?f w6] =>
      destruct (bind_returns m f w6
                  (returns_invoke_document_analysis _ _ _)) as [a7 ->];
      pose proof (frame_invoke_document_analysis metadata_table
                    bucket key ingestion_job_id ltac:(reflexivity) w6) as T7
  end.
  eexists. split; [reflexivity |]. split.
  - unfold Ingest.invoke_document_analysis.
    destruct (String.eqb (DOCUMENT_ANALYSIS_LAMBDA env) "").
    + cbn [ret fst]. rewrite app_nil_r.
      rewrite I6, I5. cbn [invocations set_ingestion_calls].
      now rewrite I3, I2, I1.
    + cbn [try_except modify fst invocations set_invocations].
      rewrite I6, I5. cbn [invocations set_ingestion_calls].
      now rewrite I3, I2, I1.
  - intros k Htab Hkey Hfl. rewrite T7.
    exact (update_document_status_run user_id key "ingestion_in_progress"
             ingestion_job_id k w5 Htab Hkey Hfl).
Qed.

(** *** The status chain along a record *)

Lemma preserves_of_pure {A X : Type} (part : World -> X) (m : M A) :
  preserves (fun w => w) m -> preserves part m.
Proof. intros H w. now rewrite H. Qed.

Lemma put_object_other (b k : string) (o : s3object) (k0 : string * string) :
  k0 <> (b, k) -> preserves (fun w => s3 w !! k0) (put_object b k o).
Proof. intros Hne w. cbn. now apply lookup_insert_ne. Qed.

Lemma utcnow_iso_s3 (k0 : string * string) :
  preserves (fun w => s3 w !! k0) (utcnow_iso env).
Proof. now intros w. Qed.

Lemma write_sidecar_other (self : SidecarManager.t) (doc ty : string)
    (data : json) (k0 : string * string) :
  (forall k, SidecarManager.get_sidecar_key doc ty = Ok k ->
             k0 <> (SidecarManager.bucket self, k)) ->
  preserves (fun w => s3 w !! k0)
    (SidecarManager.write_sidecar env self doc ty data).
Proof.
  intros H w. unfold SidecarManager.write_sidecar, bind, lift.
  destruct (SidecarManager.get_sidecar_key doc ty) as [k|e];
    [| reflexivity].
  cbn. apply lookup_insert_ne. apply not_eq_sym, H. reflexivity.
Qed.

Lemma append_audit_event_other (self : SidecarManager.t)
    (doc action : string) (user_id : json) (kwargs : dict)
    (k0 : string * string) :
  k0 <> (SidecarManager.bucket self, doc ++ ".audit.json") ->
  preserves (fun w => s3 w !! k0)
    (SidecarManager.append_audit_event env self doc action user_id kwargs).
Proof.
  intros Hne. unfold SidecarManager.append_audit_event,
    SidecarManager.append_at.
  repeat first
    [ apply preserves_of_pure, read_sidecar_pure
    | apply utcnow_iso_s3
    | apply write_sidecar_other; intros k [= <-]; exact Hne
    | frame_step ].
Qed.

Lemma tag_other (bucket : json) (key : string) (user_id : json)
    (k0 : string * string) :
  (forall b, k0 <> (b, key)) ->
  preserves (fun w => s3 w !! k0)
    (if Py.truthy user_id
     then Ingest.add_user_id_metadata_to_s3 env bucket key user_id;;; ret tt
     else ret tt).
Proof.
  intros Hne. unfold Ingest.add_user_id_metadata_to_s3.
  repeat first
    [ apply utcnow_iso_s3
    | apply put_object_other, Hne
    | apply frame_get_object
    | frame_step ].
Qed.

Lemma processing_same (w w' : World) (b key : string) :
  s3 w' !! (b, key ++ ".processing.json")
  = s3 w !! (b, key ++ ".processing.json") ->
  processing w' b key = processing w b key
  /\ (processing_state w b key -> processing_state w' b key).
Proof.
  intros H. unfold processing, sidecar, processing_state. now rewrite H.
Qed.

(** A sidecar update of the trigger on a document whose processing
    sidecar is absent or well formed adds its entry to the chain, whether
    or not the audit event that follows can be recorded. *)
Lemma update_sidecar_status_chain
    (w : World) (key status details : string) (user_id : json) :
  processing_state w (BUCKET_NAME env) key ->
  let w' := fst (Ingest.update_sidecar_status env key status details
                   user_id w) in
  statusChain (processing w' (BUCKET_NAME env) key)
  = (statusChain (processing w (BUCKET_NAME env) key)
     ++ [chain_entry status (utcnow_at env (clock w)) details])%list
  /\ currentStatus (processing w' (BUCKET_NAME env) key) = Some (JStr status)
  /\ processing_state w' (BUCKET_NAME env) key.
Proof.
  intros Hst w'.
  destruct (append_processing_status_run env (Ingest.sidecar_manager env)
              w key status details None Hst)
    as (data & n & created & Hrun & Hwf & Hch & Hcs).
  cbn [SidecarManager.bucket Ingest.sidecar_manager] in *.
  set (pk := (BUCKET_NAME env, key ++ ".processing.json")) in *.
  set (w1 := set_s3 _ _) in Hrun.
  assert (H1 : s3 w1 !! pk = Some (sidecar_object "processing" key data created)).
  { subst w1. cbn [s3 set_s3]. apply lookup_insert_eq. }
  assert (Hw' : s3 w' !! pk = s3 w1 !! pk).
  { subst w'. unfold Ingest.update_sidecar_status, try_except.
    unfold bind at 1. rewrite Hrun.
    match goal with
    | |- context [(if ?c then ?m else ?m') w1] =>
        assert (Hm : preserves (fun w => s3 w !! pk) (if c then m else m'))
    end.
    { destruct (Py.truthy user_id); [| apply preserves_ret].
      apply append_audit_event_other. subst pk. cbn [SidecarManager.bucket].
      apply sidecar_keys_differ. discriminate. }
    specialize (Hm w1). cbn beta in Hm.
    match goal with
    | |- context [(if ?c then ?m else ?m') w1] =>
        destruct ((if c then m else m') w1) as [w2 [[]|e]]
    end; exact Hm. }
  rewrite H1 in Hw'.
  assert (Hp : processing w' (BUCKET_NAME env) key = Some data).
  { unfold processing, sidecar. fold pk. now rewrite Hw'. }
  rewrite Hp, Hch, Hcs. split; [reflexivity |]. split; [reflexivity |].
  unfold processing_state. fold pk. now rewrite Hw'.
Qed.

(** X24. Along a record of a document whose processing sidecar is
    absent or well formed, the trigger extends the status chain by
    [ingestion_started] before the start call, and by
    [ingestion_in_progress], with the job id in its details, after it:
    when the service starts a job the chain ends in these two entries and
    the current status is [ingestion_in_progress]; when the start call
    raises, the chain ends in [ingestion_started] and stays there. *)
Theorem trigger_record_extends_chain
    (record bucket : json) (key aws_request_id : string) (w : World) :
  creation_notification record bucket key ->
  SidecarManager.is_sidecar_file key = false ->
  processing_state w (BUCKET_NAME env) key ->
  let run := Ingest.process_s3_record env record aws_request_id w in
  let start := start_ingestion_job env (length (ingestion_calls w))
                 [ ("knowledgeBaseId", KNOWLEDGE_BASE_ID env);
                   ("dataSourceId", DATA_SOURCE_ID env);
                   ("clientToken", JStr aws_request_id) ] in
  let before := statusChain (processing w (BUCKET_NAME env) key) in
  let after := processing (fst run) (BUCKET_NAME env) key in
  (forall aws_api_response ingestion_job_details ingestion_job_id,
      start = Ok aws_api_response ->
      Py.get aws_api_response "ingestionJob" JNull
      = Ok ingestion_job_details ->
      Py.get ingestion_job_details "ingestionJobId" JNull
      = Ok ingestion_job_id ->
      exists t1 t2,
        statusChain after
        = (before
           ++ [ chain_entry "ingestion_started" t1
                  "Starting Knowledge Base ingestion";
                chain_entry "ingestion_in_progress" t2
                  ("Ingestion job " ++ str env ingestion_job_id
                   ++ " in progress") ])%list
        /\ currentStatus after = Some (JStr "ingestion_in_progress"))
  /\ (forall e,
        start = Raise e ->
        exists t1,
          statusChain after
          = (before
             ++ [ chain_entry "ingestion_started" t1
                    "Starting Knowledge Base ingestion" ])%list
          /\ currentStatus after = Some (JStr "ingestion_started")).
Proof.
  intros (event_name & s3_info & bucket_info & object_info
          & He & Hc & Hs & Hb & Hn & Ho & Hk) Hside Hst run start before after.
  set (pk := (BUCKET_NAME env, key ++ ".processing.json")).
  set (user_id := Ingest.extract_user_id_from_s3_key key).
  set (w1 := fst ((if Py.truthy user_id
                   then Ingest.add_user_id_metadata_to_s3 env bucket key
                          user_id;;; ret tt
                   else ret tt) w)).
  set (w2 := fst (Ingest.update_document_status env user_id key
                    "upload_complete" JNull w1)).
  set (w3 := fst (Ingest.update_sidecar_status env key "ingestion_started"
                    "Starting Knowledge Base ingestion" user_id w2)).
  assert (H1 : s3 w1 !! pk = s3 w !! pk).
  { apply (tag_other bucket key user_id pk).
    intros b. apply not_eq_sym, key_ne_sidecar_key. discriminate. }
  assert (H2 : s3 w2 !! pk = s3 w1 !! pk).
  { apply (frame_update_document_status (fun w => s3 w !! pk));
      reflexivity. }
  assert (C1 : ingestion_calls w1 = ingestion_calls w).
  { apply (frame_tag ingestion_calls); reflexivity. }
  assert (C2 : ingestion_calls w2 = ingestion_calls w1).
  { apply (frame_update_document_status ingestion_calls); reflexivity. }
  assert (C3 : ingestion_calls w3 = ingestion_calls w2).
  { apply (frame_update_sidecar_status ingestion_calls); reflexivity. }
  assert (Hst2 : processing_state w2 (BUCKET_NAME env) key
                 /\ processing w2 (BUCKET_NAME env) key
                    = processing w (BUCKET_NAME env) key).
  { destruct (processing_same w w2 (BUCKET_NAME env) key) as [Hp Hs2].
    - fold pk. now rewrite H2, H1.
    - auto. }
  destruct Hst2 as [Hst2 Hp2].
  destruct (update_sidecar_status_chain w2 key "ingestion_started"
              "Starting Knowledge Base ingestion" user_id Hst2)
    as (Hch3 & Hcs3 & Hst3).
  fold w3 in Hch3, Hcs3, Hst3. rewrite Hp2 in Hch3. fold before in Hch3.
  assert (Hrun : run
                 = bind (Ingest.bedrock_start_ingestion_job env
                           [ ("knowledgeBaseId", KNOWLEDGE_BASE_ID env);
                             ("dataSourceId", DATA_SOURCE_ID env);
                             ("clientToken", JStr aws_request_id) ])
                     (fun aws_api_response =>
                        ingestion_job_details <-
                          lift (Py.get aws_api_response "ingestionJob" JNull);;
                        ingestion_job_id <-
                          lift (Py.get ingestion_job_details "ingestionJobId"
                                  JNull);;
                        Ingest.update_sidecar_status env key
                          "ingestion_in_progress"
                          ("Ingestion job " ++ str env ingestion_job_id
                           ++ " in progress") JNull;;;
                        Ingest.update_document_status env user_id key
                          "ingestion_in_progress" ingestion_job_id;;;
                        Ingest.invoke_document_analysis env bucket key
                          ingestion_job_id;;;
                        ret ingestion_job_details) w3).
  { subst run. unfold Ingest.process_s3_record.
    unfold bind at 1. unfold lift at 1. rewrite He, Hc. cbn [negb].
    unfold bind at 1. unfold lift at 1. rewrite Hs.
    unfold bind at 1. unfold lift at 1. rewrite Hb.
    unfold bind at 1. unfold lift at 1. rewrite Hn.
    unfold bind at 1. unfold lift at 1. rewrite Ho.
    unfold bind at 1. unfold lift at 1. rewrite Hk, Hside.
    fold user_id.
    match goal with
    | |- bind ?m ?f w = _ =>
        destruct (bind_returns m f w (returns_tag bucket key user_id))
          as [a1 ->]
    end.
    fold w1.
    match goal with
    | |- bind ?m ?f w1 = _ =>
        destruct (bind_returns m f w1
                    (returns_update_document_status _ _ _ _)) as [a2 ->]
    end.
    fold w2.
    match goal with
    | |- bind ?m ?f w2 = _ =>
        destruct (bind_returns m f w2
                    (returns_update_sidecar_status _ _ _ _)) as [a3 ->]
    end.
    reflexivity. }
  assert (Hstart : start_ingestion_job env (length (ingestion_calls w3))
                     [ ("knowledgeBaseId", KNOWLEDGE_BASE_ID env);
                       ("dataSourceId", DATA_SOURCE_ID env);
                       ("clientToken", JStr aws_request_id) ] = start).
  { subst start. now rewrite C3, C2, C1. }
  set (w4 := set_ingestion_calls
               (fun l => (l ++ [ [ ("knowledgeBaseId", KNOWLEDGE_BASE_ID env);
                                   ("dataSourceId", DATA_SOURCE_ID env);
                                   ("clientToken", JStr aws_request_id) ] ])%list)
               w3).
  assert (Hp4 : processing w4 (BUCKET_NAME env) key
                = processing w3 (BUCKET_NAME env) key) by reflexivity.
  assert (Hst4 : processing_state w4 (BUCKET_NAME env) key) by exact Hst3.
  split.
  - intros resp details job_id Hresp Hdet Hjob.
    set (w5 := fst (Ingest.update_sidecar_status env key
                      "ingestion_in_progress"
                      ("Ingestion job " ++ str env job_id ++ " in progress")
                      JNull w4)).
    set (w6 := fst (Ingest.update_document_status env user_id key
                      "ingestion_in_progress" job_id w5)).
    set (w7 := fst (Ingest.invoke_document_analysis env bucket key job_id w6)).
    assert (Hfst : fst run = w7).
    { rewrite Hrun. unfold bind at 1.
      unfold Ingest.bedrock_start_ingestion_job. rewrite Hstart, Hresp.
      fold w4.
      unfold bind at 1. unfold lift at 1. rewrite Hdet.
      unfold bind at 1. unfold lift at 1. rewrite Hjob.
      match goal with
      | |- fst (bind ?m ?f w4) = _ =>
          destruct (bind_returns m f w4
                      (returns_update_sidecar_status _ _ _ _)) as [a5 ->]
      end.
      fold w5.
      match goal with
      | |- fst (bind ?m ?f w5) = _ =>
          destruct (bind_returns m f w5
                      (returns_update_document_status _ _ _ _)) as [a6 ->]
      end.
      fold w6.
      match goal with
      | |- fst (bind ?m ?f w6) = _ =>
          destruct (bind_returns m f w6
                      (returns_invoke_document_analysis _ _ _)) as [a7 ->]
      end.
      reflexivity. }
    destruct (update_sidecar_status_chain w4 key "ingestion_in_progress"
                ("Ingestion job " ++ str env job_id ++ " in progress")
                JNull Hst4) as (Hch5 & Hcs5 & Hst5).
    fold w5 in Hch5, Hcs5, Hst5.
    assert (H6 : s3 w6 !! pk = s3 w5 !! pk).
    { apply (frame_update_document_status (fun w => s3 w !! pk));
        reflexivity. }
    assert (H7 : s3 w7 !! pk = s3 w6 !! pk).
    { apply (frame_invoke_document_analysis (fun w => s3 w !! pk));
        reflexivity. }
    destruct (processing_same w5 w7 (BUCKET_NAME env) key) as [Hp7 _].
    { fold pk. now rewrite H7, H6. }
    subst after. rewrite Hfst, Hp7, Hch5, Hcs5, Hp4, Hch3.
    eexists _, _. split; [| reflexivity].
    now rewrite <- app_assoc.
  - intros e Hraise.
    assert (Hfst : fst run = w4).
    { rewrite Hrun. unfold bind at 1.
      unfold Ingest.bedrock_start_ingestion_job. now rewrite Hstart, Hraise. }
    subst after. rewrite Hfst, Hp4, Hch3, Hcs3.
    eexists. split; reflexivity.
Qed.

End IngestionTriggerMore.

(** ** The upload initiator, beyond the declared size and type *)

Section UploadInitiatorMore.

Import DocumentUpload Observe.
Variable env : Env.

(** X25. What else the upload initiator refuses, each time without
    touching the world: an event without a request context is answered
    401; an identified caller is answered 400 when the event has no body,
    401 when the body is not JSON, and 400 when the body names no file. *)
Theorem upload_refusals (event : json) (w : World) :
  (forall d, event = JDict d -> Py.dict_get "requestContext" d = None ->
     lambda_handler env event w
     = (w, {| statusCode := 401; headers := cors_headers;
              body := JDict [ ("error",
                               JStr "Invalid authorization context") ] |}))
  /\ (forall user_id event_body,
        get_user_id_from_event event w = (w, Ok user_id) ->
        Py.get event "body" JNull = Ok event_body ->
        (Py.truthy event_body = false ->
         lambda_handler env event w
         = (w, reject [ ("error", JStr "Request body is required") ]))
        /\ (forall text,
              event_body = JStr text -> text <> EmptyString ->
              json_loads env text = None ->
              lambda_handler env event w
              = (w, {| statusCode := 401; headers := cors_headers;
                       body := JDict [ ("error",
                                        JStr (exn_text env JSONDecodeError)) ] |}))
        /\ (forall text b,
              event_body = JStr text -> text <> EmptyString ->
              json_loads env text = Some (JDict b) ->
              Py.truthy (declared b "filename" JNull) = false ->
              lambda_handler env event w
              = (w, reject [ ("error", JStr "filename is required") ]))).
Proof.
  split.
  - intros d -> Hd.
    unfold lambda_handler, handle, get_user_id_from_event,
      DocumentStatus.get_user_id_from_event.
    unfold bind at 1. unfold try_except, bind, lift. cbn [Py.getitem].
    now rewrite Hd.
  - intros user_id event_body Hu Hb.
    assert (Htext : forall text, text <> EmptyString ->
                                 Py.truthy (JStr text) = true).
    { intros text Hne. cbn.
      destruct (String.eqb_spec text ""); [contradiction | reflexivity]. }
    split; [| split].
    + intros Ht. unfold lambda_handler, handle.
      rewrite (bind_ok _ _ _ _ _ Hu). unfold bind, lift.
      now rewrite Hb, Ht.
    + intros text -> Hne Hl. unfold lambda_handler, handle.
      rewrite (bind_ok _ _ _ _ _ Hu). unfold bind at 1. unfold lift at 1.
      rewrite Hb, (Htext text Hne). cbn [negb].
      unfold bind at 1. unfold loads. now rewrite Hl.
    + intros text b -> Hne Hl Hf. unfold lambda_handler, handle.
      rewrite (bind_ok _ _ _ _ _ Hu). unfold bind at 1. unfold lift at 1.
      rewrite Hb, (Htext text Hne). cbn [negb].
      unfold bind at 1. unfold loads. rewrite Hl.
      cbn [ret]. unfold bind, lift. cbn [Py.get].
      fold (declared b "filename" JNull). now rewrite Hf.
Qed.



End UploadInitiatorMore.

(** ** The extraction worker, beyond the degraded extraction *)

Section WorkerInput.

Import DocumentAnalysis Observe.

Lemma rfind_char_app (c : ascii) (p s : string) (i : nat) :
  PyStr.rfind_char c s = Some i ->
  PyStr.rfind_char c (p ++ s) = Some (String.length p + i)%nat.
Proof.
  intros H. induction p as [|a p IH]; simpl; [exact H | now rewrite IH].
Qed.

Lemma rfind_char_app_none (c : ascii) (p s : string) :
  PyStr.rfind_char c s = None ->
  PyStr.rfind_char c (p ++ s) = PyStr.rfind_char c p.
Proof.
  intros H. induction p as [|a p IH]; simpl; [exact H | now rewrite IH].
Qed.

Lemma rfind_char_lt (c : ascii) (p : string) (i : nat) :
  PyStr.rfind_char c p = Some i -> (i < String.length p)%nat.
Proof.
  revert i. induction p as [|a p IH]; simpl; intros i H; [discriminate |].
  destruct (PyStr.rfind_char c p) as [j|].
  - injection H as <-. specialize (IH j eq_refl). lia.
  - destruct (Ascii.eqb a c); [injection H as <-; lia | discriminate].
Qed.

Lemma substring_app_tail (p s : string) (i n : nat) :
  String.substring (String.length p + i) n (p ++ s) = String.substring i n s.
Proof. induction p as [|a p IH]; simpl; [reflexivity | exact IH]. Qed.

Lemma substring_whole (p s : string) (i : nat) :
  String.substring 0 (String.length p + i) (p ++ s)
  = p ++ String.substring 0 i s.
Proof. induction p as [|a p IH]; simpl; [reflexivity | now rewrite IH]. Qed.

Lemma substring_app_span (p s : string) (f i : nat) :
  (f <= String.length p)%nat ->
  String.substring f (String.length p + i - f) (p ++ s)
  = String.substring f (String.length p - f) p ++ String.substring 0 i s.
Proof.
  revert f. induction p as [|a p IH]; intros f Hf.
  - simpl in Hf. assert (f = O) by lia. subst f. simpl.
    rewrite Nat.sub_0_r. now destruct (String.substring 0 i s).
  - destruct f as [|f].
    + rewrite !Nat.sub_0_r. rewrite substring_whole.
      change (String.length (String a p)) with (S (String.length p)).
      simpl. f_equal. f_equal.
      clear. induction p as [|b p IH]; simpl; [reflexivity | now f_equal].
    + simpl in Hf. simpl. apply IH. lia.
Qed.

(** A sidecar key has the extension [.json]. *)
Lemma splitext_sidecar (p suffix : string) :
  In suffix sidecar_suffixes -> splitext_ext (p ++ suffix) = ".json".
Proof.
  intros Hin.
  assert (H : exists i stem,
             PyStr.rfind_char "." suffix = Some i
             /\ PyStr.rfind_char "/" suffix = None
             /\ String.substring 0 i suffix = stem
             /\ forallb (fun a => Ascii.eqb a ".") (list_ascii_of_string stem)
                = false
             /\ String.substring i (String.length suffix - i) suffix = ".json").
  { unfold sidecar_suffixes in Hin. cbn [In] in Hin.
    destruct Hin as [<-|[<-|[<-|[<-|[<-|[]]]]]];
      eexists _, _; repeat split; reflexivity. }
  destruct H as (i & stem & Hdot & Hslash & Hstem & Hnd & Hext).
  unfold splitext_ext.
  rewrite (rfind_char_app "." p suffix i Hdot).
  rewrite (rfind_char_app_none "/" p suffix Hslash).
  set (filename_index := match PyStr.rfind_char "/" p with
                         | Some sep_index => S sep_index
                         | None => O
                         end).
  assert (Hfi : (filename_index <= String.length p)%nat).
  { subst filename_index.
    destruct (PyStr.rfind_char "/" p) as [j|] eqn:E; [| lia].
    apply rfind_char_lt in E. lia. }
  assert (Hle : (filename_index <=? String.length p + i)%nat = true)
    by (apply Nat.leb_le; lia).
  rewrite Hle. unfold PyStr.slice.
  rewrite (substring_app_span p suffix filename_index i Hfi), Hstem.
  rewrite chars_append, forallb_app, Hnd, andb_false_r. cbn [negb andb].
  rewrite length_append.
  replace (String.length p + String.length suffix - (String.length p + i))%nat
    with (String.length suffix - i)%nat by lia.
  now rewrite substring_app_tail.
Qed.

(** X27. An input the worker accepts names a bucket and a key that
    are not empty; the key has at least the four parts
    [users/{owner}/{type}/{filename}], so that its owner and its type can
    be read off it, and it is never the key of a sidecar: the worker
    refuses to analyse the sidecars it writes. *)
Theorem worker_accepts_document_keys_only
    (event : json) (s3_bucket s3_key : string) (ingestion_job_id : json) :
  validate_input event = Ok (s3_bucket, s3_key, ingestion_job_id) ->
  s3_bucket <> EmptyString
  /\ s3_key <> EmptyString
  /\ SidecarManager.is_sidecar_file s3_key = false
  /\ (exists owner type filename rest,
        PyStr.split "/" s3_key = "users" :: owner :: type :: filename :: rest
        /\ Ingest.extract_user_id_from_s3_key s3_key = JStr owner
        /\ metadata_user_id s3_key = owner
        /\ get_document_type_from_key s3_key = type).
Proof.
  intros H.
  destruct (validate_input_nonempty _ _ _ _ H) as [Hb Hk].
  split; [exact Hb |]. split; [exact Hk |].
  unfold validate_input in H.
  destruct (get_stripped event "s3Bucket") as [b|]; [| discriminate].
  destruct (get_stripped event "s3Key") as [k|]; [| discriminate].
  destruct (Py.get event "ingestionJobId" JNull) as [j|]; [| discriminate].
  destruct (String.eqb b ""); [discriminate |].
  destruct (String.eqb k ""); [discriminate |].
  destruct ((length (PyStr.split "/" k) <? 4)%nat
            || negb (String.eqb (hd "" (PyStr.split "/" k)) "users")) eqn:Ef;
    [discriminate |].
  destruct (negb (String.eqb (PyStr.lower (splitext_ext k)) "")
            && negb (existsb (String.eqb (PyStr.lower (splitext_ext k)))
                       allowed_extensions)) eqn:Ee; [discriminate |].
  injection H as _ <- _.
  apply orb_false_iff in Ef as [Hlen Hhd].
  apply Nat.ltb_ge in Hlen. apply negb_false_iff in Hhd.
  split.
  - destruct (SidecarManager.is_sidecar_file k) eqn:Es; [| reflexivity].
    apply is_sidecar_file_iff in Es as (p & suffix & Hin & ->).
    rewrite (splitext_sidecar p suffix Hin) in Ee. discriminate Ee.
  - unfold Ingest.extract_user_id_from_s3_key, metadata_user_id,
      get_document_type_from_key.
    destruct (PyStr.split "/" k) as [|p0 [|p1 [|p2 [|p3 rest]]]];
      cbn [length] in Hlen; try lia.
    cbn [hd] in Hhd. apply String.eqb_eq in Hhd. subst p0.
    exists p1, p2, p3, rest. cbn [String.eqb Ascii.eqb Bool.eqb]. auto.
Qed.

End WorkerInput.

Section WorkerFailures.

Import DocumentAnalysis Observe.
Variable env : Env.

(** X28. A worker that is not configured, or that is given an input
    it does not accept, answers without touching the world: 400 when the
    refusal is a [ValueError], 500 otherwise; no sidecar is updated, as no
    document has been identified yet. *)
Theorem worker_refuses_without_side_effect (event : json) (w : World) :
  (BUCKET_NAME env = EmptyString ->
   lambda_handler env event w
   = (w, {| statusCode := 400; headers := [];
            body := JDict [ ("error",
                             JStr ("Invalid input: "
                                   ++ "BUCKET_NAME environment variable not configured")) ] |}))
  /\ (forall e,
        BUCKET_NAME env <> EmptyString ->
        validate_input event = Raise e ->
        fst (lambda_handler env event w) = w
        /\ statusCode (snd (lambda_handler env event w))
           = match e with
             | ValueError _ | JSONDecodeError => 400
             | _ => 500
             end).
Proof.
  split.
  - intros Hb. unfold lambda_handler, validate_environment, bind.
    now rewrite Hb.
  - intros e Hb He. unfold lambda_handler, validate_environment, bind, lift.
    rewrite (eqb_ne _ _ Hb), He. cbn [ret].
    destruct e; split; reflexivity.
Qed.

Lemma extract_text_missing (w : World) (s3_bucket s3_key : string) :
  s3 w !! (s3_bucket, s3_key) = None ->
  s3_bucket <> EmptyString -> s3_key <> EmptyString ->
  extract_text_from_document env s3_bucket s3_key w
  = (w, Raise (ValueError ("Document not found: " ++ s3_key))).
Proof.
  intros Ho Hb Hk.
  unfold extract_text_from_document, try_except, bind, get_object.
  rewrite (eqb_ne _ _ Hb), (eqb_ne _ _ Hk). cbn [orb]. now rewrite Ho.
Qed.

Lemma metadata_table_iter_tick (n : nat) (w : World) :
  metadata_table (Nat.iter n tick w) = metadata_table w.
Proof. induction n as [|n IH]; [reflexivity | exact IH]. Qed.

(** X29. When the document the worker is asked to analyse is not in
    the bucket, the run is answered 400 and the failure is recorded on the
    document: the status chain of its processing sidecar is extended by
    [ai_analysis_started] and then [validation_failed], which becomes the
    current status; the document table is left as it is. *)
Theorem worker_records_missing_document
    (event : json) (s3_bucket s3_key : string) (ingestion_job_id : json)
    (w : World) :
  BUCKET_NAME env <> EmptyString ->
  validate_input event = Ok (s3_bucket, s3_key, ingestion_job_id) ->
  processing_state w (BUCKET_NAME env) s3_key ->
  s3 w !! (s3_bucket, s3_key) = None ->
  let run := lambda_handler env event w in
  let after := processing (fst run) (BUCKET_NAME env) s3_key in
  snd run
  = {| statusCode := 400; headers := [];
       body := JDict [ ("error",
                        JStr ("Invalid input: Document not found: "
                              ++ s3_key)) ] |}
  /\ (exists t1 t2,
        statusChain after
        = (statusChain (processing w (BUCKET_NAME env) s3_key)
           ++ [ chain_entry "ai_analysis_started" t1
                  "Starting AI extraction with Claude";
                chain_entry "validation_failed" t2
                  ("Error: Validation error: Document not found: "
                   ++ s3_key) ])%list)
  /\ currentStatus after = Some (JStr "validation_failed")
  /\ metadata_table (fst run) = metadata_table w.
Proof.
  intros Hbn Hv Hst Hmiss run after.
  destruct (validate_input_nonempty _ _ _ _ Hv) as [Hb Hk].
  destruct (append_processing_status_run env (sidecar_manager env) w s3_key
              "ai_analysis_started" "Starting AI extraction with Claude"
              None Hst)
    as (data & n & created & Hrun & Hwf & Hch & Hcs).
  cbn [SidecarManager.bucket sidecar_manager] in *.
  set (pk := (BUCKET_NAME env, s3_key ++ ".processing.json")) in *.
  set (w1 := set_s3 _ _) in Hrun.
  assert (Hw1 : s3 w1 !! pk
                = Some (sidecar_object "processing" s3_key data created)).
  { subst w1. cbn [s3 set_s3]. apply lookup_insert_eq. }
  assert (Hmiss1 : s3 w1 !! (s3_bucket, s3_key) = None).
  { subst w1. cbn [s3 set_s3]. rewrite lookup_insert_ne.
    - now rewrite s3_iter_tick.
    - apply not_eq_sym, key_ne_sidecar_key. discriminate. }
  assert (Hst1 : processing_state (tick w1) (BUCKET_NAME env) s3_key).
  { unfold processing_state. fold pk.
    change (s3 (tick w1)) with (s3 w1). now rewrite Hw1. }
  assert (Hp1 : processing (tick w1) (BUCKET_NAME env) s3_key = Some data).
  { unfold processing, sidecar. fold pk.
    change (s3 (tick w1)) with (s3 w1). now rewrite Hw1. }
  destruct (append_processing_status_run env (sidecar_manager env) (tick w1)
              s3_key "validation_failed"
              ("Error: Validation error: Document not found: " ++ s3_key)
              (Some [ ("error",
                       JStr ("Validation error: Document not found: "
                             ++ s3_key));
                      ("timestamp", JTime (utcnow_at env (clock w1))) ])
              Hst1)
    as (data2 & n2 & created2 & Hrun2 & Hwf2 & Hch2 & Hcs2).
  cbn [SidecarManager.bucket sidecar_manager] in *. fold pk in Hrun2.
  set (w2 := set_s3 _ _) in Hrun2.
  assert (Hrun' : run
                  = (w2, {| statusCode := 400; headers := [];
                            body := JDict [ ("error",
                                             JStr ("Invalid input: Document not found: "
                                                   ++ s3_key)) ] |})).
  { subst run. unfold lambda_handler, validate_environment.
    unfold bind at 1. rewrite (eqb_ne _ _ Hbn). cbn [ret lift]. rewrite Hv.
    unfold analyse. rewrite (bind_ok _ _ _ _ _ Hrun).
    rewrite (bind_raise _ _ _ _ _
               (extract_text_missing w1 s3_bucket s3_key Hmiss1 Hb Hk)).
    unfold on_error, update_sidecar_error. cbn [str_exn].
    destruct s3_key as [|a k]; [congruence |].
    unfold try_except. unfold bind at 1. unfold utcnow_iso at 1.
    unfold bind at 1. cbn [utcnow ret].
    match type of Hrun2 with
    | ?m = _ =>
        match goal with
        | |- context [SidecarManager.append_processing_status
                        ?e ?s ?k0 ?st ?d ?ei ?w0] =>
            change (SidecarManager.append_processing_status e s k0 st d ei w0)
              with m
        end
    end.
    now rewrite Hrun2. }
  rewrite Hrun'. cbn [fst snd]. split; [reflexivity |].
  assert (Hafter : after = Some data2).
  { subst after. rewrite Hrun'. cbn [fst]. unfold processing, sidecar.
    fold pk. subst w2. cbn [s3 set_s3]. now rewrite lookup_insert_eq. }
  rewrite Hafter, Hch2, Hcs2, Hp1, Hch.
  split; [| split; [reflexivity |]].
  - eexists _, _. now rewrite <- app_assoc.
  - subst w2 w1. cbn [metadata_table set_s3 tick].
    rewrite metadata_table_iter_tick. cbn [metadata_table set_s3 tick].
    apply metadata_table_iter_tick.
Qed.

End WorkerFailures.

(** ** The properties at work in the small deployment *)

Section MoreExamples.

Import Observe Scenario.

Lemma upload_key_encodes_owner_and_type_witness :
  PyStr.contains_char "/" "u1" = false
  /\ Ingest.extract_user_id_from_s3_key key_a = JStr "u1"
  /\ DocumentAnalysis.get_document_type_from_key key_a = "other".
Proof.
  split; [reflexivity |].
  destruct (upload_key_encodes_owner_and_type "u1" "other"
              (document_id ++ "-report.txt") eq_refl eq_refl)
    as (H1 & H2 & _).
  split; [exact H1 | exact H2].
Defined.

Lemma extract_document_id_fallbacks_witness :
  PyStr.contains_char "/" "notes.txt" = false
  /\ Ingest.extract_document_id_from_s3_key "users/u1/other/notes.txt"
     = "notes".
Proof.
  split; [reflexivity |].
  exact (proj1 (extract_document_id_fallbacks "users/u1/other" "notes.txt"
                  eq_refl) eq_refl).
Defined.

Lemma status_projection_bounds_witness :
  exists info,
    DocumentStatus.status_map_get (JStr "upload_complete") = Ok info
    /\ 0 <= DocumentStatus.progress info <= 100.
Proof.
  eexists. split; [reflexivity |].
  exact (proj1 (status_projection_bounds (JStr "upload_complete") _ eq_refl)).
Defined.

(** *** The poller *)

Lemma nothing_in_flight :
  forall k doc,
    metadata_table (world_with analysed) !! k = Some doc ->
    in_flight doc = false.
Proof.
  intros k doc H. cbn [world_with metadata_table set_metadata_table
                       empty_world] in H.
  apply lookup_insert_Some in H as [[_ <-]|[_ H]]; [reflexivity |].
  rewrite lookup_empty in H. discriminate H.
Defined.

Lemma poller_idle_when_nothing_in_flight_witness :
  fst (StatusChecker.lambda_handler env (world_with analysed))
  = world_with analysed.
Proof.
  exact (proj1 (poller_idle_when_nothing_in_flight env (world_with analysed)
                  nothing_in_flight)).
Defined.

Lemma mixed_world_well_keyed : well_keyed mixed_world.
Proof.
  intros k doc H. cbn [mixed_world metadata_table set_metadata_table
                       empty_world] in H.
  apply lookup_insert_Some in H as [[<- <-]|[_ H]]; [reflexivity |].
  apply lookup_insert_Some in H as [[<- <-]|[_ H]]; [reflexivity |].
  rewrite lookup_empty in H. discriminate H.
Defined.

Lemma mixed_world_settled :
  metadata_table mixed_world !! ("u2", document_id) = Some settled.
Proof. apply lookup_insert_eq. Defined.

Lemma mixed_world_failed :
  metadata_table mixed_world !! ("u1", document_id) = Some failed.
Proof.
  cbn [mixed_world metadata_table set_metadata_table empty_world].
  rewrite lookup_insert_ne by discriminate. apply lookup_insert_eq.
Defined.

Lemma poller_leaves_settled_records_witness :
  well_keyed mixed_world
  /\ in_flight settled = false
  /\ metadata_table (fst (StatusChecker.lambda_handler env mixed_world))
     !! ("u2", document_id) = Some settled.
Proof.
  split; [exact mixed_world_well_keyed |]. split; [reflexivity |].
  exact (poller_leaves_settled_records env mixed_world ("u2", document_id)
           settled mixed_world_well_keyed mixed_world_settled eq_refl).
Defined.

Lemma poller_run_settles_record_witness :
  well_keyed mixed_world
  /\ in_flight failed = true
  /\ exists it : item,
       metadata_table (fst (StatusChecker.lambda_handler env mixed_world))
       !! ("u1", document_id) = Some it
       /\ StatusChecker.attr it "currentStatus" = JStr "error"
       /\ StatusChecker.attr it "errorMessage" = JStr "quota exceeded".
Proof.
  split; [exact mixed_world_well_keyed |]. split; [reflexivity |].
  destruct (poller_run_settles_record env mixed_world ("u1", document_id)
              failed
              (job_response "FAILED"
                 [ ("failureReasons", JList [ JStr "quota exceeded" ]) ])
              (JDict [ ("ingestionJobId", JStr "job-12345");
                       ("status", JStr "FAILED");
                       ("failureReasons", JList [ JStr "quota exceeded" ]) ])
              mixed_world_well_keyed mixed_world_failed eq_refl eq_refl
              (fun _ => eq_refl) eq_refl) as [H _].
  exact (H [ "quota exceeded" ] eq_refl eq_refl).
Defined.

(** *** The sidecar store *)


Lemma initiated_world_parsed : parsed_sidecars initiated_world "docs" key_a.
Proof.
  intros ty k o Hk Ho.
  destruct (get_sidecar_key_cases _ _ _ Hk) as (suffix & Hin & ->).
  unfold SidecarManager.SIDECAR_TYPES in Hin. cbn [In] in Hin.
  destruct Hin as [Hin|[Hin|[Hin|[Hin|[Hin|[]]]]]];
    injection Hin as _ <-; vm_compute in Ho;
    first [ discriminate Ho | injection Ho as <-; eexists; reflexivity ].
Defined.

Lemma get_all_sidecars_collects_witness :
  parsed_sidecars initiated_world "docs" key_a
  /\ exists d,
       SidecarManager.get_all_sidecars env docs key_a initiated_world
       = (initiated_world, Ok (JDict d))
       /\ Py.dict_get "processing" d = Some seeded_processing
       /\ Py.dict_get "audit" d = None.
Proof.
  split; [exact initiated_world_parsed |].
  destruct (get_all_sidecars_collects env docs initiated_world key_a
              initiated_world_parsed) as (d & Hd & Hget).
  exists d. split; [exact Hd |].
  rewrite !Hget. split; vm_compute; reflexivity.
Defined.

Lemma append_audit_event_extends_trail_witness :
  audit_state initiated_world "docs" key_a
  /\ events
       (audit
          (fst (SidecarManager.append_audit_event env docs key_a "viewed"
                  (JStr "u1") [] initiated_world))
          "docs" key_a)
     = [ audit_entry 0 "viewed" (JStr "u1") [] ].
Proof.
  assert (H : audit_state initiated_world "docs" key_a)
    by (vm_compute; exact I).
  split; [exact H |].
  destruct (append_audit_event_extends_trail env docs initiated_world key_a
              "viewed" (JStr "u1") [] H) as (_ & He & _).
  etransitivity; [exact He | vm_compute; reflexivity].
Defined.

Lemma append_processing_status_records_error_witness :
  processing_state initiated_world "docs" key_a
  /\ errors
       (processing
          (fst (SidecarManager.append_processing_status env docs key_a
                  "ai_analysis_failed" "Error: timeout"
                  (Some [ ("error", JStr "timeout") ]) initiated_world))
          "docs" key_a)
     = [ JDict [ ("timestamp", JTime 1000000); ("error", JStr "timeout") ] ].
Proof.
  assert (H : processing_state initiated_world "docs" key_a)
    by (vm_compute; reflexivity).
  split; [exact H |].
  etransitivity;
    [ exact (append_processing_status_records_error env docs initiated_world
               key_a "ai_analysis_failed" "Error: timeout"
               (Some [ ("error", JStr "timeout") ]) H)
    | vm_compute; reflexivity ].
Defined.

(** *** The ingestion trigger *)

Lemma notification_is_creation (key : string) :
  creation_notification (notification key) (JStr "docs") key.
Proof.
  exists "ObjectCreated:Put". do 3 eexists.
  repeat split; reflexivity.
Defined.

Lemma trigger_record_makes_one_start_call_witness :
  creation_notification (notification key_a) (JStr "docs") key_a
  /\ SidecarManager.is_sidecar_file key_a = false
  /\ ingestion_calls
       (fst (Ingest.process_s3_record env (notification key_a) "request-1"
               uploaded_world))
     = [ [ ("knowledgeBaseId", JStr "kb-789");
           ("dataSourceId", JStr "ds-456");
           ("clientToken", JStr "request-1") ] ].
Proof.
  split; [exact (notification_is_creation key_a) |].
  assert (Hs : SidecarManager.is_sidecar_file key_a = false)
    by (vm_compute; reflexivity).
  split; [exact Hs |].
  exact (trigger_record_makes_one_start_call env (notification key_a)
           (JStr "docs") key_a "request-1" uploaded_world
           (notification_is_creation key_a) Hs).
Defined.

Lemma trigger_skips_what_is_not_a_document_witness :
  Ingest.lambda_handler env
    (batch [ removal key_a; notification (key_a ++ ".audit.json") ])
    "request-1" uploaded_world
  = (uploaded_world,
     JDict [ ("status", JStr "success");
             ("message", JStr "Ingestion processing complete") ]).
Proof.
  apply trigger_skips_what_is_not_a_document.
  apply List.Forall_cons.
  - left. exists "ObjectRemoved:Delete". split; reflexivity.
  - apply List.Forall_cons; [| apply List.Forall_nil].
    right. exists (JStr "docs"), (key_a ++ ".audit.json").
    split; [exact (notification_is_creation _) | vm_compute; reflexivity].
Defined.

Lemma retried_world_starts :
  start_ingestion_job env (length (ingestion_calls retried_world))
    [ ("knowledgeBaseId", KNOWLEDGE_BASE_ID env);
      ("dataSourceId", DATA_SOURCE_ID env);
      ("clientToken", JStr "request-2") ]
  = Ok (job_response "STARTING" []).
Proof. vm_compute. reflexivity. Defined.

Lemma trigger_record_success_witness :
  creation_notification (notification key_a) (JStr "docs") key_a
  /\ snd (Ingest.process_s3_record env (notification key_a) "request-2"
            retried_world)
     = Ok (JDict [ ("ingestionJobId", JStr "job-12345");
                   ("status", JStr "STARTING") ])
  /\ invocations
       (fst (Ingest.process_s3_record env (notification key_a) "request-2"
               retried_world))
     = [ ("document-analysis",
          [ ("s3Bucket", JStr "docs"); ("s3Key", JStr key_a);
            ("ingestionJobId", JStr "job-12345") ]) ].
Proof.
  split; [exact (notification_is_creation key_a) |].
  destruct (trigger_record_success env (notification key_a) (JStr "docs")
              key_a "request-2" retried_world
              (job_response "STARTING" [])
              (JDict [ ("ingestionJobId", JStr "job-12345");
                       ("status", JStr "STARTING") ])
              (JStr "job-12345")
              (notification_is_creation key_a) eq_refl retried_world_starts
              eq_refl eq_refl) as (Hr & Hi & _).
  split; [exact Hr |].
  etransitivity; [exact Hi | vm_compute; reflexivity].
Defined.

Lemma trigger_record_extends_chain_witness :
  processing_state retried_world "docs" key_a
  /\ currentStatus
       (processing
          (fst (Ingest.process_s3_record env (notification key_a)
                  "request-2" retried_world))
          "docs" key_a)
     = Some (JStr "ingestion_in_progress").
Proof.
  assert (H : processing_state retried_world "docs" key_a)
    by (vm_compute; reflexivity).
  split; [exact H |].
  destruct (trigger_record_extends_chain env (notification key_a)
              (JStr "docs") key_a "request-2" retried_world
              (notification_is_creation key_a) eq_refl H) as [Hok _].
  destruct (Hok (job_response "STARTING" [])
              (JDict [ ("ingestionJobId", JStr "job-12345");
                       ("status", JStr "STARTING") ])
              (JStr "job-12345") retried_world_starts eq_refl eq_refl)
    as (t1 & t2 & _ & Hcs).
  exact Hcs.
Defined.

(** *** The upload initiator *)



(** *** The extraction worker *)

Lemma worker_accepts_document_keys_only_witness :
  DocumentAnalysis.validate_input analysis_event
  = Ok ("docs", key_a, JStr "job-12345")
  /\ SidecarManager.is_sidecar_file key_a = false.
Proof.
  assert (H : DocumentAnalysis.validate_input analysis_event
              = Ok ("docs", key_a, JStr "job-12345"))
    by (vm_compute; reflexivity).
  split; [exact H |].
  exact (proj1 (proj2 (proj2 (worker_accepts_document_keys_only
                                analysis_event "docs" key_a
                                (JStr "job-12345") H)))).
Defined.

Lemma worker_records_missing_document_witness :
  DocumentAnalysis.validate_input analysis_event
  = Ok ("docs", key_a, JStr "job-12345")
  /\ statusCode
       (snd (DocumentAnalysis.lambda_handler env analysis_event empty_world))
     = 400
  /\ currentStatus
       (processing
          (fst (DocumentAnalysis.lambda_handler env analysis_event
                  empty_world))
          "docs" key_a)
     = Some (JStr "validation_failed").
Proof.
  assert (H : DocumentAnalysis.validate_input analysis_event
              = Ok ("docs", key_a, JStr "job-12345"))
    by (vm_compute; reflexivity).
  split; [exact H |].
  destruct (worker_records_missing_document env analysis_event "docs" key_a
              (JStr "job-12345") empty_world)
    as (Hr & _ & Hcs & _).
  - discriminate.
  - exact H.
  - vm_compute. exact I.
  - reflexivity.
  - split; [now rewrite Hr | exact Hcs].
Defined.

End MoreExamples.
